(** * WESTPA kinetics averaging ([w_kinavg.py]) and basis-state files
    ([wemd/states.py]): a shallow embedding and its properties.

    Python integers are [Z]; Python floats ([alpha], [window_frac], rates)
    are idealised as exact rationals [Q]; exceptions are values of [exn]
    carried by the sum type [exn + A]. *)

From Stdlib Require Import ZArith QArith Qround Lia Lqa Ascii String.
From stdpp Require Import gmap strings list sorting pretty.

Open Scope Z_scope.

(** ** Exceptions and the error monad *)

Inductive exn : Type :=
  | IndexError
  | ValueError
  | TypeError
  | NameError
  | ZeroDivisionError
  | IOError
  | AssertionError
  | RuntimeError
  | ComputationFailure.

Definition ebind {A B : Type} (m : exn + A) (k : A -> exn + B) : exn + B :=
  match m with
  | inl e => inl e
  | inr a => k a
  end.

Notation "'let*' x ':=' m 'in' k" := (ebind m (fun x => k))
  (at level 10, x pattern, m at level 100, k at level 200).

Definition raise {A : Type} (e : exn) : exn + A := inl e.
Definition ret {A : Type} (a : A) : exn + A := inr a.

(** ** Python built-ins used by the tool *)

(** [range(start, stop, step)] / [xrange]: count from [start] while the
    bound is not reached.  [fuel] bounds the number of elements. *)
Fixpoint range_up (fuel : nat) (i stop step : Z) : list Z :=
  match fuel with
  | O => []
  | S f => if i <? stop then i :: range_up f (i + step) stop step else []
  end.

Fixpoint range_down (fuel : nat) (i stop step : Z) : list Z :=
  match fuel with
  | O => []
  | S f => if stop <? i then i :: range_down f (i + step) stop step else []
  end.

(** [range] raises [ValueError] when [step = 0]; both callers return before
    calling it in that case ([not step_iter]), so the value chosen here for
    [step = 0] is never observed. *)
Definition py_range (start stop step : Z) : list Z :=
  if 0 <? step then range_up (Z.to_nat (stop - start)) start stop step
  else if step <? 0 then range_down (Z.to_nat (start - stop)) start stop step
  else [].

Definition xrange (start stop : Z) : list Z := py_range start stop 1.

(** Number of elements of [range(start, stop, step)] for a positive step
    (the ceiling of [(stop - start) / step]). *)
Definition range_len (start stop step : Z) : Z := (stop - start + step - 1) / step.

(** [enumerate(l)] *)
Fixpoint enumerate_from {A : Type} (i : Z) (l : list A) : list (Z * A) :=
  match l with
  | [] => []
  | x :: r => (i, x) :: enumerate_from (i + 1) r
  end.

Definition enumerate {A : Type} (l : list A) : list (Z * A) := enumerate_from 0 l.

(** [int(x)] on a float: truncation toward zero. *)
Definition py_int (q : Q) : Z := Z.quot (Qnum q) (Zpos (Qden q)).

(** ** Evolution windows ([AvgTraceSubcommand.go], [AvgMatrixSubcommand.go]) *)

Inductive evolution_mode : Type := cumulative | blocked | none.

Inductive estimate_type : Type := bootstrap | block.

(** The body of [for iblock, start in enumerate(start_pts)] up to the
    computation of [(block_start, stop)]; the same text appears in both
    subcommands. *)
Definition plan_block (mode : evolution_mode) (evol_window_frac : Q)
    (start_iter stop_iter step_iter : Z) (start : Z) : Z * Z :=
  let stop := Z.min (start + step_iter) stop_iter in
  match mode with
  | cumulative =>
      let windowsize := py_int (evol_window_frac * inject_Z (stop - start_iter)) in
      let block_start := Z.max start_iter (stop - windowsize) in
      (block_start, stop)
  | _ => (start, stop)
  end.

Definition start_pts (start_iter stop_iter step_iter : Z) : list Z :=
  py_range start_iter stop_iter step_iter.

(** The windows dispatched, with their [iblock] label, in submission order.
    [mode = none] or [step_iter = 0] skips evolution altogether. *)
Definition evolution_windows (mode : evolution_mode) (evol_window_frac : Q)
    (start_iter stop_iter step_iter : Z) : list (Z * (Z * Z)) :=
  match mode with
  | none => []
  | _ =>
      if step_iter =? 0 then []
      else map (fun '(iblock, start) =>
                  (iblock, plan_block mode evol_window_frac start_iter stop_iter step_iter start))
               (enumerate (start_pts start_iter stop_iter step_iter))
  end.

(** [l[i]] on a Python list or a 1-D numpy array: a negative index counts
    from the end, an index out of range raises [IndexError]. *)
Definition py_getitem {A : Type} (l : list A) (i : Z) : exn + A :=
  let n := Z.of_nat (length l) in
  let j := if i <? 0 then i + n else i in
  if (0 <=? j) && (j <? n) then
    match l !! Z.to_nat j with
    | Some x => ret x
    | None => raise IndexError
    end
  else raise IndexError.

(** ** Basis-state files ([wemd/states.py]) *)

(** Python values that occur as constructor arguments. *)
Inductive pyval : Type :=
  | VNone
  | VStr (s : string)
  | VFloat (q : Q).

(** A formal parameter of a Python function: its name and its default
    ([None] here: the parameter is required). *)
Record param : Type := { p_name : string; p_default : option pyval }.

(** Binding of a call with keyword arguments only: a keyword that is not a
    parameter name, or a required parameter without argument, raises
    [TypeError]. *)
Definition kw_lookup (kwargs : list (string * pyval)) (name : string) : option pyval :=
  snd <$> List.find (fun kv => String.eqb (fst kv) name) kwargs.

Definition is_param (params : list param) (name : string) : bool :=
  existsb (fun p => String.eqb (p_name p) name) params.

Fixpoint bind_params (params : list param) (kwargs : list (string * pyval))
  : exn + list (string * pyval) :=
  match params with
  | [] => ret []
  | p :: ps =>
      let* v := match kw_lookup kwargs (p_name p) with
                | Some v => ret v
                | None => match p_default p with
                          | Some d => ret d
                          | None => raise TypeError
                          end
                end in
      let* rest := bind_params ps kwargs in
      ret ((p_name p, v) :: rest)
  end.

Definition call_kwargs (params : list param) (kwargs : list (string * pyval))
  : exn + list (string * pyval) :=
  if forallb (fun kv => is_param params (fst kv)) kwargs
  then bind_params params kwargs
  else raise TypeError.

Record BasisState : Type := {
  bs_label : pyval;
  bs_probability : pyval;
  bs_pcoord : pyval;
  bs_auxref : pyval;
  bs_state_id : pyval
}.

(** [def __init__(self, label, probability, pcoord=None, auxref=None, state_id=None)] *)
Definition BasisState_init_params : list param :=
  [ {| p_name := "label"; p_default := None |};
    {| p_name := "probability"; p_default := None |};
    {| p_name := "pcoord"; p_default := Some VNone |};
    {| p_name := "auxref"; p_default := Some VNone |};
    {| p_name := "state_id"; p_default := Some VNone |} ].

Definition arg (bound : list (string * pyval)) (name : string) : pyval :=
  default VNone (kw_lookup bound name).

(** The call [cls(...)] with keyword arguments, for [cls = BasisState]. *)
Definition BasisState_new (kwargs : list (string * pyval)) : exn + BasisState :=
  let* bound := call_kwargs BasisState_init_params kwargs in
  ret {| bs_label := arg bound "label";
         bs_probability := arg bound "probability";
         bs_pcoord := arg bound "pcoord";
         bs_auxref := arg bound "auxref";
         bs_state_id := arg bound "state_id" |}.

(** Whitespace for [str.strip] and [str.split]: space, tab, newline,
    vertical tab, form feed, carriage return. *)
Definition is_space (c : ascii) : bool :=
  let n := nat_of_ascii c in
  (n =? 32)%nat || ((9 <=? n)%nat && (n <=? 13)%nat).

Fixpoint lstrip (s : list ascii) : list ascii :=
  match s with
  | c :: r => if is_space c then lstrip r else s
  | [] => []
  end.

Definition py_strip_chars (s : list ascii) : list ascii :=
  rev (lstrip (rev (lstrip s))).

Definition py_strip (s : string) : string :=
  string_of_list_ascii (py_strip_chars (list_ascii_of_string s)).

(** [s.partition(sep)[0]] for a one-character separator: the text before
    its first occurrence (all of [s] when there is none). *)
Fixpoint before_char (sep : ascii) (s : list ascii) : list ascii :=
  match s with
  | c :: r => if Ascii.eqb c sep then [] else c :: before_char sep r
  | [] => []
  end.

Definition py_partition_head (sep : ascii) (s : string) : string :=
  string_of_list_ascii (before_char sep (list_ascii_of_string s)).

(** [s.split()]: the maximal runs of non-whitespace characters. [cur] holds
    the current run, reversed. *)
Fixpoint split_ws (cur : list ascii) (s : list ascii) : list (list ascii) :=
  match s with
  | [] => match cur with [] => [] | _ => [rev cur] end
  | c :: r =>
      if is_space c then
        match cur with
        | [] => split_ws [] r
        | _ => rev cur :: split_ws [] r
        end
      else split_ws (c :: cur) r
  end.

Definition py_split (s : string) : list string :=
  map string_of_list_ascii (split_ws [] (list_ascii_of_string s)).

(** The text of a line once its comment is removed and it is stripped. *)
Definition data_part (line : string) : string :=
  py_strip (py_partition_head "#" line).

Definition is_empty (s : string) : bool :=
  match s with EmptyString => true | _ => false end.

(** The loop of [BasisState.states_from_file] over the lines of the file.
    [py_float] is Python's [float()] on a string ([None]: [ValueError]). *)
Fixpoint states_from_lines (py_float : string -> option Q)
    (lines : list string) (states : list BasisState) : exn + list BasisState :=
  match lines with
  | [] => ret states
  | line :: rest =>
      let line := data_part line in
      if is_empty line then states_from_lines py_float rest states
      else
        let fields := py_split line in
        let* label := py_getitem fields 0 in
        let* probability :=
          (let* f1 := py_getitem fields 1 in
           match py_float f1 with
           | Some p => ret p
           | None => raise ValueError
           end) in
        let data_ref :=
          match py_getitem fields 2 with
          | inr f2 => VStr (py_strip f2)
          | inl _ => VNone
          end in
        let* st := BasisState_new [ ("state_id", VNone);
                                    ("probability", VFloat probability);
                                    ("label", VStr label);
                                    ("data_ref", data_ref) ] in
        states_from_lines py_float rest (states ++ [st])
  end.

(** [BasisState.states_from_file(filename)]; the file system maps a name to
    the lines of the file, and opening a missing file raises [IOError]. *)
Definition states_from_file (py_float : string -> option Q)
    (fs : gmap string (list string)) (filename : string) : exn + list BasisState :=
  match fs !! filename with
  | None => raise IOError
  | Some lines => states_from_lines py_float lines []
  end.

(** A line that defines a state: something is left once the comment is
    removed. *)
Definition is_data_line (line : string) : Prop := data_part line <> EmptyString.

(** A data line whose second field is accepted by [float()]. *)
Definition has_float_probability (py_float : string -> option Q) (line : string) : Prop :=
  is_data_line line /\
  exists f1 p, py_split (data_part line) !! 1%nat = Some f1 /\ py_float f1 = Some p.

(** A small [float()] for examples: unsigned decimal integers. *)
Fixpoint digits_value (acc : Z) (s : list ascii) : option Z :=
  match s with
  | [] => Some acc
  | c :: r =>
      let n := nat_of_ascii c in
      if (48 <=? n)%nat && (n <=? 57)%nat
      then digits_value (10 * acc + Z.of_nat (n - 48)) r
      else None
  end.

Definition float_of_digits (s : string) : option Q :=
  match list_ascii_of_string s with
  | [] => None
  | cs => inject_Z <$> digits_value 0 cs
  end.

(** ** numpy helpers *)

(** A value stored with [dtype=numpy.uintc] (unsigned 32-bit, wrapping). *)
Definition uintc (z : Z) : Z := z mod 2 ^ 32.

(** [numpy.arange(start, stop, step, dtype=numpy.uintc)]. *)
Definition np_arange_uintc (start stop step : Z) : exn + list Z :=
  if step =? 0 then raise ZeroDivisionError
  else ret (map uintc (py_range start stop step)).

#[global] Instance Qle_decision (x y : Q) : Decision (x <= y)%Q.
Proof.
  destruct (Qle_bool x y) eqn:E.
  - left. apply Qle_bool_iff. exact E.
  - right. intros H. apply Qle_bool_iff in H. congruence.
Defined.

#[global] Instance Qle_total : Total Qle.
Proof.
  intros x y. destruct (Qlt_le_dec x y) as [H|H]; [left; apply Qlt_le_weak, H|right; exact H].
Qed.

(** [a.sort()] on a 1-D float array. *)
Definition np_sort (a : list Q) : list Q := merge_sort Qle a.

(** ** Confidence interval of one rate ([_calc_ci_block]) *)

(** What [_calc_ci_block] takes from outside this file: the two HDF5 files
    it reads, the running sums it keeps, [westpa.kinetics]
    ([labeled_flux_to_rate] followed by [get_macrostate_rates], as one
    operation on the averaged fluxes and populations), [mclib.mcbs_correltime]
    and [random.randint], which threads the generator state. *)
Class Kinetics : Type := {
  Obs : Type;
  Acc : Type;
  MacroFlux : Type;
  Series : Type;
  Rates : Type;
  RNG : Type;
  read_iter : Z -> exn + Obs;
  acc_zero : Acc;
  acc_add : Acc -> Obs -> Acc;
  acc_div : Acc -> Z -> Acc;
  macro_flux : Obs -> MacroFlux;
  macro_row : MacroFlux -> Z -> exn + Series;
  get_macrostate_rates : Acc -> bool -> exn + Rates;
  rate_at : Rates -> Z -> Z -> exn + Q;
  mcbs_correltime : Series -> Q -> Z -> exn + Z;
  randint : Z -> Z -> RNG -> Z * RNG
}.

(** The tuple [(start_iter, stop_iter, expected, ci_lbound, ci_ubound, ctime)]. *)
Record ci_result : Type := {
  iter_start : Z;
  iter_stop : Z;
  expected : Q;
  ci_lbound : Q;
  ci_ubound : Q;
  corr_len : Z
}.

(** [(block_label, istate, jstate, ci_result)]; the label is returned as it
    was passed ([None] for the overall average, [iblock] for a window). *)
Definition payload (L : Type) : Type := (L * Z * Z * ci_result)%type.

(** The quantile positions (lines 487-488). *)
Definition lbi_of (mcbs_alpha : Q) (mcbs_nsets : Z) : Z :=
  Qfloor (inject_Z mcbs_nsets * mcbs_alpha / 2).

Definition ubi_of (mcbs_alpha : Q) (mcbs_nsets : Z) : Z :=
  Qceiling (inject_Z mcbs_nsets * (1 - mcbs_alpha / 2)).

(** The block boundaries (lines 492-495): [starts], and [stops] with its last
    element clipped to [stop_iter]. *)
Definition block_bounds (start_iter stop_iter stride : Z) : exn + (list Z * list Z) :=
  let* starts := np_arange_uintc start_iter stop_iter stride in
  let* stops := np_arange_uintc (start_iter + stride) (stop_iter + stride) stride in
  let* last_stop := py_getitem stops (-1) in
  let stops :=
    if stop_iter <? last_stop
    then <[Nat.pred (length stops) := uintc stop_iter]> stops
    else stops in
  ret (starts, stops).

(** [n] successive calls [random.randint(a, b)]: the values, and the
    generator state afterwards. *)
Fixpoint draws `{Kinetics} (n : nat) (a b : Z) (g : RNG) : list Z * RNG :=
  match n with
  | O => ([], g)
  | S n' =>
      let '(d, g') := randint a b g in
      let '(ds, g'') := draws n' a b g' in
      (d :: ds, g'')
  end.

Section CalcCIBlock.
Context `{K : Kinetics}.

(** The loop of lines 467-476 over the iterations of the window. *)
Fixpoint read_window (iters : list Z) (avg : Acc) (macro_fluxes : list MacroFlux)
  : exn + (Acc * list MacroFlux) :=
  match iters with
  | [] => ret (avg, macro_fluxes)
  | n_iter :: rest =>
      let* o := read_iter n_iter in
      read_window rest (acc_add avg o) (macro_fluxes ++ [macro_flux o])
  end.

(** The innermost loop (lines 505-515) over the iterations of one drawn
    block; the state is [(avg, iters_averaged)]. *)
Fixpoint average_block (iters : list Z) (st : Acc * Z) : exn + (Acc * Z) :=
  match iters with
  | [] => ret st
  | n_iter :: rest =>
      let iters_averaged := snd st + 1 in
      let* o := read_iter n_iter in
      average_block rest (acc_add (fst st) o, iters_averaged)
  end.

(** [for _block in xrange(nblocks)] (lines 503-515); [n] iterations remain. *)
Fixpoint resample_blocks (n : nat) (starts stops : list Z) (nblocks : Z)
    (st : Acc * Z) (g : RNG) : exn + (Acc * Z * RNG) :=
  match n with
  | O => ret (st, g)
  | S n' =>
      let '(iblock, g') := randint 0 (nblocks - 1) g in
      let* lo := py_getitem starts iblock in
      let* hi := py_getitem stops iblock in
      let* st' := average_block (xrange lo hi) st in
      resample_blocks n' starts stops nblocks st' g'
  end.

(** [for iset in xrange(mcbs_nsets)] (lines 497-521); [n] sets remain and
    [synth_rates] holds the values already stored. *)
Fixpoint bootstrap_sets (n : nat) (starts stops : list Z) (nblocks : Z)
    (extrapolate : bool) (istate jstate : Z) (synth_rates : list Q) (g : RNG)
  : exn + (list Q * RNG) :=
  match n with
  | O => ret (synth_rates, g)
  | S n' =>
      let* (avg, iters_averaged, g') :=
        resample_blocks (Z.to_nat nblocks) starts stops nblocks (acc_zero, 0) g in
      let avg := acc_div avg iters_averaged in
      let* macro_rates := get_macrostate_rates avg extrapolate in
      let* r := rate_at macro_rates istate jstate in
      bootstrap_sets n' starts stops nblocks extrapolate istate jstate (synth_rates ++ [r]) g'
  end.

(** The point estimate on the window (lines 467-482). *)
Definition overall_average (start_iter stop_iter : Z) (extrapolate : bool)
  : exn + (Rates * list MacroFlux) :=
  let niters := stop_iter - start_iter in
  if niters <? 0 then raise ValueError
  else
    let* (avg, macro_fluxes) := read_window (xrange start_iter stop_iter) acc_zero [] in
    let avg := acc_div avg niters in
    let* macro_rates := get_macrostate_rates avg extrapolate in
    ret (macro_rates, macro_fluxes).

Definition _calc_ci_block {L : Type} (block_label : L) (istate jstate start_iter stop_iter : Z)
    (mcbs_alpha mcbs_acalpha : Q) (mcbs_nsets : Z) (extrapolate : bool) (g : RNG)
  : exn + (payload L * RNG) :=
  let* (overall_avg_rates, macro_fluxes) := overall_average start_iter stop_iter extrapolate in
  let* ctime :=
    (let* m := py_getitem macro_fluxes istate in
     let* row := macro_row m jstate in
     mcbs_correltime row mcbs_acalpha mcbs_nsets) in
  let lbi := lbi_of mcbs_alpha mcbs_nsets in
  let ubi := ubi_of mcbs_alpha mcbs_nsets in
  let stride := ctime + 1 in
  if mcbs_nsets <? 0 then raise ValueError
  else
    let* (starts, stops) := block_bounds start_iter stop_iter stride in
    let nblocks := Z.of_nat (length starts) in
    let* (synth_rates, g') :=
      bootstrap_sets (Z.to_nat mcbs_nsets) starts stops nblocks extrapolate istate jstate [] g in
    let synth_rates := np_sort synth_rates in
    let* e := rate_at overall_avg_rates istate jstate in
    let* lb := py_getitem synth_rates lbi in
    let* ub := py_getitem synth_rates ubi in
    ret ((block_label, istate, jstate,
          {| iter_start := start_iter; iter_stop := stop_iter; expected := e;
             ci_lbound := lb; ci_ubound := ub; corr_len := ctime |}), g').

End CalcCIBlock.

(** [KinAvgSubcommands.process_args], lines 142-144: a missing or zero
    argument takes the default. [get_bssize] is [mclib.get_bssize]. *)
Definition process_args_acalpha (alpha : Q) (acalpha : option Q) : Q :=
  match acalpha with
  | Some a => if Qeq_bool a 0 then alpha else a
  | None => alpha
  end.

Definition process_args_nsets (get_bssize : Q -> Z) (alpha : Q) (nsets : option Z) : Z :=
  match nsets with
  | Some n => if n =? 0 then get_bssize alpha else n
  | None => get_bssize alpha
  end.

(** *** A small instance for examples

    One number per iteration (iteration [n] holds the value [n]), the rate is
    the average itself, the correlation time is the constant [ctime], and the
    generator is a script of the values to return (clamped to the requested
    interval; the lower bound once the script is used up). *)
Definition clamp (a b x : Z) : Z := Z.max a (Z.min b x).

Definition script_randint (a b : Z) (g : list Z) : Z * list Z :=
  match g with
  | [] => (a, [])
  | x :: r => (clamp a b x, r)
  end.

Definition toy_kinetics (ctime : Z) : Kinetics := {|
  Obs := Q;
  Acc := Q;
  MacroFlux := Q;
  Series := list Q;
  Rates := Q;
  RNG := list Z;
  read_iter := fun n => ret (inject_Z n);
  acc_zero := 0%Q;
  acc_add := Qplus;
  acc_div := fun a n => Qred (a / inject_Z n);
  macro_flux := fun o => o;
  macro_row := fun m _ => ret [m];
  get_macrostate_rates := fun a _ => ret a;
  rate_at := fun r _ _ => ret r;
  mcbs_correltime := fun _ _ _ => ret ctime;
  randint := script_randint
|}.

(** *** Vocabulary for the statements about [_calc_ci_block] *)

(** [random.randint(a, b)] returns a value of [[a, b]]. *)
Definition randint_in_range `{Kinetics} : Prop :=
  forall a b g, a <= b -> a <= fst (randint a b g) <= b.


(** Block [k] of the window [[start_iter, stop_iter)] cut with [stride]. *)
Definition block_start (start_iter stride : Z) (k : Z) : Z := start_iter + k * stride.

Definition block_stop (start_iter stop_iter stride : Z) (k : Z) : Z :=
  Z.min (start_iter + (k + 1) * stride) stop_iter.



(** ** numpy arrays of records, work manager, output file *)

(** A dense array: its shape, and the cells that were assigned; a cell that
    was never assigned holds the zero of [numpy.zeros]. *)
Record ndarray (A : Type) : Type := { nd_shape : list Z; nd_cells : gmap (list Z) A }.
Arguments nd_shape {A} _.
Arguments nd_cells {A} _.

Definition np_zeros {A : Type} (shape : list Z) : ndarray A :=
  {| nd_shape := shape; nd_cells := ∅ |}.

(** The position addressed by [a[i0, i1, ...]]: one index per axis, a
    negative index counts from the end, out of bounds raises [IndexError]. *)
Fixpoint nd_index (shape idx : list Z) : exn + list Z :=
  match shape, idx with
  | [], [] => ret []
  | n :: shape', i :: idx' =>
      let j := if i <? 0 then i + n else i in
      if (0 <=? j) && (j <? n) then
        let* r := nd_index shape' idx' in ret (j :: r)
      else raise IndexError
  | _, _ => raise IndexError
  end.

(** [a[idx] = v] *)
Definition nd_set {A : Type} (a : ndarray A) (idx : list Z) (v : A) : exn + ndarray A :=
  let* k := nd_index (nd_shape a) idx in
  ret {| nd_shape := nd_shape a; nd_cells := <[k := v]> (nd_cells a) |}.

(** [a[idx]] *)
Definition nd_get {A : Type} (zero : A) (a : ndarray A) (idx : list Z) : exn + A :=
  let* k := nd_index (nd_shape a) idx in
  ret (default zero (nd_cells a !! k)).

(** A future of the work manager holds the outcome of its task, and
    [future.get_result()] returns the value or re-raises the exception.  The
    work manager is outside the sources; [as_completed] is a parameter of the
    subcommands below. *)
Definition future (A : Type) : Type := (exn + A)%type.

Definition get_result {A : Type} (f : future A) : exn + A := f.

(** [as_completed] yields every future once, in some order. *)
Definition yields_all (as_completed : forall A : Type, list A -> list A) : Prop :=
  forall (A : Type) (l : list A), as_completed A l ≡ₚ l.

(** The attributes of the subcommand object set by [process_args]. *)
Record config : Type := {
  mcbs_alpha : Q;
  mcbs_acalpha : Q;
  mcbs_nsets : Z;
  est_type : estimate_type;
  evolution_mode_of : evolution_mode;
  evol_window_frac : Q;
  cfg_iter_start : Z;
  cfg_iter_stop : Z;
  cfg_iter_step : Z;
  extrapolate_of : bool
}.

(** The command line, as [argparse] delivers it. *)
Record cli_args : Type := {
  arg_alpha : Q;
  arg_acalpha : option Q;
  arg_nsets : option Z;
  arg_type : estimate_type;
  arg_evolution_mode : evolution_mode;
  arg_window_frac : Q;
  arg_iter_start : Z;
  arg_iter_stop : Z;
  arg_iter_step : option Z;
  arg_ss_extrapolate : bool
}.

(** [KinAvgSubcommands.process_args] (with [AvgMatrixSubcommand.process_args]
    for [extrapolate]). *)
Definition process_args (get_bssize : Q -> Z) (args : cli_args) : exn + config :=
  let iter_step :=
    match arg_iter_step args with
    | Some s => s
    | None => Z.max 1 ((arg_iter_stop args - arg_iter_start args) / 10)
    end in
  let alpha := arg_alpha args in
  let acalpha := process_args_acalpha alpha (arg_acalpha args) in
  let nsets := process_args_nsets get_bssize alpha (arg_nsets args) in
  let frac := arg_window_frac args in
  if Qle_bool frac 0 || negb (Qle_bool frac 1) then raise ValueError
  else ret {| mcbs_alpha := alpha; mcbs_acalpha := acalpha; mcbs_nsets := nsets;
              est_type := arg_type args;
              evolution_mode_of := arg_evolution_mode args;
              evol_window_frac := frac;
              cfg_iter_start := arg_iter_start args;
              cfg_iter_stop := arg_iter_stop args;
              cfg_iter_step := iter_step;
              extrapolate_of := arg_ss_extrapolate args |}.

(** An attribute value of a dataset. *)
Inductive attr : Type :=
  | AttrFloat (q : Q)
  | AttrInt (z : Z).

(** The 8-tuple [(start, stop) + ci_res + (stdev, variance)] stored by the
    trace subcommand, [ci_res] being what [mcbs_ci_correl] returns. *)
Definition trace_cell : Type := (Z * Z * (Q * Q * Q * Z) * Q * Q)%type.

(** A record of [ci_dtype], by field name, as [_eval_block_avg] fills it. *)
Record ci_record : Type := {
  r_iter_start : Z;
  r_iter_stop : Z;
  r_expected : Q;
  r_ci_lbound : Q;
  r_ci_ubound : Q;
  r_stdev : Q;
  r_variance : Q;
  r_corr_len : Z
}.

Definition ci_record_zero : ci_record :=
  {| r_iter_start := 0; r_iter_stop := 0; r_expected := 0; r_ci_lbound := 0;
     r_ci_ubound := 0; r_stdev := 0; r_variance := 0; r_corr_len := 0 |}.

(** What a dataset holds.  [ci_dtype] is declared outside the sources: a cell
    keeps the tuple or the record that was assigned to it. *)
Inductive ds_value : Type :=
  | DRates (a : ndarray ci_result)
  | DTrace (a : ndarray trace_cell)
  | DBlock (a : ndarray ci_record)
  | DLabels (l : list string).

Record dataset : Type := { ds_data : ds_value; ds_attrs : gmap string attr }.

Definition new_dataset (v : ds_value) : dataset := {| ds_data := v; ds_attrs := ∅ |}.

(** [KinAvgSubcommands.stamp_mcbs_info] *)
Definition stamp_mcbs_info (cfg : config) (ds : dataset) : dataset :=
  {| ds_data := ds_data ds;
     ds_attrs :=
       <["mcbs_nsets" := AttrInt (mcbs_nsets cfg)]>
         (<["mcbs_acalpha" := AttrFloat (mcbs_acalpha cfg)]>
            (<["mcbs_alpha" := AttrFloat (mcbs_alpha cfg)]> (ds_attrs ds))) |}.

(** [self.stamp_mcbs_info(self.output_file[name])] *)
Definition stamp_in_file (cfg : config) (name : string) (file : gmap string dataset)
  : gmap string dataset :=
  match file !! name with
  | Some ds => <[name := stamp_mcbs_info cfg ds]> file
  | None => file
  end.

(** How a run of [go] ends: normally, or with an exception; either way the
    output file holds what was written until then. *)
Inductive run_result : Type :=
  | Completed (file : gmap string dataset)
  | Aborted (e : exn) (file : gmap string dataset).

Definition output_of (r : run_result) : gmap string dataset :=
  match r with
  | Completed f => f
  | Aborted _ f => f
  end.

(** The pairs [(istate, jstate)] visited by
    [for istate in xrange(nstates): for jstate in xrange(nstates): if istate == jstate: continue]. *)
Definition state_pairs (nstates : Z) : list (Z * Z) :=
  flat_map (fun istate =>
              flat_map (fun jstate => if istate =? jstate then [] else [(istate, jstate)])
                       (xrange 0 nstates))
           (xrange 0 nstates).

(** ** [AvgMatrixSubcommand.go] *)

(** The shape shared by the collecting loops:
    [for future in as_completed(futures): result = future.get_result();
    a[key(result)] = value(result)]. *)
Fixpoint scatter {P A : Type} (key : P -> list Z) (val : P -> A)
    (completed : list (future P)) (a : ndarray A) : exn + ndarray A :=
  match completed with
  | [] => ret a
  | fut :: rest =>
      let* result := get_result fut in
      let* a := nd_set a (key result) (val result) in
      scatter key val rest a
  end.

(** The slot and the value of a result [(iblock, istate, jstate, ci_result)]. *)
Definition avg_key {L : Type} (p : payload L) : list Z :=
  let '(_iblock, istate, jstate, _) := p in [istate; jstate].

Definition evol_key (p : payload Z) : list Z :=
  let '(iblock, istate, jstate, _) := p in [iblock; istate; jstate].

Definition result_value {L : Type} (p : payload L) : ci_result :=
  let '(_, _, _, ci_result) := p in ci_result.

(** The loop of lines 578-580: [avg_rates[istate, jstate] = ci_result]. *)
Definition collect_avg_rates {L : Type} (completed : list (future (payload L)))
    (avg_rates : ndarray ci_result) : exn + ndarray ci_result :=
  scatter avg_key result_value completed avg_rates.

(** The loop of lines 624-629: [evol[iblock, istate, jstate] = ci_result]. *)
Definition collect_evol (completed : list (future (payload Z)))
    (evol : ndarray ci_result) : exn + ndarray ci_result :=
  scatter evol_key result_value completed evol.

(** The arguments of the evolution units, in submission order (lines 604-620):
    [(iblock, istate, jstate, block_start, stop)]. *)
Definition matrix_evolution_units (cfg : config) (nstates : Z) : list (Z * Z * Z * Z * Z) :=
  flat_map (fun '(istate, jstate) =>
              map (fun '(iblock, (block_start, stop)) =>
                     (iblock, istate, jstate, block_start, stop))
                  (evolution_windows (evolution_mode_of cfg) (evol_window_frac cfg)
                     (cfg_iter_start cfg) (cfg_iter_stop cfg) (cfg_iter_step cfg)))
           (state_pairs nstates).

Section MatrixGo.
Context `{K : Kinetics}.
Variable as_completed : forall A : Type, list A -> list A.
(** The generator state of the worker when it starts the unit with this
    label and state pair. *)
Variable worker_rng : option Z -> Z -> Z -> RNG.

(** [work_manager.submit(_calc_ci_block, args=...)] *)
Definition submit_calc_ci_block {L : Type} (label : L) (seed : option Z) (cfg : config)
    (istate jstate start_iter stop_iter : Z) : future (payload L) :=
  match _calc_ci_block label istate jstate start_iter stop_iter
          (mcbs_alpha cfg) (mcbs_acalpha cfg) (mcbs_nsets cfg) (extrapolate_of cfg)
          (worker_rng seed istate jstate) with
  | inl e => inl e
  | inr (p, _) => inr p
  end.

(** The unit of the overall average for a state pair (lines 573-576), and
    the unit of a window (lines 617-620). *)
Definition submit_overall (cfg : config) (u : Z * Z) : future (payload unit) :=
  let '(istate, jstate) := u in
  submit_calc_ci_block tt None cfg istate jstate (cfg_iter_start cfg) (cfg_iter_stop cfg).

Definition submit_evolution (cfg : config) (u : Z * Z * Z * Z * Z) : future (payload Z) :=
  let '(iblock, istate, jstate, block_start, stop) := u in
  submit_calc_ci_block iblock (Some iblock) cfg istate jstate block_start stop.

Definition matrix_overall_futures (cfg : config) (nstates : Z) : list (future (payload unit)) :=
  map (submit_overall cfg) (state_pairs nstates).

Definition matrix_evolution_futures (cfg : config) (nstates : Z) : list (future (payload Z)) :=
  map (submit_evolution cfg) (matrix_evolution_units cfg nstates).

(** [AvgMatrixSubcommand.go], once [open_files] has opened the three files:
    [nstates] and [state_labels] are read from the assignments file, the
    output file starts empty.  Printing is left out. *)
Definition AvgMatrixSubcommand_go (cfg : config) (nstates : Z) (state_labels : list string)
  : run_result :=
  if negb (nstates =? Z.of_nat (length state_labels)) then Aborted AssertionError ∅
  else
    match collect_avg_rates (as_completed _ (matrix_overall_futures cfg nstates))
                            (np_zeros [nstates; nstates]) with
    | inl e => Aborted e ∅
    | inr avg_rates =>
        let file := <["avg_rates" := new_dataset (DRates avg_rates)]> (∅ : gmap string dataset) in
        let file := stamp_in_file cfg "avg_rates" file in
        match state_labels with
        | [] => Aborted ValueError file
        | _ =>
            match evolution_mode_of cfg with
            | none => Completed file
            | _ =>
                if cfg_iter_step cfg =? 0 then Completed file
                else
                  let nwindows :=
                    Z.of_nat (length (start_pts (cfg_iter_start cfg) (cfg_iter_stop cfg)
                                                (cfg_iter_step cfg))) in
                  match collect_evol (as_completed _ (matrix_evolution_futures cfg nstates))
                                     (np_zeros [nwindows; nstates; nstates]) with
                  | inl e => Aborted e file
                  | inr evol =>
                      let file := <["rate_evolution" := new_dataset (DRates evol)]> file in
                      Completed (stamp_in_file cfg "rate_evolution" file)
                  end
            end
        end
    end.

End MatrixGo.

(** *** Vocabulary for the statements about result collection *)

(** The cells after assigning a list of results one after the other. *)
Definition assign_all {P A : Type} (key : P -> list Z) (val : P -> A)
    (results : list P) (cells : gmap (list Z) A) : gmap (list Z) A :=
  foldl (fun m p => <[key p := val p]> m) cells results.

(** Every future of the list holds a value. *)
Definition all_done {A : Type} (futures : list (future A)) : Prop :=
  Forall (fun f => exists v, f = inr v) futures.


(** ** The trace subcommand: estimates of one window *)

(** The estimators passed to [mcbs_ci_correl]. *)
Inductive estimator : Type := numpy_mean | numpy_var | scipy_stats_sem.

(** What the trace subcommand takes from outside this file: the three
    datasets once read ([iter_slice(a, b)] gives one row per iteration; the
    rates are what [sequence_macro_flux_to_rate] computed),
    [mclib.mcbs_ci_correl] (returning the 4-tuple [ci_res]) and the square
    root on floats. *)
Class TraceData : Type := {
  total_fluxes_slice : Z -> Z -> list (list Q);
  cond_fluxes_slice : Z -> Z -> list (list (list Q));
  rates_slice : Z -> Z -> list (list (list Q));
  mcbs_ci_correl : list Q -> estimator -> Q -> Z -> Q -> exn + (Q * Q * Q * Z);
  numpy_sqrt : Q -> Q
}.

(** The names bound at module level in [w_kinavg.py]: its imports, [log],
    [ci_dtype], and its functions and classes. *)
Definition module_globals : list string :=
  [ "print_function"; "division"; "__metaclass__"; "logging"; "sys"; "random"; "math";
    "numpy"; "h5py"; "h5s"; "westpa"; "weight_dtype"; "n_iter_dtype";
    "WESTMasterCommand"; "WESTParallelTool"; "WESTDataReader"; "IterRangeSelection";
    "WESTSubcommand"; "ProgressIndicatorComponent"; "h5io"; "labeled_flux_to_rate";
    "sequence_macro_flux_to_rate"; "get_macrostate_rates"; "mclib"; "mcbs_correltime";
    "mcbs_ci_correl"; "log"; "ci_dtype"; "KinAvgSubcommands"; "_eval_block";
    "_eval_block_avg"; "AvgTraceSubcommand"; "_calc_ci_block"; "AvgMatrixSubcommand";
    "WKinAvg" ]%string.

(** Evaluation of a global name: [NameError] when it is not bound. *)
Definition global_name (name : string) : exn + unit :=
  if existsb (String.eqb name) module_globals then ret tt else raise NameError.

(** The expressions [numpy.mean], [numpy.var] and [scipy.stats.sem]. *)
Definition expr_numpy_mean : exn + estimator :=
  let* _ := global_name "numpy" in ret numpy_mean.

Definition expr_numpy_var : exn + estimator :=
  let* _ := global_name "numpy" in ret numpy_var.

Definition expr_scipy_stats_sem : exn + estimator :=
  let* _ := global_name "scipy" in ret scipy_stats_sem.

Fixpoint emap {A B : Type} (f : A -> exn + B) (l : list A) : exn + list B :=
  match l with
  | [] => ret []
  | x :: r => let* y := f x in let* ys := emap f r in ret (y :: ys)
  end.

(** A loop with a state: [for x in l: s = body(s, x)]. *)
Fixpoint efold {A S : Type} (body : S -> A -> exn + S) (l : list A) (s : S) : exn + S :=
  match l with
  | [] => ret s
  | x :: r => let* s' := body s x in efold body r s'
  end.

(** [a[:, istate]] and [a[:, istate, jstate]] on arrays given by rows. *)
Definition column2 (a : list (list Q)) (istate : Z) : exn + list Q :=
  emap (fun row => py_getitem row istate) a.

Definition column3 (a : list (list (list Q))) (istate jstate : Z) : exn + list Q :=
  emap (fun row => let* r := py_getitem row istate in py_getitem r jstate) a.

(** [l[a:b]] for [0 <= a]: slices never raise. *)
Definition py_slice {A : Type} (l : list A) (a b : Z) : list A :=
  take (Z.to_nat (b - a)) (drop (Z.to_nat a) l).

Definition sum_Q (l : list Q) : Q := fold_right Qplus 0%Q l.

(** [numpy.mean], [numpy.var] and [numpy.std] of a list (of an empty list
    numpy gives [nan] with a warning; here the quotient by zero is [0]). *)
Definition np_mean (l : list Q) : Q := (sum_Q l / inject_Z (Z.of_nat (length l)))%Q.

Definition np_var (l : list Q) : Q :=
  let m := np_mean l in np_mean (map (fun x => (x - m) * (x - m))%Q l).

Definition np_std `{TraceData} (l : list Q) : Q := numpy_sqrt (np_var l).

Section TraceUnits.
Context `{T : TraceData}.

(** One call [mcbs_ci_correl(series, estimator=..., alpha=..., n_sets=...,
    autocorrel_alpha=..., subsample=numpy.mean)]: the arguments are evaluated
    from left to right, then the function is called. *)
Definition call_mcbs_ci_correl (series : exn + list Q) (est : exn + estimator)
    (mcbs_alpha : Q) (mcbs_nsets : Z) (mcbs_acalpha : Q) : exn + (Q * Q * Q * Z) :=
  let* s := series in
  let* f := est in
  let* _ := expr_numpy_mean in
  mcbs_ci_correl s f mcbs_alpha mcbs_nsets mcbs_acalpha.

Definition first_of (ci_res : Q * Q * Q * Z) : Q :=
  let '(x, _, _, _) := ci_res in x.

(** The three calls of [_eval_block] for one series, and the tuple
    [(start, stop) + ci_res + (stdev_res[0], var_res[0])]. *)
Definition eval_series (series : exn + list Q) (start stop : Z)
    (mcbs_alpha : Q) (mcbs_nsets : Z) (mcbs_acalpha : Q) : exn + trace_cell :=
  let* ci_res := call_mcbs_ci_correl series expr_numpy_mean mcbs_alpha mcbs_nsets mcbs_acalpha in
  let* stdev_res :=
    call_mcbs_ci_correl series expr_scipy_stats_sem mcbs_alpha mcbs_nsets mcbs_acalpha in
  let* var_res := call_mcbs_ci_correl series expr_numpy_var mcbs_alpha mcbs_nsets mcbs_acalpha in
  ret (start, stop, ci_res, first_of stdev_res, first_of var_res).

(** What [_eval_block] returns: the target-flux results [(iblock, istate,
    cell)], the conditional-flux and the rate results [(iblock, istate,
    jstate, cell)]. *)
Definition block_results : Type :=
  (list (Z * Z * trace_cell) * list (Z * Z * Z * trace_cell) * list (Z * Z * Z * trace_cell))%type.

Definition _eval_block (iblock start stop nstates : Z)
    (total_fluxes : list (list Q)) (cond_fluxes rates : list (list (list Q)))
    (mcbs_alpha : Q) (mcbs_nsets : Z) (mcbs_acalpha : Q) : exn + block_results :=
  efold (fun (results : block_results) istate =>
           let '(r0, r1, r2) := results in
           let* c := eval_series (column2 total_fluxes istate) start stop
                                 mcbs_alpha mcbs_nsets mcbs_acalpha in
           let r0 := r0 ++ [(iblock, istate, c)] in
           efold (fun (results : block_results) jstate =>
                    let '(r0, r1, r2) := results in
                    if istate =? jstate then ret results
                    else
                      let* c := eval_series (column3 cond_fluxes istate jstate) start stop
                                            mcbs_alpha mcbs_nsets mcbs_acalpha in
                      let r1 := r1 ++ [(iblock, istate, jstate, c)] in
                      let* c := eval_series (column3 rates istate jstate) start stop
                                            mcbs_alpha mcbs_nsets mcbs_acalpha in
                      let r2 := r2 ++ [(iblock, istate, jstate, c)] in
                      ret (r0, r1, r2))
                 (xrange 0 nstates) (r0, r1, r2))
        (xrange 0 nstates) ([], [], []).

End TraceUnits.

(** ** Block averaging ([_eval_block_avg]) *)

(** The three datasets handled by [_eval_block_avg]: [total_fluxes] is indexed
    by [istate] alone ([idataset == 0]), [cond_fluxes] and [rates] by
    [istate, jstate]. *)
Inductive block_dataset : Type :=
  | PerState (a : list (list Q))
  | PerPair (a : list (list (list Q))).

Definition dataset_len (d : block_dataset) : Z :=
  match d with
  | PerState a => Z.of_nat (length a)
  | PerPair a => Z.of_nat (length a)
  end.

(** [dataset[a:b, istate]] or [dataset[a:b, istate, jstate]]. *)
Definition dataset_block (d : block_dataset) (a b istate jstate : Z) : exn + list Q :=
  match d with
  | PerState rows => column2 (py_slice rows a b) istate
  | PerPair rows => column3 (py_slice rows a b) istate jstate
  end.

Section BlockAverage.
Context `{T : TraceData}.

(** [datalist] (lines 204-213): the means of the consecutive blocks. *)
Definition block_means (d : block_dataset) (blocksize istate jstate : Z) : exn + list Q :=
  emap (fun i =>
          let* values := dataset_block d (blocksize * i) (blocksize * (i + 1)) istate jstate in
          ret (np_mean values))
       (xrange 0 (dataset_len d / blocksize)).

(** The record written by lines 215-222. *)
Definition block_avg_record (d : block_dataset) (datalist : list Q)
    (start stop blocksize : Z) : ci_record :=
  {| r_iter_start := start;
     r_iter_stop := stop;
     r_expected := np_mean datalist;
     r_stdev := (np_std datalist / numpy_sqrt (inject_Z (dataset_len d / blocksize)))%Q;
     r_variance := np_var datalist;
     r_ci_lbound := 0;
     r_ci_ubound := 0;
     r_corr_len := blocksize |}.

(** The body of the innermost loop, for one [(istate, jstate, blocksize)]. *)
Definition block_avg_step (d : block_dataset) (start stop : Z)
    (result : ndarray ci_record) (istate jstate blocksize : Z) : exn + ndarray ci_record :=
  let* datalist := block_means d blocksize istate jstate in
  nd_set result [blocksize - 1; istate; jstate]
         (block_avg_record d datalist start stop blocksize).

(** The loops of lines 201-222 for one dataset. *)
Definition block_avg_dataset (d : block_dataset) (start stop nstates : Z)
    (result : ndarray ci_record) : exn + ndarray ci_record :=
  efold (fun result istate =>
           efold (fun result jstate =>
                    efold (fun result blocksize =>
                             block_avg_step d start stop result istate jstate blocksize)
                          (xrange 1 (dataset_len d / 2 - 1)) result)
                 (xrange 0 nstates) result)
        (xrange 0 nstates) result.

(** [_eval_block_avg]: the three result arrays, and [stop]. *)
Definition _eval_block_avg (iblock start stop nstates : Z)
    (total_fluxes : list (list Q)) (cond_fluxes rates : list (list (list Q)))
    (mcbs_alpha : Q) (mcbs_nsets : Z) (mcbs_acalpha : Q)
  : exn + (ndarray ci_record * ndarray ci_record * ndarray ci_record * Z) :=
  let shape := [Z.of_nat (length rates) / 2; nstates; nstates] in
  let* r0 := block_avg_dataset (PerState total_fluxes) start stop nstates (np_zeros shape) in
  let* r1 := block_avg_dataset (PerPair cond_fluxes) start stop nstates (np_zeros shape) in
  let* r2 := block_avg_dataset (PerPair rates) start stop nstates (np_zeros shape) in
  ret (r0, r1, r2, stop).

End BlockAverage.

(** The rows of a dataset have [nstates] entries (and each entry [nstates]
    entries, for a dataset indexed by state pairs). *)
Definition well_shaped (nstates : Z) (d : block_dataset) : Prop :=
  match d with
  | PerState rows => Forall (fun row => Z.of_nat (length row) = nstates) rows
  | PerPair rows =>
      Forall (fun row => Z.of_nat (length row) = nstates /\
                         Forall (fun r => Z.of_nat (length r) = nstates) row) rows
  end.

(** ** [AvgTraceSubcommand.go] *)

(** [file.create_dataset(name, data=...)] and [file[name] = data]: the name
    must be new. *)
Definition create_dataset (name : string) (v : ds_value) (file : gmap string dataset)
  : exn + gmap string dataset :=
  match file !! name with
  | Some _ => raise RuntimeError
  | None => ret (<[name := new_dataset v]> file)
  end.

(** [str(n)] for an integer. *)
Definition py_str (n : Z) : string := pretty n.

Section TraceGo.
Context `{T : TraceData}.
Variable as_completed : forall A : Type, list A -> list A.

(** Lines 263-268. *)
Definition average_total_fluxes (cfg : config) (nstates : Z) : exn + ndarray trace_cell :=
  let start_iter := cfg_iter_start cfg in
  let stop_iter := cfg_iter_stop cfg in
  efold (fun avg_total_fluxes istate =>
           let* ci_res :=
             call_mcbs_ci_correl (column2 (total_fluxes_slice start_iter stop_iter) istate)
               expr_numpy_mean (mcbs_alpha cfg) (mcbs_nsets cfg) (mcbs_acalpha cfg) in
           nd_set avg_total_fluxes [istate] (start_iter, stop_iter, ci_res, 0%Q, 0%Q))
        (xrange 0 nstates) (np_zeros [nstates]).

(** The three calls of lines 275-285 (and 287-297) for one series: mean,
    variance, then standard error. *)
Definition average_series (cfg : config) (series : exn + list Q) : exn + trace_cell :=
  let call est :=
    call_mcbs_ci_correl series est (mcbs_alpha cfg) (mcbs_nsets cfg) (mcbs_acalpha cfg) in
  let* ci_res := call expr_numpy_mean in
  let* var_res := call expr_numpy_var in
  let* stdev_res := call expr_scipy_stats_sem in
  ret (cfg_iter_start cfg, cfg_iter_stop cfg, ci_res, first_of stdev_res, first_of var_res).

(** Lines 271-301; the state is [(avg_conditional_fluxes, avg_rates)]. *)
Definition average_pairs (cfg : config) (nstates : Z)
  : exn + (ndarray trace_cell * ndarray trace_cell) :=
  let start_iter := cfg_iter_start cfg in
  let stop_iter := cfg_iter_stop cfg in
  efold (fun (st : ndarray trace_cell * ndarray trace_cell) '(istate, jstate) =>
           let '(avg_conditional_fluxes, avg_rates) := st in
           let* flux := average_series cfg
                          (column3 (cond_fluxes_slice start_iter stop_iter) istate jstate) in
           let* rate := average_series cfg
                          (column3 (rates_slice start_iter stop_iter) istate jstate) in
           let* avg_conditional_fluxes := nd_set avg_conditional_fluxes [istate; jstate] flux in
           let* avg_rates := nd_set avg_rates [istate; jstate] rate in
           ret (avg_conditional_fluxes, avg_rates))
        (state_pairs nstates) (np_zeros [nstates; nstates], np_zeros [nstates; nstates]).

(** Lines 303-310. *)
Definition save_averages (cfg : config) (state_labels : list string)
    (avg_total_fluxes avg_conditional_fluxes avg_rates : ndarray trace_cell)
    (file : gmap string dataset) : exn + gmap string dataset :=
  let* file := create_dataset "avg_rates" (DTrace avg_rates) file in
  let* file := create_dataset "avg_conditional_fluxes" (DTrace avg_conditional_fluxes) file in
  let* file := create_dataset "avg_total_fluxes" (DTrace avg_total_fluxes) file in
  let file := stamp_in_file cfg "avg_rates" file in
  let file := stamp_in_file cfg "avg_conditional_fluxes" file in
  let file := stamp_in_file cfg "avg_total_fluxes" file in
  create_dataset "state_labels" (DLabels state_labels) file.

(** The units submitted by lines 354-379, one per window. *)
Definition submit_eval_block (cfg : config) (nstates : Z) (w : Z * (Z * Z))
  : future block_results :=
  let '(iblock, (block_start, stop)) := w in
  _eval_block iblock block_start stop nstates
    (total_fluxes_slice block_start stop) (cond_fluxes_slice block_start stop)
    (rates_slice block_start stop) (mcbs_alpha cfg) (mcbs_nsets cfg) (mcbs_acalpha cfg).

Definition submit_eval_block_avg (cfg : config) (nstates : Z) (w : Z * (Z * Z))
  : future (ndarray ci_record * ndarray ci_record * ndarray ci_record * Z) :=
  let '(iblock, (block_start, stop)) := w in
  _eval_block_avg iblock block_start stop nstates
    (total_fluxes_slice block_start stop) (cond_fluxes_slice block_start stop)
    (rates_slice block_start stop) (mcbs_alpha cfg) (mcbs_nsets cfg) (mcbs_acalpha cfg).

(** The arrays [(target_evol, flux_evol, rate_evol)]. *)
Definition evol_arrays : Type :=
  (ndarray trace_cell * ndarray trace_cell * ndarray trace_cell)%type.

(** The body of the loop of lines 382-395 for the results of one future. *)
Definition store_block_results (arrays : evol_arrays) (results : block_results)
  : exn + evol_arrays :=
  let '(target_evol, flux_evol, rate_evol) := arrays in
  let '(target_results, condflux_results, rate_results) := results in
  let* target_evol :=
    efold (fun a '(iblock, istate, ci_result) => nd_set a [iblock; istate] ci_result)
          target_results target_evol in
  let* flux_evol :=
    efold (fun a '(iblock, istate, jstate, ci_result) =>
             nd_set a [iblock; istate; jstate] ci_result)
          condflux_results flux_evol in
  let* rate_evol :=
    efold (fun a '(iblock, istate, jstate, ci_result) =>
             nd_set a [iblock; istate; jstate] ci_result)
          rate_results rate_evol in
  ret (target_evol, flux_evol, rate_evol).

(** Lines 382-395. *)
Definition collect_trace_evol (completed : list (future block_results))
    (arrays : evol_arrays) : exn + evol_arrays :=
  efold (fun arrays fut => let* results := get_result fut in store_block_results arrays results)
        completed arrays.

(** Lines 397-402. *)
Definition save_trace_evol (cfg : config) (arrays : evol_arrays) (file : gmap string dataset)
  : exn + gmap string dataset :=
  let '(target_evol, flux_evol, rate_evol) := arrays in
  let* file := create_dataset "conditional_flux_evolution" (DTrace flux_evol) file in
  let* file := create_dataset "target_flux_evolution" (DTrace target_evol) file in
  let* file := create_dataset "rate_evolution" (DTrace rate_evol) file in
  let file := stamp_in_file cfg "conditional_flux_evolution" file in
  let file := stamp_in_file cfg "target_flux_evolution" file in
  ret (stamp_in_file cfg "rate_evolution" file).

(** Lines 407-426: three datasets per completed future, none of them
    stamped; [istate] is the last value of the loop variable of lines
    335-343. *)
Fixpoint collect_block_avg
    (completed : list (future (ndarray ci_record * ndarray ci_record * ndarray ci_record * Z)))
    (istate : Z) (file : gmap string dataset) : run_result :=
  match completed with
  | [] => Completed file
  | fut :: rest =>
      match get_result fut with
      | inl e => Aborted e file
      | inr (target_results, condflux_results, rate_results, stop) =>
          match create_dataset
                  ("block_avg_conditional_flux " +:+ py_str istate +:+ " final " +:+ py_str stop)
                  (DBlock condflux_results) file with
          | inl e => Aborted e file
          | inr file1 =>
              match create_dataset
                      ("block_avg_target_flux " +:+ py_str istate +:+ " final " +:+ py_str stop)
                      (DBlock target_results) file1 with
              | inl e => Aborted e file1
              | inr file2 =>
                  match create_dataset ("block_avg rate final " +:+ py_str stop)
                                       (DBlock rate_results) file2 with
                  | inl e => Aborted e file2
                  | inr file3 => collect_block_avg rest istate file3
                  end
              end
          end
      end
  end.

(** [AvgTraceSubcommand.go], once [open_files] has opened the three files and
    the datasets are read.  Printing and the progress indicator are left out. *)
Definition AvgTraceSubcommand_go (cfg : config) (nstates : Z) (state_labels : list string)
  : run_result :=
  if negb (nstates =? Z.of_nat (length state_labels)) then Aborted AssertionError ∅
  else
    match (let* t := average_total_fluxes cfg nstates in
           let* (c, r) := average_pairs cfg nstates in
           ret (t, c, r)) with
    | inl e => Aborted e ∅
    | inr (avg_total_fluxes, avg_conditional_fluxes, avg_rates) =>
        match save_averages cfg state_labels avg_total_fluxes avg_conditional_fluxes
                            avg_rates ∅ with
        | inl e => Aborted e ∅
        | inr file =>
            match state_labels with
            | [] => Aborted ValueError file
            | _ =>
                let windows :=
                  evolution_windows (evolution_mode_of cfg) (evol_window_frac cfg)
                    (cfg_iter_start cfg) (cfg_iter_stop cfg) (cfg_iter_step cfg) in
                let nwindows := Z.of_nat (length windows) in
                match evolution_mode_of cfg with
                | none => Completed file
                | _ =>
                    if cfg_iter_step cfg =? 0 then Completed file
                    else
                      match est_type cfg with
                      | bootstrap =>
                          let futures := map (submit_eval_block cfg nstates) windows in
                          match collect_trace_evol (as_completed _ futures)
                                  (np_zeros [nwindows; nstates],
                                   np_zeros [nwindows; nstates; nstates],
                                   np_zeros [nwindows; nstates; nstates]) with
                          | inl e => Aborted e file
                          | inr arrays =>
                              match save_trace_evol cfg arrays file with
                              | inl e => Aborted e file
                              | inr file' => Completed file'
                              end
                          end
                      | block =>
                          let futures := map (submit_eval_block_avg cfg nstates) windows in
                          collect_block_avg (as_completed _ futures) (nstates - 1) file
                      end
                end
            end
        end
    end.

End TraceGo.

(** *** Example runs of the matrix subcommand *)

(** A configuration for the examples: [alpha = acalpha = 0.5], 4 resamples,
    bootstrap. *)
Definition toy_config (mode : evolution_mode) (frac : Q) (start_iter stop_iter step_iter : Z)
  : config :=
  {| mcbs_alpha := 1 # 2; mcbs_acalpha := 1 # 2; mcbs_nsets := 4;
     est_type := bootstrap; evolution_mode_of := mode; evol_window_frac := frac;
     cfg_iter_start := start_iter; cfg_iter_stop := stop_iter; cfg_iter_step := step_iter;
     extrapolate_of := true |}.

(** Every worker starts with the empty script: each draw returns block 0. *)
Definition toy_worker_rng : option Z -> Z -> Z -> list Z := fun _ _ _ => [].

(** The futures complete in the reverse of the order of submission. *)
Definition reverse_completion : forall A : Type, list A -> list A := fun A l => rev l.

Definition submission_order : forall A : Type, list A -> list A := fun A l => l.

(** *** Vocabulary for the statements about [_eval_block_avg] *)

(** The pairs [(a, b)] visited by [for a in la: for b in lb(a)]. *)
Definition loop_pairs {A B : Type} (la : list A) (lb : A -> list B) : list (A * B) :=
  flat_map (fun a => map (pair a) (lb a)) la.

(** What the result array [r] of a dataset [d] holds: every record has
    [ci_lbound = ci_ubound = 0], and for every block size of the loop and
    every state pair the record at row [blocksize - 1] is computed from the
    means of the [len(d) / blocksize] consecutive blocks. *)
Definition block_avg_spec `{TraceData} (d : block_dataset) (rows nstates start stop : Z)
    (r : ndarray ci_record) : Prop :=
  nd_shape r = [rows; nstates; nstates] /\
  (forall idx rec, nd_get ci_record_zero r idx = inr rec ->
     r_ci_lbound rec = 0%Q /\ r_ci_ubound rec = 0%Q) /\
  (forall blocksize istate jstate,
     1 <= blocksize < dataset_len d / 2 - 1 ->
     0 <= istate < nstates -> 0 <= jstate < nstates ->
     exists datalist rec,
       block_means d blocksize istate jstate = inr datalist /\
       Z.of_nat (length datalist) = dataset_len d / blocksize /\
       nd_get ci_record_zero r [blocksize - 1; istate; jstate] = inr rec /\
       r_iter_start rec = start /\ r_iter_stop rec = stop /\
       r_expected rec = np_mean datalist /\
       r_stdev rec = (np_std datalist / numpy_sqrt (inject_Z (dataset_len d / blocksize)))%Q /\
       r_variance rec = np_var datalist /\
       r_corr_len rec = blocksize /\
       r_ci_lbound rec = 0%Q /\ r_ci_ubound rec = 0%Q).

(** The slot and the record of one pass [(istate, (jstate, blocksize))] of the
    loops of [_eval_block_avg]. *)
Definition triple_key (q : Z * (Z * Z)) : list Z := [snd (snd q) - 1; fst q; fst (snd q)].

Definition triple_record `{TraceData} (d : block_dataset) (start stop : Z) (q : Z * (Z * Z))
  : ci_record :=
  match block_means d (snd (snd q)) (fst q) (fst (snd q)) with
  | inr datalist => block_avg_record d datalist start stop (snd (snd q))
  | inl _ => ci_record_zero
  end.

(** *** An instance of the trace data for examples

    One state; iteration [n] holds the value [n] in each dataset;
    [mcbs_ci_correl] returns the mean of the series as estimate and as both
    bounds, with correlation length 0; the square root is replaced by the
    identity. *)
Definition toy_trace : TraceData := {|
  total_fluxes_slice := fun a b => map (fun n => [inject_Z n]) (xrange a b);
  cond_fluxes_slice := fun a b => map (fun n => [[inject_Z n]]) (xrange a b);
  rates_slice := fun a b => map (fun n => [[inject_Z n]]) (xrange a b);
  mcbs_ci_correl := fun s _ _ _ _ => ret (np_mean s, np_mean s, np_mean s, 0);
  numpy_sqrt := fun q => q
|}.

(** The configuration of the examples with [--type block]. *)
Definition toy_block_config (mode : evolution_mode) (frac : Q)
    (start_iter stop_iter step_iter : Z) : config :=
  {| mcbs_alpha := 1 # 2; mcbs_acalpha := 1 # 2; mcbs_nsets := 4;
     est_type := block; evolution_mode_of := mode; evol_window_frac := frac;
     cfg_iter_start := start_iter; cfg_iter_stop := stop_iter; cfg_iter_step := step_iter;
     extrapolate_of := true |}.

(** *** Vocabulary for the statements about the attributes *)

(** The dataset carries the three attributes with the values of the run. *)
Definition stamped (cfg : config) (ds : dataset) : Prop :=
  ds_attrs ds !! "mcbs_alpha"%string = Some (AttrFloat (mcbs_alpha cfg)) /\
  ds_attrs ds !! "mcbs_acalpha"%string = Some (AttrFloat (mcbs_acalpha cfg)) /\
  ds_attrs ds !! "mcbs_nsets"%string = Some (AttrInt (mcbs_nsets cfg)).

(** The datasets named by quantity. *)
Definition quantity_datasets : list string :=
  [ "avg_rates"; "avg_total_fluxes"; "avg_conditional_fluxes";
    "rate_evolution"; "target_flux_evolution"; "conditional_flux_evolution" ]%string.

(** What holds of a dataset of an output file: a dataset named by quantity
    is stamped; any other dataset has no attribute at all, and is either
    [state_labels] or a dataset of a run with [--type block]. *)
Definition dataset_policy (cfg : config) (name : string) (ds : dataset) : Prop :=
  ((name ∈ quantity_datasets) /\ stamped cfg ds) \/
  ((name ∉ quantity_datasets) /\ ds_attrs ds = ∅ /\
   (name = "state_labels"%string \/ est_type cfg = block)).

Definition stamping_policy (cfg : config) (file : gmap string dataset) : Prop :=
  forall name ds, file !! name = Some ds -> dataset_policy cfg name ds.

(** The same, while the datasets [pending] are created but not yet stamped. *)
Definition policy_pending (cfg : config) (pending : string -> Prop)
    (file : gmap string dataset) : Prop :=
  forall name ds, file !! name = Some ds -> pending name \/ dataset_policy cfg name ds.

(** ** Paring basis and initial states ([pare_basis_initial_states]) *)

(** [BasisState] and [InitialState] define neither [__eq__] nor [__hash__]:
    a [set] of states holds object identities.  An object is given by its
    identity, and the attributes [state_id] and [basis_state_id] are read
    from the heap, which the function never writes.  An id is [None] or an
    integer. *)
Definition obj : Type := positive.

Definition pyid : Type := option Z.

Record heap : Type := {
  state_id : obj -> pyid;
  basis_state_id : obj -> pyid
}.

(** What the function reads of a segment; the two constants are class
    attributes read through the instance. *)
Record segment : Type := {
  p_parent_id : pyid;
  initpoint_type : Z;
  SEG_INITPOINT_BASIS : Z;
  SEG_INITPOINT_GENERATED : Z
}.

(** [{state.state_id: state for state in states}]: a later state replaces an
    earlier one with the same id. *)
Definition state_map (h : heap) (states : list obj) : gmap pyid obj :=
  foldl (fun m s => <[state_id h s := s]> m) ∅ states.

(** [set(d[key(x)] for x in xs)]; the only exception is the [KeyError] of a
    key that [d] lacks, for which [None] stands. *)
Definition set_of_lookups {X : Type} (d : gmap pyid obj) (key : X -> pyid) (xs : list X)
  : option (gset obj) :=
  list_to_set <$> mapM (fun x => d !! key x) xs.

Definition from_basis (s : segment) : Prop := initpoint_type s = SEG_INITPOINT_BASIS s.

Definition from_generated (s : segment) : Prop := initpoint_type s = SEG_INITPOINT_GENERATED s.

(** [pare_basis_initial_states(basis_states, initial_states, segments=None)];
    the states are given as sequences, [segments] is [None] or a sequence.
    The result is [(return_bstates, return_istates)], or [None] when a
    lookup raised [KeyError]. *)
Definition pare_basis_initial_states (h : heap) (basis_states initial_states : list obj)
    (segments : option (list segment)) : option (gset obj * gset obj) :=
  let bstatemap := state_map h basis_states in
  let istatemap := state_map h initial_states in
  match segments with
  | Some segments =>
      return_bstates ← set_of_lookups bstatemap p_parent_id (filter from_basis segments);
      return_istates ← set_of_lookups istatemap p_parent_id (filter from_generated segments);
      update ← set_of_lookups bstatemap (basis_state_id h) (elements return_istates);
      Some (return_bstates ∪ update, return_istates)
  | None =>
      let return_istates : gset obj := list_to_set initial_states in
      return_bstates ← set_of_lookups bstatemap (basis_state_id h) (elements return_istates);
      Some (return_bstates, return_istates)
  end.

(** *** A small heap for examples: objects 1, 2, 3 are basis states with ids
    0, 1, 1; objects 11, 12 are initial states with ids 0, 1 generated from
    the basis states with ids 0 and 1; object 13 is an initial state whose
    basis state id 7 belongs to no basis state. *)
Definition toy_heap : heap := {|
  state_id := fun o =>
    match o with
    | 1%positive => Some 0 | 2%positive => Some 1 | 3%positive => Some 1
    | 11%positive => Some 0 | 12%positive => Some 1 | 13%positive => Some 2
    | _ => None
    end;
  basis_state_id := fun o =>
    match o with
    | 11%positive => Some 0 | 12%positive => Some 1 | 13%positive => Some 7
    | _ => None
    end
|}.

Definition toy_segment (parent : Z) (type : Z) : segment :=
  {| p_parent_id := Some parent; initpoint_type := type;
     SEG_INITPOINT_BASIS := 1; SEG_INITPOINT_GENERATED := 2 |}.

#[global] Instance Qle_transitive : Transitive Qle.
Proof. intros x y z. apply Qle_trans. Qed.

(** *** Vocabulary for the statements about the datasets of [--type block] *)

(** The three names of lines 413-424 for a window that ends at [stop]. *)
Definition block_avg_names (istate stop : Z) : list string :=
  [ "block_avg_conditional_flux " +:+ py_str istate +:+ " final " +:+ py_str stop;
    "block_avg_target_flux " +:+ py_str istate +:+ " final " +:+ py_str stop;
    "block_avg rate final " +:+ py_str stop ].

(** The datasets written for one result, in the order of the three
    [create_dataset] calls. *)
Definition block_avg_writes (istate : Z)
    (result : ndarray ci_record * ndarray ci_record * ndarray ci_record * Z)
  : list (string * dataset) :=
  let '(target_results, condflux_results, rate_results, stop) := result in
  [ ("block_avg_conditional_flux " +:+ py_str istate +:+ " final " +:+ py_str stop,
     new_dataset (DBlock condflux_results));
    ("block_avg_target_flux " +:+ py_str istate +:+ " final " +:+ py_str stop,
     new_dataset (DBlock target_results));
    ("block_avg rate final " +:+ py_str stop, new_dataset (DBlock rate_results)) ].

(** The file after a list of datasets has been written, one after the
    other. *)
Definition write_all (writes : list (string * dataset)) (file : gmap string dataset)
  : gmap string dataset :=
  foldl (fun m kv => <[fst kv := snd kv]> m) file writes.

(** The last component of a result of [_eval_block_avg]. *)
Definition result_stop
    (result : ndarray ci_record * ndarray ci_record * ndarray ci_record * Z) : Z :=
  snd result.

(* ===== PROPERTIES ===== *)

(** * Properties *)

(** ** Facts about [range] and [enumerate] *)

Lemma range_up_spec (fuel : nat) (i stop step : Z) :
  0 < step -> stop - i <= Z.of_nat fuel * step ->
  range_up fuel i stop step =
    map (fun k => i + Z.of_nat k * step) (seq 0 (Z.to_nat ((stop - i + step - 1) / step))).
Proof.
  intros Hs. revert i. induction fuel as [|f IH]; intros i Hf.
  - simpl in *. assert (stop - i + step - 1 < step) by lia.
    destruct (Z.leb_spec 0 (stop - i + step - 1)).
    + rewrite Z.div_small by lia. reflexivity.
    + assert ((stop - i + step - 1) / step < 0) by (apply Z.div_lt_upper_bound; lia).
      replace (Z.to_nat _) with O by lia. reflexivity.
  - cbn [range_up]. destruct (Z.ltb_spec i stop) as [Hlt|Hge].
    + rewrite IH by lia.
      assert (Hq : (stop - i + step - 1) / step = (stop - (i + step) + step - 1) / step + 1).
      { replace (stop - i + step - 1) with ((stop - (i + step) + step - 1) + 1 * step) by lia.
        rewrite Z.div_add by lia. reflexivity. }
      rewrite Hq.
      assert (0 <= (stop - (i + step) + step - 1) / step) by (apply Z.div_pos; lia).
      replace (Z.to_nat ((stop - (i + step) + step - 1) / step + 1))
        with (S (Z.to_nat ((stop - (i + step) + step - 1) / step))) by lia.
      cbn [seq map]. f_equal; [lia|].
      rewrite <- seq_shift, map_map. apply map_ext. intros k. lia.
    + assert ((stop - i + step - 1) / step <= 0).
      { destruct (Z.leb_spec 0 (stop - i + step - 1)).
        - rewrite Z.div_small by lia. lia.
        - assert ((stop - i + step - 1) / step < 0) by (apply Z.div_lt_upper_bound; lia). lia. }
      replace (Z.to_nat _) with O by lia. reflexivity.
Qed.

Lemma py_range_spec (start stop step : Z) :
  0 < step ->
  py_range start stop step =
    map (fun k => start + Z.of_nat k * step) (seq 0 (Z.to_nat (range_len start stop step))).
Proof.
  intros Hs. unfold py_range, range_len.
  destruct (Z.ltb_spec 0 step); [|lia].
  apply range_up_spec; [assumption|]. nia.
Qed.

Lemma range_len_pos (start stop step : Z) :
  0 < step -> start < stop -> 0 < range_len start stop step.
Proof.
  intros. unfold range_len. apply Z.div_str_pos. lia.
Qed.

Lemma range_len_bounds (start stop step : Z) :
  0 < step -> start <= stop ->
  start + (range_len start stop step - 1) * step < stop \/ start = stop.
Proof.
  intros Hs Hle. unfold range_len.
  pose proof (Z.div_mod (stop - start + step - 1) step ltac:(lia)) as Hdm.
  pose proof (Z.mod_pos_bound (stop - start + step - 1) step Hs) as Hm.
  destruct (Z.eq_dec start stop); [right; assumption|left]. nia.
Qed.

Lemma range_len_upper (start stop step : Z) :
  0 < step -> stop <= start + range_len start stop step * step.
Proof.
  intros Hs. unfold range_len.
  pose proof (Z.div_mod (stop - start + step - 1) step ltac:(lia)) as Hdm.
  pose proof (Z.mod_pos_bound (stop - start + step - 1) step Hs) as Hm.
  nia.
Qed.

Lemma enumerate_from_map_seq {A : Type} (f : nat -> A) (i : Z) (a n : nat) :
  enumerate_from i (map f (seq a n)) =
    map (fun k => (i + Z.of_nat (k - a), f k)) (seq a n).
Proof.
  revert i a. induction n as [|n IH]; intros i a; [reflexivity|].
  cbn [seq map enumerate_from]. f_equal; [f_equal; lia|].
  rewrite IH. apply map_ext_in. intros k Hk. apply in_seq in Hk.
  f_equal. lia.
Qed.

Lemma enumerate_map_seq {A : Type} (f : nat -> A) (n : nat) :
  enumerate (map f (seq 0 n)) = map (fun k => (Z.of_nat k, f k)) (seq 0 n).
Proof.
  unfold enumerate. rewrite enumerate_from_map_seq.
  apply map_ext. intros k. f_equal. lia.
Qed.

(** ** Evolution windows *)


Lemma evolution_windows_unfold (mode : evolution_mode) (frac : Q) (start_iter stop_iter step_iter : Z) :
  mode <> none -> 0 < step_iter ->
  evolution_windows mode frac start_iter stop_iter step_iter =
    map (fun k => (Z.of_nat k,
                   plan_block mode frac start_iter stop_iter step_iter
                     (start_iter + Z.of_nat k * step_iter)))
        (seq 0 (Z.to_nat (range_len start_iter stop_iter step_iter))).
Proof.
  intros Hm Hs. unfold evolution_windows, start_pts.
  destruct (Z.eqb_spec step_iter 0) as [?|_]; [lia|].
  rewrite py_range_spec by assumption. rewrite enumerate_map_seq, map_map.
  destruct mode; [reflexivity|reflexivity|congruence].
Qed.

Lemma range_len_exhausts (start stop step : Z) :
  start < stop -> 0 < step ->
  let n := Z.to_nat (range_len start stop step) in
  start + (Z.of_nat n - 1) * step < stop <= start + Z.of_nat n * step.
Proof.
  intros Hlt Hs n. subst n.
  pose proof (range_len_pos start stop step Hs Hlt).
  rewrite Z2Nat.id by lia. split.
  - destruct (range_len_bounds start stop step Hs ltac:(lia)); lia.
  - apply range_len_upper; assumption.
Qed.

(** C5: in blocked mode with [start_iter < stop_iter] and [step_iter > 0] the
    windows are exactly [[start_iter + k*step_iter, min(start_iter +
    (k+1)*step_iter, stop_iter))] for [k = 0, 1, ..., n-1], where [n] is the
    point at which the range is exhausted ([start_iter + (n-1)*step_iter <
    stop_iter <= start_iter + n*step_iter]); every window has [stop > start]. *)
Theorem blocked_windows_exact (evol_window_frac : Q) (start_iter stop_iter step_iter : Z) :
  start_iter < stop_iter -> 0 < step_iter ->
  exists n : nat,
    start_iter + (Z.of_nat n - 1) * step_iter < stop_iter <= start_iter + Z.of_nat n * step_iter /\
    evolution_windows blocked evol_window_frac start_iter stop_iter step_iter =
      map (fun k => (Z.of_nat k,
                     (start_iter + Z.of_nat k * step_iter,
                      Z.min (start_iter + (Z.of_nat k + 1) * step_iter) stop_iter)))
          (seq 0 n) /\
    Forall (fun w => fst (snd w) < snd (snd w))
           (evolution_windows blocked evol_window_frac start_iter stop_iter step_iter).
Proof.
  intros Hlt Hs.
  exists (Z.to_nat (range_len start_iter stop_iter step_iter)).
  pose proof (range_len_exhausts start_iter stop_iter step_iter Hlt Hs) as Hn.
  cbv zeta in Hn. split; [exact Hn|].
  rewrite evolution_windows_unfold by (congruence || assumption).
  split.
  - apply map_ext. intros k. unfold plan_block. do 3 f_equal. lia.
  - apply List.Forall_forall. intros w Hw. apply in_map_iff in Hw.
    destruct Hw as (k & <- & Hk). apply in_seq in Hk. cbn [fst snd plan_block].
    apply Z.min_glb_lt; nia.
Qed.

(** The specification's example for C5: [start=0, stop=100, step=25]. *)
Lemma blocked_windows_example :
  0 < 100 /\ 0 < 25 /\
  evolution_windows blocked 1 0 100 25 =
    [(0, (0, 25)); (1, (25, 50)); (2, (50, 75)); (3, (75, 100))].
Proof.
  split; [lia|]. split; [lia|].
  destruct (blocked_windows_exact 1 0 100 25 ltac:(lia) ltac:(lia)) as (n & Hn & Heq & _).
  assert (n = 4%nat) as -> by lia. exact Heq.
Defined.



(** ** Indexing *)

Lemma py_getitem_lookup {A : Type} (l : list A) (i : Z) (x : A) :
  0 <= i -> l !! Z.to_nat i = Some x -> py_getitem l i = inr x.
Proof.
  intros Hi Hx. unfold py_getitem.
  pose proof (lookup_lt_Some _ _ _ Hx) as Hlt.
  destruct (Z.ltb_spec i 0); [lia|].
  destruct (Z.leb_spec 0 i); [|lia].
  destruct (Z.ltb_spec i (Z.of_nat (length l))); [|lia].
  cbn [andb]. rewrite Hx. reflexivity.
Qed.

Lemma py_getitem_out_of_range {A : Type} (l : list A) (i : Z) :
  Z.of_nat (length l) <= i -> py_getitem l i = inl IndexError.
Proof.
  intros Hi. unfold py_getitem.
  destruct (Z.ltb_spec i 0); [lia|].
  destruct (Z.ltb_spec i (Z.of_nat (length l))); [lia|].
  rewrite andb_false_r. reflexivity.
Qed.

(** ** Basis-state files *)

Section StatesFromFile.
Variable py_float : string -> option Q.

(** The constructor call made by [states_from_file] always fails: [data_ref]
    is not a parameter of [BasisState.__init__]. *)
Lemma BasisState_new_data_ref (sid prob label data_ref : pyval) :
  BasisState_new [ ("state_id", sid); ("probability", prob);
                   ("label", label); ("data_ref", data_ref) ] = inl TypeError.
Proof. reflexivity. Qed.

Lemma is_empty_false (s : string) : s <> EmptyString -> is_empty s = false.
Proof. destruct s; [congruence|reflexivity]. Qed.

Lemma is_empty_true (s : string) : ~ s <> EmptyString -> is_empty s = true.
Proof. destruct s; [reflexivity|]. intros H. exfalso. apply H. discriminate. Qed.

Lemma states_from_lines_skip (pre rest : list string) (states : list BasisState) :
  Forall (fun l => ~ is_data_line l) pre ->
  states_from_lines py_float (pre ++ rest) states = states_from_lines py_float rest states.
Proof.
  induction 1 as [|l pre Hl _ IH]; [reflexivity|].
  cbn [app states_from_lines]. rewrite (is_empty_true _ Hl). exact IH.
Qed.

Lemma states_from_lines_data (line : string) (rest : list string) (states : list BasisState) :
  is_data_line line ->
  exists e, states_from_lines py_float (line :: rest) states = inl e.
Proof.
  intros Hd. cbn [states_from_lines]. rewrite (is_empty_false _ Hd).
  destruct (py_getitem (py_split (data_part line)) 0) as [e|label]; [eexists; reflexivity|].
  destruct (py_getitem (py_split (data_part line)) 1) as [e|f1]; [eexists; reflexivity|].
  cbn [ebind]. destruct (py_float f1) as [p|]; [|eexists; reflexivity].
  cbn [ebind ret]. rewrite BasisState_new_data_ref. eexists; reflexivity.
Qed.

Lemma states_from_lines_typed (line : string) (rest : list string) (states : list BasisState) :
  has_float_probability py_float line ->
  states_from_lines py_float (line :: rest) states = inl TypeError.
Proof.
  intros (Hd & f1 & p & Hf & Hp). cbn [states_from_lines]. rewrite (is_empty_false _ Hd).
  destruct (py_split (data_part line)) as [|f0 [|f1' fs]] eqn:Hs; try discriminate.
  injection Hf as ->.
  rewrite (py_getitem_lookup _ 0 f0), (py_getitem_lookup _ 1 f1) by (reflexivity || lia).
  cbn [ebind]. rewrite Hp. reflexivity.
Qed.

Lemma Forall_or_first_data (lines : list string) :
  Forall (fun l => ~ is_data_line l) lines \/
  exists pre line post, lines = pre ++ line :: post /\
    Forall (fun l => ~ is_data_line l) pre /\ is_data_line line.
Proof.
  induction lines as [|l r IH]; [left; constructor|].
  destruct (string_dec (data_part l) EmptyString) as [He|Hne].
  - destruct IH as [IH|(pre & line & post & -> & Hpre & Hd)].
    + left. constructor; [|exact IH]. intros H; apply H, He.
    + right. exists (l :: pre), line, post. repeat split; [|exact Hd].
      constructor; [|exact Hpre]. intros H; apply H, He.
  - right. exists [], l, r. repeat split; [constructor|exact Hne].
Qed.

(** C10: [states_from_file] raises on every file that has a data line whose
    second field [float()] accepts; the exception is the [TypeError] of the
    constructor call when that line is the first data line; and the only
    value ever returned is the empty list, for a file without data lines. *)
Theorem states_from_file_raises (fs : gmap string (list string))
    (filename : string) (lines : list string) :
  fs !! filename = Some lines ->
  (Exists (has_float_probability py_float) lines ->
     exists e, states_from_file py_float fs filename = inl e) /\
  (forall pre line post,
     lines = pre ++ line :: post ->
     Forall (fun l => ~ is_data_line l) pre ->
     has_float_probability py_float line ->
     states_from_file py_float fs filename = inl TypeError) /\
  (forall r, states_from_file py_float fs filename = inr r <->
             r = [] /\ Forall (fun l => ~ is_data_line l) lines).
Proof.
  intros Hfs. unfold states_from_file. rewrite Hfs.
  assert (Hdata : forall pre line post, lines = pre ++ line :: post ->
            Forall (fun l => ~ is_data_line l) pre -> is_data_line line ->
            exists e, states_from_lines py_float lines [] = inl e).
  { intros pre line post -> Hpre Hd. rewrite states_from_lines_skip by exact Hpre.
    apply states_from_lines_data, Hd. }
  split; [|split].
  - intros Hex. destruct (Forall_or_first_data lines) as [Hall|(pre & line & post & Heq & Hpre & Hd)].
    + exfalso. apply List.Exists_exists in Hex. destruct Hex as (l & Hin & Hl & _).
      rewrite List.Forall_forall in Hall. exact (Hall l Hin Hl).
    + eapply Hdata; eassumption.
  - intros pre line post -> Hpre Hl. rewrite states_from_lines_skip by exact Hpre.
    apply states_from_lines_typed, Hl.
  - intros r. split.
    + intros Hr. destruct (Forall_or_first_data lines) as [Hall|(pre & line & post & Heq & Hpre & Hd)].
      * split; [|exact Hall].
        rewrite <- (app_nil_r lines), states_from_lines_skip in Hr by exact Hall.
        cbn in Hr. unfold ret in Hr. congruence.
      * destruct (Hdata _ _ _ Heq Hpre Hd) as [e He]. congruence.
    + intros [-> Hall]. rewrite <- (app_nil_r lines), states_from_lines_skip by exact Hall.
      reflexivity.
Qed.
End StatesFromFile.

(** An instance of C10: a comment line, then the second example line of the
    docstring (with a probability that [float_of_digits] reads). *)
Lemma states_from_file_raises_example :
  let fs : gmap string (list string) :=
    {[ "bstates.txt"%string := ["# basis states"; "unbound_0    1        state0.pdb"]%string ]} in
  fs !! "bstates.txt"%string = Some ["# basis states"; "unbound_0    1        state0.pdb"]%string /\
  states_from_file float_of_digits fs "bstates.txt" = inl TypeError.
Proof.
  cbv zeta. split; [apply lookup_singleton_eq|].
  refine (proj1 (proj2 (states_from_file_raises float_of_digits _ _ _ (lookup_singleton_eq _ _)))
            ["# basis states"%string] "unbound_0    1        state0.pdb"%string [] eq_refl _ _).
  - constructor; [|constructor]. intros H. apply H. reflexivity.
  - split; [discriminate|]. exists "1"%string, 1%Q. split; reflexivity.
Defined.

(** ** Blocks of the bootstrap ([_calc_ci_block]) *)

Lemma uintc_small (z : Z) : 0 <= z < 2 ^ 32 -> uintc z = z.
Proof. intros H. unfold uintc. apply Z.mod_small, H. Qed.

Lemma xrange_spec (lo hi : Z) :
  xrange lo hi = map (fun k => lo + Z.of_nat k) (seq 0 (Z.to_nat (hi - lo))).
Proof.
  unfold xrange. rewrite py_range_spec by lia. unfold range_len.
  replace (hi - lo + 1 - 1) with (hi - lo) by lia. rewrite Z.div_1_r.
  apply map_ext. intros k. lia.
Qed.

Lemma xrange_length (lo hi : Z) : length (xrange lo hi) = Z.to_nat (hi - lo).
Proof. rewrite xrange_spec, length_map, length_seq. reflexivity. Qed.

Lemma xrange_empty (lo hi : Z) : hi <= lo -> xrange lo hi = [].
Proof.
  intros H. rewrite xrange_spec. replace (Z.to_nat (hi - lo)) with O by lia. reflexivity.
Qed.

Lemma xrange_app (a b c : Z) : a <= b <= c -> xrange a b ++ xrange b c = xrange a c.
Proof.
  intros H. rewrite !xrange_spec.
  replace (Z.to_nat (c - a)) with (Z.to_nat (b - a) + Z.to_nat (c - b))%nat by lia.
  rewrite seq_app, map_app. f_equal. cbn [Nat.add].
  rewrite <- (Nat.add_0_r (Z.to_nat (b - a))) at 1.
  rewrite <- (fmap_add_seq (Z.to_nat (b - a)) 0), map_map.
  apply map_ext. intros k. lia.
Qed.

Lemma xrange_In (lo hi n : Z) : In n (xrange lo hi) <-> lo <= n < hi.
Proof.
  rewrite xrange_spec, in_map_iff. split.
  - intros (k & <- & Hk). apply in_seq in Hk. lia.
  - intros H. exists (Z.to_nat (n - lo)). split; [lia|]. apply in_seq. lia.
Qed.

Lemma range_len_shift (start stop step : Z) :
  range_len (start + step) (stop + step) step = range_len start stop step.
Proof. unfold range_len. f_equal. lia. Qed.

(** The two [arange] calls and the clipping of the last stop give the
    blocks [[block_start k, block_stop k)], [k < nblocks]. *)
Lemma block_bounds_spec (start_iter stop_iter stride : Z) :
  0 <= start_iter < stop_iter -> 0 < stride -> stop_iter + stride <= 2 ^ 32 ->
  let n := Z.to_nat (range_len start_iter stop_iter stride) in
  block_bounds start_iter stop_iter stride =
    inr (map (fun k => block_start start_iter stride (Z.of_nat k)) (seq 0 n),
         map (fun k => block_stop start_iter stop_iter stride (Z.of_nat k)) (seq 0 n)).
Proof.
  intros Hw Hs Hmax n.
  pose proof (range_len_exhausts start_iter stop_iter stride ltac:(lia) Hs) as Hn.
  pose proof (range_len_pos start_iter stop_iter stride Hs ltac:(lia)) as Hpos.
  cbv zeta in Hn. fold n in Hn.
  unfold block_bounds, np_arange_uintc.
  destruct (Z.eqb_spec stride 0) as [?|_]; [lia|].
  cbn [ebind ret]. rewrite !py_range_spec by assumption.
  rewrite range_len_shift. fold n. rewrite !map_map.
  assert (Hn1 : (0 < n)%nat) by (subst n; lia).
  clearbody n. clear Hpos.
  assert (Hstarts : map (fun k => uintc (start_iter + Z.of_nat k * stride)) (seq 0 n)
                    = map (fun k => block_start start_iter stride (Z.of_nat k)) (seq 0 n)).
  { apply map_ext_in. intros k Hk. apply in_seq in Hk. unfold block_start.
    apply uintc_small. nia. }
  rewrite Hstarts.
  set (raw := map (fun k => uintc (start_iter + stride + Z.of_nat k * stride)) (seq 0 n)).
  assert (Hraw : forall k, (k < n)%nat ->
            raw !! k = Some (start_iter + (Z.of_nat k + 1) * stride)).
  { intros k Hk. subst raw. rewrite list_lookup_fmap, lookup_seq_lt by assumption.
    cbn. f_equal. rewrite uintc_small by nia. lia. }
  assert (Hlen : length raw = n) by (subst raw; rewrite length_map, length_seq; reflexivity).
  assert (Hlast : py_getitem raw (-1) = inr (start_iter + Z.of_nat n * stride)).
  { unfold py_getitem. rewrite Hlen. cbn [Z.ltb Z.compare].
    destruct (Z.leb_spec 0 (-1 + Z.of_nat n)); [|lia].
    destruct (Z.ltb_spec (-1 + Z.of_nat n) (Z.of_nat n)); [|lia].
    cbn [andb]. rewrite Hraw by lia. unfold ret. do 2 f_equal.
    rewrite Z2Nat.id by lia. ring. }
  rewrite Hlast. cbn [ebind ret]. do 2 f_equal.
  apply list_eq. intros k.
  rewrite list_lookup_fmap. destruct (Nat.lt_ge_cases k n) as [Hk|Hk].
  - rewrite lookup_seq_lt by assumption. cbn [fmap option_fmap option_map].
    unfold block_stop.
    destruct (Z.ltb_spec stop_iter (start_iter + Z.of_nat n * stride)) as [Hclip|Hnoclip].
    + rewrite list_lookup_insert by lia. rewrite Hlen. case_decide as Hd.
      * destruct Hd as [Hd _]. f_equal. rewrite uintc_small by lia.
        assert (Z.of_nat k + 1 = Z.of_nat n) by lia. nia.
      * rewrite Hraw by assumption. f_equal.
        assert (Z.of_nat k + 1 <= Z.of_nat n - 1) by lia. nia.
    + rewrite Hraw by assumption. f_equal. nia.
  - rewrite lookup_seq_ge by assumption. cbn.
    destruct (Z.ltb_spec stop_iter (start_iter + Z.of_nat n * stride)).
    + rewrite list_lookup_insert_ne by lia. apply lookup_ge_None. lia.
    + apply lookup_ge_None. lia.
Qed.

(** The blocks are contiguous and cover the window: their iterations, block
    after block, are the iterations of the window. *)
Lemma blocks_partition (start_iter stop_iter stride : Z) (m : nat) :
  0 < stride -> start_iter <= stop_iter ->
  flat_map (fun k => xrange (block_start start_iter stride (Z.of_nat k))
                            (block_stop start_iter stop_iter stride (Z.of_nat k)))
           (seq 0 m)
  = xrange start_iter (Z.min (start_iter + Z.of_nat m * stride) stop_iter).
Proof.
  intros Hs Hle. induction m as [|m IH].
  - cbn [seq flat_map]. symmetry. apply xrange_empty. lia.
  - rewrite seq_S, flat_map_app, IH. cbn [flat_map Nat.add]. rewrite app_nil_r.
    unfold block_start, block_stop.
    destruct (Z.le_gt_cases (start_iter + Z.of_nat m * stride) stop_iter) as [Hin|Hout].
    + rewrite (Z.min_l (start_iter + Z.of_nat m * stride)) by lia.
      rewrite xrange_app by lia. f_equal. lia.
    + rewrite (xrange_empty (start_iter + Z.of_nat m * stride)) by lia.
      rewrite app_nil_r. f_equal. lia.
Qed.

Section Resampling.
Context `{K : Kinetics}.








End Resampling.

Section ResamplingTheorem.
Context `{K : Kinetics}.



End ResamplingTheorem.

(** *** The example instance *)

Lemma script_randint_in_range (ctime : Z) : @randint_in_range (toy_kinetics ctime).
Proof.
  intros a b g Hab. cbn [randint toy_kinetics]. unfold script_randint, clamp.
  destruct g as [|x r]; cbn [fst]; lia.
Qed.




(** ** Quantile positions *)



Lemma py_getitem_in_range {A : Type} (l : list A) (i : Z) :
  0 <= i < Z.of_nat (length l) ->
  exists x, l !! Z.to_nat i = Some x /\ py_getitem l i = inr x.
Proof.
  intros Hi. destruct (lookup_lt_is_Some_2 l (Z.to_nat i) ltac:(lia)) as [x Hx].
  exists x. split; [exact Hx|]. apply py_getitem_lookup; [lia|exact Hx].
Qed.




Section Quantiles.
Context `{K : Kinetics}.



End Quantiles.



(** ** Collecting the results of the work manager *)

Lemma nd_index_in_range (shape idx : list Z) :
  Forall2 (fun n i => 0 <= i < n) shape idx -> nd_index shape idx = inr idx.
Proof.
  induction 1 as [|n i shape idx Hi _ IH]; [reflexivity|].
  cbn [nd_index]. destruct (Z.ltb_spec i 0); [lia|].
  destruct (Z.leb_spec 0 i); [|lia]. destruct (Z.ltb_spec i n); [|lia].
  cbn [andb]. rewrite IH. reflexivity.
Qed.


Lemma assign_all_other {P A : Type} (key : P -> list Z) (val : P -> A) (l : list P) (k : list Z) :
  k ∉ map key l ->
  forall cells, assign_all key val l cells !! k = cells !! k.
Proof.
  induction l as [|y l IH]; intros Hk cells; [reflexivity|].
  cbn [assign_all foldl]. fold (assign_all key val l (<[key y := val y]> cells)).
  rewrite IH.
  - apply lookup_insert_ne. intros Heq. apply Hk. rewrite <- Heq. left.
  - intros Hin. apply Hk. right. exact Hin.
Qed.

Lemma assign_all_lookup {P A : Type} (key : P -> list Z) (val : P -> A) (l : list P) (p : P) :
  NoDup (map key l) -> In p l ->
  forall cells, assign_all key val l cells !! key p = Some (val p).
Proof.
  induction l as [|x l IH]; intros Hnd Hin cells; [destruct Hin|].
  cbn [map] in Hnd. apply NoDup_cons in Hnd. destruct Hnd as [Hx Hnd].
  cbn [assign_all foldl]. fold (assign_all key val l (<[key x := val x]> cells)).
  destruct Hin as [->|Hin].
  - rewrite assign_all_other by exact Hx. apply lookup_insert_eq.
  - apply IH; assumption.
Qed.


(** The first failed future met by the loop ends it with that exception. *)
Lemma scatter_failed {P A : Type} (key : P -> list Z) (val : P -> A)
    (done : list P) (e : exn) (rest : list (future P)) (a : ndarray A) :
  Forall (fun p => nd_index (nd_shape a) (key p) = inr (key p)) done ->
  scatter key val (map inr done ++ inl e :: rest) a = inl e.
Proof.
  intros H. revert a H. induction done as [|p rs IH]; intros a H.
  - reflexivity.
  - apply Forall_cons in H. destruct H as [Hp Hrs].
    cbn [map app scatter get_result ebind]. unfold nd_set.
    rewrite Hp. cbn [ebind ret]. apply IH. exact Hrs.
Qed.

(** A list of futures is a run of values followed, if any future failed, by
    the first failure. *)
Lemma futures_split {A : Type} (futures : list (future A)) :
  (exists vs, futures = map inr vs) \/
  (exists vs e rest, futures = map inr vs ++ inl e :: rest).
Proof.
  induction futures as [|f fs IH]; [left; exists []; reflexivity|].
  destruct f as [e|v].
  - right. exists [], e, fs. reflexivity.
  - destruct IH as [[vs ->]|(vs & e & rest & ->)].
    + left. exists (v :: vs). reflexivity.
    + right. exists (v :: vs), e, rest. reflexivity.
Qed.

(** ** The units submitted by [AvgMatrixSubcommand.go] *)

Lemma flat_map_bind {A B : Type} (f : A -> list B) (l : list A) : flat_map f l = l ≫= f.
Proof. induction l as [|x l IH]; [reflexivity|]. cbn. rewrite IH. reflexivity. Qed.


Lemma NoDup_xrange (lo hi : Z) : NoDup (xrange lo hi).
Proof.
  rewrite xrange_spec. apply (NoDup_fmap_2_strong (fun k => lo + Z.of_nat k)).
  - intros x y _ _ H. lia.
  - apply NoDup_seq.
Qed.

Lemma elem_of_xrange (lo hi n : Z) : n ∈ xrange lo hi <-> lo <= n < hi.
Proof. rewrite list_elem_of_In. apply xrange_In. Qed.

Lemma elem_of_state_pairs (nstates istate jstate : Z) :
  (istate, jstate) ∈ state_pairs nstates <->
  0 <= istate < nstates /\ 0 <= jstate < nstates /\ istate <> jstate.
Proof.
  unfold state_pairs. rewrite flat_map_bind, list_elem_of_bind. split.
  - intros (i & Hin & Hi). rewrite flat_map_bind, list_elem_of_bind in Hin.
    destruct Hin as (j & Hin & Hj). apply elem_of_xrange in Hi, Hj.
    destruct (Z.eqb_spec i j) as [|Hne]; [inversion Hin|].
    apply list_elem_of_singleton in Hin. injection Hin as -> ->. lia.
  - intros (Hi & Hj & Hne). exists istate. split; [|apply elem_of_xrange, Hi].
    rewrite flat_map_bind, list_elem_of_bind. exists jstate.
    split; [|apply elem_of_xrange, Hj].
    destruct (Z.eqb_spec istate jstate); [contradiction|]. apply list_elem_of_singleton. reflexivity.
Qed.






Lemma all_done_values {A : Type} (futures : list (future A)) :
  all_done futures -> exists vs, futures = map inr vs.
Proof.
  induction 1 as [|f fs [v ->] _ [vs ->]]; [exists []; reflexivity|].
  exists (v :: vs). reflexivity.
Qed.

Lemma results_of_units {U P : Type} (submit : U -> future P) (units : list U) (rs : list P) :
  map submit units = map inr rs -> Forall2 (fun u p => submit u = inr p) units rs.
Proof.
  revert rs. induction units as [|u us IH]; intros [|r rs] H; try discriminate; [constructor|].
  cbn in H. injection H as Hu Hus. constructor; [exact Hu|apply IH, Hus].
Qed.


Section MatrixGoProperties.
Context `{K : Kinetics}.
Variable worker_rng : option Z -> Z -> Z -> RNG.

(** The result of [_calc_ci_block] carries the label, the state pair and the
    window it was called with. *)
Lemma calc_ci_block_identity {L : Type} (label : L) (istate jstate start_iter stop_iter : Z)
    (alpha acalpha : Q) (nsets : Z) (extrapolate : bool) (g g' : RNG) (p : payload L) :
  _calc_ci_block label istate jstate start_iter stop_iter alpha acalpha nsets extrapolate g
    = inr (p, g') ->
  exists ci, p = (label, istate, jstate, ci) /\
             iter_start ci = start_iter /\ iter_stop ci = stop_iter.
Proof.
  unfold _calc_ci_block. intros H.
  repeat match type of H with
         | ebind ?m _ = _ => destruct m as [?|?]; cbn [ebind] in H; [discriminate|]
         | (let (_, _) := ?x in _) = _ => destruct x
         | (if ?b then _ else _) = _ => destruct b; [discriminate|]
         end.
  unfold ret in H. injection H as <- _. eexists. repeat split.
Qed.

Lemma submit_calc_ci_block_identity {L : Type} (label : L) (seed : option Z) (cfg : config)
    (istate jstate start_iter stop_iter : Z) (p : payload L) :
  submit_calc_ci_block worker_rng label seed cfg istate jstate start_iter stop_iter = inr p ->
  exists ci, p = (label, istate, jstate, ci).
Proof.
  unfold submit_calc_ci_block. intros H.
  destruct (_calc_ci_block _ _ _ _ _ _ _ _ _ _) as [e|[p' g']] eqn:Hc; [discriminate|].
  injection H as ->. destruct (calc_ci_block_identity _ _ _ _ _ _ _ _ _ _ _ _ Hc) as (ci & -> & _).
  exists ci. reflexivity.
Qed.

End MatrixGoProperties.

Section MatrixCollection.
Context `{K : Kinetics}.
Variable as_completed : forall A : Type, list A -> list A.
Variable worker_rng : option Z -> Z -> Z -> RNG.
Hypothesis as_completed_yields_all : yields_all as_completed.





End MatrixCollection.

(** A failed future ends the collecting loop with the exception of one of the
    failed units, whatever the order of completion. *)
Lemma scatter_units_failed {U P A : Type} (submit : U -> future P) (ukey : U -> list Z)
    (key : P -> list Z) (val : P -> A) (units : list U) (a : ndarray A)
    (completed : list (future P)) :
  (forall u p, submit u = inr p -> key p = ukey u) ->
  (forall u, In u units -> nd_index (nd_shape a) (ukey u) = inr (ukey u)) ->
  completed ≡ₚ map submit units ->
  (exists e, In (inl e) (map submit units)) ->
  exists e, In (inl e) (map submit units) /\ scatter key val completed a = inl e.
Proof.
  intros Hid Hrange Hperm [e0 He0].
  destruct (futures_split completed) as [[vs Hvs]|(vs & e & rest & Hc)].
  - exfalso. apply (Permutation_in _ (Permutation_sym Hperm)) in He0.
    rewrite Hvs in He0. apply in_map_iff in He0. destruct He0 as (v & Hv & _). discriminate.
  - exists e. split.
    + apply (Permutation_in _ Hperm). rewrite Hc. apply in_or_app. right. left. reflexivity.
    + rewrite Hc. apply scatter_failed. apply List.Forall_forall. intros v Hv.
      assert (Hin : In (inr v) (map submit units)).
      { apply (Permutation_in _ Hperm). rewrite Hc. apply in_or_app. left.
        apply in_map. exact Hv. }
      apply in_map_iff in Hin. destruct Hin as (u & Hu & Huin).
      rewrite (Hid u v Hu). apply Hrange, Huin.
Qed.

Section MatrixGoTheorems.
Context `{K : Kinetics}.
Variable as_completed : forall A : Type, list A -> list A.
Variable worker_rng : option Z -> Z -> Z -> RNG.
Hypothesis as_completed_yields_all : yields_all as_completed.

Lemma submission_order_yields_all : yields_all (fun _ l => l).
Proof. intros A l. reflexivity. Qed.



End MatrixGoTheorems.

(** *** Example runs *)

Lemma reverse_completion_yields_all : yields_all reverse_completion.
Proof. intros A l. unfold reverse_completion. symmetry. apply Permutation_rev. Qed.




(** ** Loops with a state *)

Lemma efold_app {A S : Type} (body : S -> A -> exn + S) (l1 l2 : list A) (s : S) :
  efold body (l1 ++ l2) s = (let* s1 := efold body l1 s in efold body l2 s1).
Proof.
  revert s. induction l1 as [|x l1 IH]; intros s; [reflexivity|].
  cbn [app efold]. destruct (body s x) as [e|s']; [reflexivity|]. cbn [ebind]. apply IH.
Qed.

Lemma efold_map {A B S : Type} (body : S -> B -> exn + S) (g : A -> B) (l : list A) (s : S) :
  efold body (map g l) s = efold (fun s x => body s (g x)) l s.
Proof.
  revert s. induction l as [|x l IH]; intros s; [reflexivity|].
  cbn [map efold]. destruct (body s (g x)) as [e|s']; [reflexivity|]. cbn [ebind]. apply IH.
Qed.

Lemma efold_ext {A S : Type} (f g : S -> A -> exn + S) (l : list A) (s : S) :
  (forall s x, f s x = g s x) -> efold f l s = efold g l s.
Proof.
  intros H. revert s. induction l as [|x l IH]; intros s; [reflexivity|].
  cbn [efold]. rewrite H. destruct (g s x) as [e|s']; [reflexivity|]. cbn [ebind]. apply IH.
Qed.

(** Two nested loops are one loop over the pairs. *)
Lemma efold_nested {A B S : Type} (la : list A) (lb : A -> list B)
    (body : S -> A -> B -> exn + S) (s : S) :
  efold (fun s a => efold (fun s b => body s a b) (lb a) s) la s =
  efold (fun s p => body s (fst p) (snd p)) (loop_pairs la lb) s.
Proof.
  unfold loop_pairs. revert s. induction la as [|a la IH]; intros s; [reflexivity|].
  cbn [efold flat_map]. rewrite efold_app, efold_map. cbn [fst snd].
  destruct (efold (fun s0 x => body s0 a x) (lb a) s) as [e|s']; [reflexivity|].
  cbn [ebind]. apply IH.
Qed.

Lemma In_loop_pairs {A B : Type} (la : list A) (lb : A -> list B) (a : A) (b : B) :
  In (a, b) (loop_pairs la lb) <-> In a la /\ In b (lb a).
Proof.
  unfold loop_pairs. rewrite in_flat_map. split.
  - intros (a' & Ha & Hb). apply in_map_iff in Hb. destruct Hb as (b' & Heq & Hb).
    injection Heq as -> ->. split; assumption.
  - intros [Ha Hb]. exists a. split; [exact Ha|]. apply in_map. exact Hb.
Qed.

Lemma NoDup_loop_pairs {A B : Type} (la : list A) (lb : A -> list B) :
  NoDup la -> (forall a, NoDup (lb a)) -> NoDup (loop_pairs la lb).
Proof.
  intros Ha Hb. unfold loop_pairs. rewrite flat_map_bind. apply NoDup_bind; [| |exact Ha].
  - intros a1 a2 [a b] _ _ H1 H2.
    apply list_elem_of_In, in_map_iff in H1. apply list_elem_of_In, in_map_iff in H2.
    destruct H1 as (b1 & H1 & _), H2 as (b2 & H2 & _). congruence.
  - intros a _. apply (NoDup_fmap_2_strong (pair a)); [|apply Hb].
    intros x y _ _ H. congruence.
Qed.

(** A loop that assigns, for each element, a value that depends on the
    element alone. *)
Lemma efold_nd_set {X A : Type} (key : X -> list Z) (val : X -> exn + A) (v : X -> A)
    (l : list X) (a : ndarray A) :
  Forall (fun x => val x = inr (v x) /\ nd_index (nd_shape a) (key x) = inr (key x)) l ->
  efold (fun res x => let* y := val x in nd_set res (key x) y) l a =
    inr {| nd_shape := nd_shape a; nd_cells := assign_all key v l (nd_cells a) |}.
Proof.
  intros H. revert a H. induction l as [|x l IH]; intros a H.
  - destruct a. reflexivity.
  - apply Forall_cons in H. destruct H as [[Hv Hk] Hl].
    cbn [efold]. rewrite Hv. cbn [ebind]. unfold nd_set. rewrite Hk. cbn [ebind ret].
    rewrite IH by exact Hl. reflexivity.
Qed.

Lemma assign_all_elem {P A : Type} (key : P -> list Z) (val : P -> A) (l : list P)
    (cells : gmap (list Z) A) (k : list Z) (c : A) :
  assign_all key val l cells !! k = Some c ->
  cells !! k = Some c \/ exists p, In p l /\ key p = k /\ c = val p.
Proof.
  revert cells. induction l as [|x l IH]; intros cells H; [left; exact H|].
  cbn [assign_all foldl] in H. fold (assign_all key val l (<[key x := val x]> cells)) in H.
  apply IH in H. destruct H as [H|(p & Hp & Hk & Hc)].
  - destruct (decide (key x = k)) as [Heq|Hne].
    + rewrite Heq, lookup_insert_eq in H. injection H as <-.
      right. exists x. split; [left; reflexivity|]. split; [exact Heq|reflexivity].
    + rewrite lookup_insert_ne in H by exact Hne. left. exact H.
  - right. exists p. split; [right; exact Hp|]. split; assumption.
Qed.

Lemma emap_ok {A B : Type} (f : A -> exn + B) (l : list A) :
  (forall x, In x l -> exists y, f x = inr y) ->
  exists ys, emap f l = inr ys /\ length ys = length l.
Proof.
  induction l as [|x l IH]; intros H; [exists []; split; reflexivity|].
  destruct (H x (or_introl eq_refl)) as [y Hy].
  destruct (IH (fun z Hz => H z (or_intror Hz))) as (ys & Hys & Hlen).
  exists (y :: ys). cbn [emap]. rewrite Hy, Hys. cbn. split; [reflexivity|congruence].
Qed.

(** ** Block averaging *)

Section BlockAverageProperties.
Context `{T : TraceData}.

Lemma emap_Forall_ok {A B : Type} (P : A -> Prop) (f : A -> exn + B) (l : list A) :
  (forall x, P x -> exists y, f x = inr y) -> Forall P l ->
  exists ys, emap f l = inr ys /\ length ys = length l.
Proof.
  intros Hf Hl. apply emap_ok. intros x Hx. apply Hf.
  rewrite List.Forall_forall in Hl. apply Hl, Hx.
Qed.

Lemma dataset_block_ok (d : block_dataset) (nstates a b istate jstate : Z) :
  well_shaped nstates d -> 0 <= istate < nstates -> 0 <= jstate < nstates ->
  exists values, dataset_block d a b istate jstate = inr values.
Proof.
  intros Hd Hi Hj. destruct d as [rows|rows]; cbn [well_shaped dataset_block] in *.
  - destruct (emap_Forall_ok (fun row => Z.of_nat (length row) = nstates)
                (fun row => py_getitem row istate) (py_slice rows a b)) as (ys & Hys & _).
    + intros row Hrow. destruct (py_getitem_in_range row istate ltac:(lia)) as (x & _ & Hx).
      exists x. exact Hx.
    + unfold py_slice. apply Forall_take, Forall_drop, Hd.
    + exists ys. exact Hys.
  - destruct (emap_Forall_ok
                (fun row => Z.of_nat (length row) = nstates /\
                            Forall (fun r => Z.of_nat (length r) = nstates) row)
                (fun row => let* r := py_getitem row istate in py_getitem r jstate)
                (py_slice rows a b)) as (ys & Hys & _).
    + intros row [Hlen Hrow].
      destruct (py_getitem_in_range row istate ltac:(lia)) as (r & Hr & Hget).
      rewrite Hget. cbn [ebind].
      rewrite Forall_lookup in Hrow. specialize (Hrow _ _ Hr).
      destruct (py_getitem_in_range r jstate ltac:(lia)) as (x & _ & Hx).
      exists x. exact Hx.
    + unfold py_slice. apply Forall_take, Forall_drop, Hd.
    + exists ys. exact Hys.
Qed.

Lemma block_means_ok (d : block_dataset) (nstates blocksize istate jstate : Z) :
  well_shaped nstates d -> 1 <= blocksize -> 0 <= istate < nstates -> 0 <= jstate < nstates ->
  exists datalist,
    block_means d blocksize istate jstate = inr datalist /\
    Z.of_nat (length datalist) = dataset_len d / blocksize.
Proof.
  intros Hd Hb Hi Hj. unfold block_means.
  destruct (emap_ok
              (fun i => let* values := dataset_block d (blocksize * i) (blocksize * (i + 1))
                                                     istate jstate in
                        ret (np_mean values))
              (xrange 0 (dataset_len d / blocksize))) as (ys & Hys & Hlen).
  - intros i _.
    destruct (dataset_block_ok d nstates (blocksize * i) (blocksize * (i + 1)) istate jstate
                Hd Hi Hj) as [values ->].
    eexists. reflexivity.
  - exists ys. split; [exact Hys|]. rewrite Hlen, xrange_length.
    assert (0 <= dataset_len d / blocksize).
    { apply Z.div_pos; [|lia]. destruct d; cbn; lia. }
    lia.
Qed.

(** The triples [(istate, (jstate, blocksize))] of the three nested loops. *)
Lemma block_avg_dataset_flat (d : block_dataset) (start stop nstates : Z)
    (result : ndarray ci_record) :
  block_avg_dataset d start stop nstates result =
  efold (fun res q =>
           block_avg_step d start stop res (fst q) (fst (snd q)) (snd (snd q)))
        (loop_pairs (xrange 0 nstates)
           (fun _ => loop_pairs (xrange 0 nstates)
                       (fun _ => xrange 1 (dataset_len d / 2 - 1))))
        result.
Proof.
  unfold block_avg_dataset.
  rewrite <- (efold_nested (xrange 0 nstates)
                (fun _ => loop_pairs (xrange 0 nstates)
                            (fun _ => xrange 1 (dataset_len d / 2 - 1)))
                (fun res i p => block_avg_step d start stop res i (fst p) (snd p))).
  apply efold_ext. intros res i.
  apply (efold_nested (xrange 0 nstates) (fun _ => xrange 1 (dataset_len d / 2 - 1))
           (fun res j b => block_avg_step d start stop res i j b)).
Qed.

Lemma NoDup_triple_keys (n m : Z) :
  NoDup (map triple_key
           (loop_pairs (xrange 0 n) (fun _ => loop_pairs (xrange 0 n) (fun _ => xrange 1 m)))).
Proof.
  apply (NoDup_fmap_2_strong triple_key).
  - intros [i1 [j1 b1]] [i2 [j2 b2]] _ _ H. unfold triple_key in H. cbn in H.
    injection H as Hb Hi Hj. subst. do 2 f_equal. lia.
  - apply NoDup_loop_pairs; [apply NoDup_xrange|]. intros _.
    apply NoDup_loop_pairs; [apply NoDup_xrange|]. intros _. apply NoDup_xrange.
Qed.

Lemma block_avg_dataset_spec (d : block_dataset) (rows nstates start stop : Z) :
  well_shaped nstates d -> dataset_len d / 2 - 2 <= rows ->
  exists r,
    block_avg_dataset d start stop nstates (np_zeros [rows; nstates; nstates]) = inr r /\
    block_avg_spec d rows nstates start stop r.
Proof.
  intros Hd Hrows.
  set (triples := loop_pairs (xrange 0 nstates)
                    (fun _ => loop_pairs (xrange 0 nstates)
                                (fun _ => xrange 1 (dataset_len d / 2 - 1)))).
  assert (Hmem : forall i j b, In (i, (j, b)) triples <->
            0 <= i < nstates /\ 0 <= j < nstates /\ 1 <= b < dataset_len d / 2 - 1).
  { intros i j b. subst triples. rewrite In_loop_pairs, In_loop_pairs, !xrange_In. tauto. }
  assert (Hstep : forall q, In q triples ->
            exists datalist,
              block_means d (snd (snd q)) (fst q) (fst (snd q)) = inr datalist /\
              Z.of_nat (length datalist) = dataset_len d / snd (snd q) /\
              triple_record d start stop q
                = block_avg_record d datalist start stop (snd (snd q)) /\
              nd_index [rows; nstates; nstates] (triple_key q) = inr (triple_key q)).
  { intros [i [j b]] Hq. apply Hmem in Hq. destruct Hq as (Hi & Hj & Hb). cbn [fst snd].
    destruct (block_means_ok d nstates b i j Hd ltac:(lia) Hi Hj) as (dl & Hdl & Hlen).
    exists dl. split; [exact Hdl|]. split; [exact Hlen|].
    split; [unfold triple_record; cbn [fst snd]; rewrite Hdl; reflexivity|].
    apply nd_index_in_range. unfold triple_key. cbn [fst snd]. repeat constructor; lia. }
  set (cells := assign_all triple_key (triple_record d start stop) triples
                           (∅ : gmap (list Z) ci_record)).
  assert (Hrun : block_avg_dataset d start stop nstates (np_zeros [rows; nstates; nstates])
                 = inr {| nd_shape := [rows; nstates; nstates]; nd_cells := cells |}).
  { rewrite block_avg_dataset_flat. fold triples.
    rewrite (efold_ext _
               (fun res q =>
                  let* y := (let* datalist := block_means d (snd (snd q)) (fst q) (fst (snd q)) in
                             ret (block_avg_record d datalist start stop (snd (snd q)))) in
                  nd_set res (triple_key q) y)).
    2:{ intros res q. unfold block_avg_step, triple_key.
        destruct (block_means d (snd (snd q)) (fst q) (fst (snd q))); reflexivity. }
    rewrite (efold_nd_set triple_key _ (triple_record d start stop)); [reflexivity|].
    apply List.Forall_forall. intros q Hq.
    destruct (Hstep q Hq) as (dl & Hdl & _ & Hrec & Hidx).
    split; [rewrite Hdl, Hrec; reflexivity|exact Hidx]. }
  eexists. split; [exact Hrun|].
  split; [reflexivity|]. split.
  - intros idx rec Hget. unfold nd_get in Hget. cbn [nd_shape nd_cells] in Hget.
    destruct (nd_index [rows; nstates; nstates] idx) as [e|k]; [discriminate|].
    cbn [ebind ret] in Hget. injection Hget as <-.
    destruct (cells !! k) as [c|] eqn:Hc; [|split; reflexivity].
    cbn [default]. apply assign_all_elem in Hc.
    destruct Hc as [Hc|(q & Hq & _ & ->)]; [rewrite lookup_empty in Hc; discriminate|].
    destruct (Hstep q Hq) as (dl & _ & _ & -> & _). split; reflexivity.
  - intros b i j Hb Hi Hj.
    assert (Hq : In (i, (j, b)) triples) by (apply Hmem; tauto).
    destruct (Hstep _ Hq) as (dl & Hdl & Hlen & Hrec & Hidx). cbn [fst snd] in *.
    exists dl, (block_avg_record d dl start stop b).
    split; [exact Hdl|]. split; [exact Hlen|]. split.
    + unfold nd_get. cbn [nd_shape nd_cells].
      change [b - 1; i; j] with (triple_key (i, (j, b))). rewrite Hidx. cbn [ebind ret].
      subst cells. rewrite (assign_all_lookup triple_key (triple_record d start stop)
                              triples (i, (j, b)) (NoDup_triple_keys _ _) Hq).
      cbn [default]. rewrite Hrec. reflexivity.
    + repeat split; reflexivity.
Qed.

(** C8: [_eval_block_avg] returns three arrays in which every record, for
    every dataset, state pair and row, has [ci_lbound = ci_ubound = 0], and in
    which, for every block size of the loop, the record of that block size
    holds the window bounds, the mean, the standard error and the variance of
    the block means, and the block size as [corr_len]. *)
Theorem eval_block_avg_records (iblock start stop nstates : Z)
    (total_fluxes : list (list Q)) (cond_fluxes rates : list (list (list Q)))
    (mcbs_alpha : Q) (mcbs_nsets : Z) (mcbs_acalpha : Q) :
  well_shaped nstates (PerState total_fluxes) ->
  well_shaped nstates (PerPair cond_fluxes) ->
  well_shaped nstates (PerPair rates) ->
  length total_fluxes = length rates -> length cond_fluxes = length rates ->
  let rows := Z.of_nat (length rates) / 2 in
  exists r0 r1 r2,
    _eval_block_avg iblock start stop nstates total_fluxes cond_fluxes rates
                    mcbs_alpha mcbs_nsets mcbs_acalpha = inr (r0, r1, r2, stop) /\
    block_avg_spec (PerState total_fluxes) rows nstates start stop r0 /\
    block_avg_spec (PerPair cond_fluxes) rows nstates start stop r1 /\
    block_avg_spec (PerPair rates) rows nstates start stop r2.
Proof.
  intros H0 H1 H2 Hl0 Hl1 rows.
  destruct (block_avg_dataset_spec (PerState total_fluxes) rows nstates start stop H0)
    as (r0 & Hr0 & Hs0); [cbn [dataset_len]; subst rows; rewrite Hl0; lia|].
  destruct (block_avg_dataset_spec (PerPair cond_fluxes) rows nstates start stop H1)
    as (r1 & Hr1 & Hs1); [cbn [dataset_len]; subst rows; rewrite Hl1; lia|].
  destruct (block_avg_dataset_spec (PerPair rates) rows nstates start stop H2)
    as (r2 & Hr2 & Hs2); [cbn [dataset_len]; subst rows; lia|].
  exists r0, r1, r2. split; [|split; [exact Hs0|split; [exact Hs1|exact Hs2]]].
  unfold _eval_block_avg. fold rows. rewrite Hr0. cbn [ebind]. rewrite Hr1. cbn [ebind].
  rewrite Hr2. reflexivity.
Qed.

End BlockAverageProperties.

(** ** Attributes of the output datasets *)

Lemma stamp_mcbs_info_stamped (cfg : config) (ds : dataset) :
  stamped cfg (stamp_mcbs_info cfg ds).
Proof.
  unfold stamped, stamp_mcbs_info. cbn [ds_attrs]. repeat split.
  - rewrite !lookup_insert_ne by discriminate. apply lookup_insert_eq.
  - rewrite lookup_insert_ne by discriminate. apply lookup_insert_eq.
  - apply lookup_insert_eq.
Qed.

Lemma lookup_stamp_in_file (cfg : config) (n k : string) (file : gmap string dataset) :
  stamp_in_file cfg n file !! k =
    if decide (n = k) then stamp_mcbs_info cfg <$> file !! k else file !! k.
Proof.
  unfold stamp_in_file. destruct (decide (n = k)) as [->|Hne].
  - destruct (file !! k) as [ds|] eqn:Hk; [apply lookup_insert_eq|rewrite Hk; reflexivity].
  - destruct (file !! n); [apply lookup_insert_ne, Hne|reflexivity].
Qed.

Lemma create_dataset_inr (n : string) (v : ds_value) (file file' : gmap string dataset) :
  create_dataset n v file = inr file' -> file' = <[n := new_dataset v]> file.
Proof.
  unfold create_dataset. destruct (file !! n); [discriminate|]. intros H. injection H as <-.
  reflexivity.
Qed.

Lemma policy_pending_empty (cfg : config) : policy_pending cfg (fun _ => False) ∅.
Proof. intros name ds H. rewrite lookup_empty in H. discriminate. Qed.

Lemma policy_pending_weaken (cfg : config) (P P' : string -> Prop) (file : gmap string dataset) :
  policy_pending cfg P file -> (forall k, P k -> P' k) -> policy_pending cfg P' file.
Proof. intros H HP name ds Hl. destruct (H name ds Hl) as [Hp|Hd]; [left; auto|right; exact Hd]. Qed.

Lemma policy_pending_insert (cfg : config) (P : string -> Prop) (n : string) (ds : dataset)
    (file : gmap string dataset) :
  policy_pending cfg P file -> policy_pending cfg (fun k => k = n \/ P k) (<[n := ds]> file).
Proof.
  intros H name ds' Hl. destruct (decide (n = name)) as [->|Hne]; [left; left; reflexivity|].
  rewrite lookup_insert_ne in Hl by exact Hne.
  destruct (H name ds' Hl) as [Hp|Hd]; [left; right; exact Hp|right; exact Hd].
Qed.

Lemma policy_pending_insert_plain (cfg : config) (P : string -> Prop) (n : string)
    (v : ds_value) (file : gmap string dataset) :
  policy_pending cfg P file -> n ∉ quantity_datasets ->
  n = "state_labels"%string \/ est_type cfg = block ->
  policy_pending cfg P (<[n := new_dataset v]> file).
Proof.
  intros H Hn Hwhy name ds Hl. destruct (decide (n = name)) as [->|Hne].
  - rewrite lookup_insert_eq in Hl. injection Hl as <-. right. right.
    split; [exact Hn|]. split; [reflexivity|exact Hwhy].
  - rewrite lookup_insert_ne in Hl by exact Hne. exact (H name ds Hl).
Qed.

Lemma policy_pending_stamp (cfg : config) (P : string -> Prop) (n : string)
    (file : gmap string dataset) :
  policy_pending cfg P file -> n ∈ quantity_datasets ->
  policy_pending cfg (fun k => P k /\ k <> n) (stamp_in_file cfg n file).
Proof.
  intros H Hn name ds Hl. rewrite lookup_stamp_in_file in Hl.
  destruct (decide (n = name)) as [->|Hne].
  - destruct (file !! name) as [ds0|]; [|discriminate]. injection Hl as <-.
    right. left. split; [exact Hn|apply stamp_mcbs_info_stamped].
  - destruct (H name ds Hl) as [Hp|Hd]; [left; split; [exact Hp|congruence]|right; exact Hd].
Qed.

Lemma policy_pending_done (cfg : config) (P : string -> Prop) (file : gmap string dataset) :
  policy_pending cfg P file -> (forall k, ~ P k) -> stamping_policy cfg file.
Proof.
  intros H HP name ds Hl. destruct (H name ds Hl) as [Hp|Hd]; [destruct (HP name Hp)|exact Hd].
Qed.

Lemma stamping_policy_pending (cfg : config) (file : gmap string dataset) :
  stamping_policy cfg file -> policy_pending cfg (fun _ => False) file.
Proof. intros H name ds Hl. right. exact (H name ds Hl). Qed.

Ltac in_quantity := unfold quantity_datasets; set_solver.

Ltac not_in_quantity :=
  unfold quantity_datasets; cbn [String.append];
  let H := fresh in
  intros H; repeat (apply elem_of_cons in H; destruct H as [H|H]; [discriminate H|]);
  apply elem_of_nil in H; exact H.

(** Three datasets named by quantity created, then stamped. *)
Lemma policy_create3_stamp3 (cfg : config) (n1 n2 n3 : string) (v1 v2 v3 : ds_value)
    (file f1 f2 f3 : gmap string dataset) :
  stamping_policy cfg file ->
  n1 ∈ quantity_datasets -> n2 ∈ quantity_datasets -> n3 ∈ quantity_datasets ->
  create_dataset n1 v1 file = inr f1 ->
  create_dataset n2 v2 f1 = inr f2 ->
  create_dataset n3 v3 f2 = inr f3 ->
  stamping_policy cfg (stamp_in_file cfg n3 (stamp_in_file cfg n2 (stamp_in_file cfg n1 f3))).
Proof.
  intros Hp H1 H2 H3 Hc1 Hc2 Hc3.
  apply create_dataset_inr in Hc1, Hc2, Hc3. subst f1 f2 f3.
  eapply policy_pending_done.
  - apply policy_pending_stamp; [|exact H3]. apply policy_pending_stamp; [|exact H2].
    apply policy_pending_stamp; [|exact H1].
    do 3 apply policy_pending_insert. apply stamping_policy_pending, Hp.
  - cbv beta. intros k. tauto.
Qed.

Lemma stamping_policy_empty (cfg : config) : stamping_policy cfg ∅.
Proof. intros name ds H. rewrite lookup_empty in H. discriminate. Qed.

Lemma policy_insert_stamp (cfg : config) (n : string) (ds : dataset)
    (file : gmap string dataset) :
  stamping_policy cfg file -> n ∈ quantity_datasets ->
  stamping_policy cfg (stamp_in_file cfg n (<[n := ds]> file)).
Proof.
  intros Hp Hn. eapply policy_pending_done.
  - apply policy_pending_stamp; [|exact Hn]. apply policy_pending_insert.
    apply stamping_policy_pending, Hp.
  - cbv beta. intros k. tauto.
Qed.

Lemma policy_create_plain (cfg : config) (n : string) (v : ds_value)
    (file file' : gmap string dataset) :
  stamping_policy cfg file -> n ∉ quantity_datasets ->
  n = "state_labels"%string \/ est_type cfg = block ->
  create_dataset n v file = inr file' -> stamping_policy cfg file'.
Proof.
  intros Hp Hn Hwhy Hc. apply create_dataset_inr in Hc. subst file'.
  eapply policy_pending_done.
  - apply policy_pending_insert_plain; [|exact Hn|exact Hwhy].
    apply stamping_policy_pending, Hp.
  - intros k H. exact H.
Qed.

Section Stamping.
Context `{K : Kinetics} `{T : TraceData}.
Variable as_completed : forall A : Type, list A -> list A.
Variable worker_rng : option Z -> Z -> Z -> RNG.

Lemma save_averages_policy (cfg : config) (state_labels : list string)
    (t c r : ndarray trace_cell) (file0 file : gmap string dataset) :
  stamping_policy cfg file0 ->
  save_averages cfg state_labels t c r file0 = inr file -> stamping_policy cfg file.
Proof.
  intros Hp H. unfold save_averages in H.
  destruct (create_dataset "avg_rates" (DTrace r) file0) as [e|f1] eqn:H1; [discriminate|].
  cbn [ebind] in H.
  destruct (create_dataset "avg_conditional_fluxes" (DTrace c) f1) as [e|f2] eqn:H2;
    [discriminate|].
  cbn [ebind] in H.
  destruct (create_dataset "avg_total_fluxes" (DTrace t) f2) as [e|f3] eqn:H3; [discriminate|].
  cbn [ebind] in H.
  eapply policy_create_plain; [| | |exact H].
  - eapply (policy_create3_stamp3 cfg _ _ _ _ _ _ file0 f1 f2 f3); try eassumption; in_quantity.
  - not_in_quantity.
  - left. reflexivity.
Qed.

Lemma save_trace_evol_policy (cfg : config) (arrays : evol_arrays)
    (file0 file : gmap string dataset) :
  stamping_policy cfg file0 ->
  save_trace_evol cfg arrays file0 = inr file -> stamping_policy cfg file.
Proof.
  intros Hp H. unfold save_trace_evol in H. destruct arrays as [[t f] r].
  destruct (create_dataset "conditional_flux_evolution" (DTrace f) file0) as [e|f1] eqn:H1;
    [discriminate|].
  cbn [ebind] in H.
  destruct (create_dataset "target_flux_evolution" (DTrace t) f1) as [e|f2] eqn:H2;
    [discriminate|].
  cbn [ebind] in H.
  destruct (create_dataset "rate_evolution" (DTrace r) f2) as [e|f3] eqn:H3; [discriminate|].
  cbn [ebind ret] in H. injection H as <-.
  eapply (policy_create3_stamp3 cfg _ _ _ _ _ _ file0 f1 f2 f3); try eassumption; in_quantity.
Qed.

Lemma collect_block_avg_policy (cfg : config)
    (completed : list (future (ndarray ci_record * ndarray ci_record * ndarray ci_record * Z)))
    (istate : Z) (file : gmap string dataset) :
  est_type cfg = block -> stamping_policy cfg file ->
  stamping_policy cfg (output_of (collect_block_avg completed istate file)).
Proof.
  intros Hb. revert file. induction completed as [|fut rest IH]; intros file Hp; [exact Hp|].
  destruct fut as [e|[[[t c] r] stop]]; [exact Hp|].
  cbn [collect_block_avg get_result].
  match goal with
  | |- context [create_dataset ?n (DBlock c) file] =>
      destruct (create_dataset n (DBlock c) file) as [e|f1] eqn:H1; [exact Hp|]
  end.
  assert (Hp1 : stamping_policy cfg f1).
  { eapply policy_create_plain; [exact Hp| |right; exact Hb|exact H1]. not_in_quantity. }
  match goal with
  | |- context [create_dataset ?n (DBlock t) f1] =>
      destruct (create_dataset n (DBlock t) f1) as [e|f2] eqn:H2; [exact Hp1|]
  end.
  assert (Hp2 : stamping_policy cfg f2).
  { eapply policy_create_plain; [exact Hp1| |right; exact Hb|exact H2]. not_in_quantity. }
  match goal with
  | |- context [create_dataset ?n (DBlock r) f2] =>
      destruct (create_dataset n (DBlock r) f2) as [e|f3] eqn:H3; [exact Hp2|]
  end.
  apply IH. eapply policy_create_plain; [exact Hp2| |right; exact Hb|exact H3]. not_in_quantity.
Qed.

(** C9 (amended): in every output file of the matrix and of the trace
    subcommand, whether the run completed or not, each dataset named by
    quantity ([avg_rates], [avg_total_fluxes], [avg_conditional_fluxes],
    [rate_evolution], [target_flux_evolution], [conditional_flux_evolution])
    carries [mcbs_alpha], [mcbs_acalpha] and [mcbs_nsets] with the values of
    the run; the other datasets, which are [state_labels] and the datasets
    written per window with [--type block], carry no attribute. *)
Theorem mcbs_attributes_policy (cfg : config) (nstates : Z) (state_labels : list string) :
  stamping_policy cfg
    (output_of (AvgMatrixSubcommand_go as_completed worker_rng cfg nstates state_labels)) /\
  stamping_policy cfg
    (output_of (AvgTraceSubcommand_go as_completed cfg nstates state_labels)).
Proof.
  split.
  - unfold AvgMatrixSubcommand_go.
    destruct (negb _); [apply stamping_policy_empty|].
    destruct (collect_avg_rates _ _) as [e|avg_rates]; [apply stamping_policy_empty|].
    assert (H1 : stamping_policy cfg
                   (stamp_in_file cfg "avg_rates"
                      (<["avg_rates"%string := new_dataset (DRates avg_rates)]> ∅))).
    { apply policy_insert_stamp; [apply stamping_policy_empty|in_quantity]. }
    destruct state_labels as [|l0 ls]; [exact H1|].
    destruct (evolution_mode_of cfg); [| |exact H1].
    all: destruct (cfg_iter_step cfg =? 0); [exact H1|].
    all: destruct (collect_evol _ _) as [e|evol]; [exact H1|].
    all: cbn [output_of]; apply policy_insert_stamp; [exact H1|in_quantity].
  - unfold AvgTraceSubcommand_go.
    destruct (negb _); [apply stamping_policy_empty|].
    destruct (let* t := average_total_fluxes cfg nstates in _) as [e|[[t c] r]];
      [apply stamping_policy_empty|].
    destruct (save_averages cfg state_labels t c r ∅) as [e|file] eqn:Hsave;
      [apply stamping_policy_empty|].
    pose proof (save_averages_policy cfg state_labels t c r ∅ file
                  (stamping_policy_empty cfg) Hsave) as H1.
    destruct state_labels as [|l0 ls]; [exact H1|].
    destruct (evolution_mode_of cfg); [| |exact H1].
    all: destruct (cfg_iter_step cfg =? 0); [exact H1|].
    all: destruct (est_type cfg) eqn:Htype.
    all: try (apply collect_block_avg_policy; [exact Htype|exact H1]).
    all: destruct (collect_trace_evol _ _) as [e|arrays]; [exact H1|].
    all: destruct (save_trace_evol cfg arrays file) as [e|file'] eqn:Hevol; [exact H1|].
    all: exact (save_trace_evol_policy cfg arrays file file' H1 Hevol).
Qed.

End Stamping.

(** *** Example runs of the trace subcommand *)

Lemma toy_trace_well_shaped (a b : Z) :
  well_shaped 1 (PerState (@total_fluxes_slice toy_trace a b)) /\
  well_shaped 1 (PerPair (@cond_fluxes_slice toy_trace a b)) /\
  well_shaped 1 (PerPair (@rates_slice toy_trace a b)).
Proof.
  cbn [well_shaped total_fluxes_slice cond_fluxes_slice rates_slice toy_trace].
  repeat split; apply List.Forall_forall; intros row Hrow; apply in_map_iff in Hrow;
    destruct Hrow as (n & <- & _); repeat constructor.
Qed.

(** An instance of C8: one state, the window [[0, 8)]; the record of block
    size 1 of the rates. *)
Lemma eval_block_avg_records_witness :
  well_shaped 1 (PerPair (@rates_slice toy_trace 0 8)) /\
  exists r0 r1 r2 rec,
    @_eval_block_avg toy_trace 0 0 8 1 (@total_fluxes_slice toy_trace 0 8)
       (@cond_fluxes_slice toy_trace 0 8) (@rates_slice toy_trace 0 8) (1 # 2) 4 (1 # 2)
      = inr (r0, r1, r2, 8) /\
    nd_get ci_record_zero r2 [0; 0; 0] = inr rec /\
    r_ci_lbound rec = 0%Q /\ r_ci_ubound rec = 0%Q /\ r_corr_len rec = 1 /\
    (r_expected rec == 7 # 2)%Q /\ (r_variance rec == 21 # 4)%Q.
Proof.
  destruct (toy_trace_well_shaped 0 8) as (H0 & H1 & H2).
  split; [exact H2|].
  destruct (@eval_block_avg_records toy_trace 0 0 8 1 (@total_fluxes_slice toy_trace 0 8)
              (@cond_fluxes_slice toy_trace 0 8) (@rates_slice toy_trace 0 8) (1 # 2) 4 (1 # 2)
              H0 H1 H2 eq_refl eq_refl) as (r0 & r1 & r2 & Hrun & _ & _ & _ & _ & Hspec).
  assert (Hb : 1 <= 1 < dataset_len (PerPair (@rates_slice toy_trace 0 8)) / 2 - 1)
    by (vm_compute; split; [discriminate|reflexivity]).
  destruct (Hspec 1 0 0 Hb ltac:(lia) ltac:(lia))
    as (datalist & rec & Hdl & _ & Hget & _ & _ & Hexp & _ & Hvar & Hlen & Hlb & Hub).
  exists r0, r1, r2, rec.
  split; [exact Hrun|]. split; [exact Hget|]. split; [exact Hlb|]. split; [exact Hub|].
  split; [exact Hlen|].
  vm_compute in Hdl. injection Hdl as <-. rewrite Hexp, Hvar.
  split; unfold Qeq; vm_compute; reflexivity.
Defined.

(** C9 as stated fails: a run of the trace subcommand with [--type block],
    one state and one window [[0, 8)] completes, and the three datasets it
    writes for the window carry no attribute; nor does [state_labels]. *)
Lemma block_datasets_not_stamped :
  match @AvgTraceSubcommand_go toy_trace submission_order
          (toy_block_config blocked 1 0 8 8) 1 ["a"]%string with
  | Completed file =>
      ds_attrs <$> file !! "block_avg rate final 8"%string = Some ∅ /\
      ds_attrs <$> file !! "block_avg_target_flux 0 final 8"%string = Some ∅ /\
      ds_attrs <$> file !! "block_avg_conditional_flux 0 final 8"%string = Some ∅ /\
      ds_attrs <$> file !! "state_labels"%string = Some ∅ /\
      (ds_attrs <$> file !! "avg_rates"%string) ≫= (.!! "mcbs_alpha"%string)
        = Some (AttrFloat (1 # 2))
  | Aborted _ _ => False
  end.
Proof. vm_compute. repeat split; reflexivity. Qed.

(** Every unit [_eval_block] raises: its second call needs [scipy.stats.sem],
    and [scipy] is not a global name of the module. *)
Lemma eval_series_raises `{T : TraceData} (series : exn + list Q) (start stop : Z)
    (alpha : Q) (nsets : Z) (acalpha : Q) :
  exists e, eval_series series start stop alpha nsets acalpha = inl e.
Proof.
  unfold eval_series, call_mcbs_ci_correl. destruct series as [e|s]; [exists e; reflexivity|].
  cbn. destruct (mcbs_ci_correl s numpy_mean alpha nsets acalpha) as [e|ci];
    [exists e; reflexivity|].
  exists NameError. reflexivity.
Qed.

Lemma xrange_cons (lo hi : Z) : lo < hi -> xrange lo hi = lo :: xrange (lo + 1) hi.
Proof.
  intros H. rewrite !xrange_spec.
  replace (Z.to_nat (hi - lo)) with (S (Z.to_nat (hi - (lo + 1)))) by lia.
  cbn [seq map]. f_equal; [lia|]. rewrite <- seq_shift, map_map. apply map_ext. intros k. lia.
Qed.

Lemma eval_block_raises `{T : TraceData} (iblock start stop nstates : Z)
    (total_fluxes : list (list Q)) (cond_fluxes rates : list (list (list Q)))
    (alpha : Q) (nsets : Z) (acalpha : Q) :
  0 < nstates ->
  exists e, _eval_block iblock start stop nstates total_fluxes cond_fluxes rates
                        alpha nsets acalpha = inl e.
Proof.
  intros Hn. unfold _eval_block. rewrite (xrange_cons 0 nstates Hn). cbn [efold].
  destruct (eval_series_raises (column2 total_fluxes 0) start stop alpha nsets acalpha)
    as [e He].
  rewrite He. exists e. reflexivity.
Qed.

(** ** Paring basis and initial states *)

Lemma state_map_snoc (h : heap) (l : list obj) (s : obj) :
  state_map h (l ++ [s]) = <[state_id h s := s]> (state_map h l).
Proof. unfold state_map. rewrite foldl_app. reflexivity. Qed.

(** The dictionary maps an id to the last state of the sequence that
    carries it. *)
Lemma state_map_lookup_Some (h : heap) (l : list obj) (k : pyid) (v : obj) :
  state_map h l !! k = Some v <->
  exists l1 l2, l = l1 ++ v :: l2 /\ state_id h v = k /\
                Forall (fun s => state_id h s <> k) l2.
Proof.
  induction l as [|s l IH] using rev_ind.
  - split; [intros H; unfold state_map in H; cbn in H; rewrite lookup_empty in H; discriminate|].
    intros (l1 & l2 & H & _). destruct l1; discriminate.
  - rewrite state_map_snoc. destruct (decide (state_id h s = k)) as [Hk|Hk].
    + rewrite Hk, lookup_insert_eq. split.
      * intros H. injection H as <-. exists l, []. repeat split; [exact Hk|constructor].
      * intros (l1 & l2 & Heq & Hv & Hl2). destruct l2 as [|x l2 _] using rev_ind.
        -- apply app_inj_tail in Heq. destruct Heq as [_ ->]. reflexivity.
        -- exfalso. rewrite app_comm_cons, app_assoc in Heq.
           apply app_inj_tail in Heq. destruct Heq as [_ ->].
           apply Forall_app in Hl2. destruct Hl2 as [_ Hx].
           apply Forall_cons in Hx. destruct Hx as [Hx _]. contradiction.
    + rewrite lookup_insert_ne by exact Hk. rewrite IH. split.
      * intros (l1 & l2 & -> & Hv & Hl2). exists l1, (l2 ++ [s]).
        rewrite <- app_assoc. repeat split; [exact Hv|].
        apply Forall_app. split; [exact Hl2|]. constructor; [exact Hk|constructor].
      * intros (l1 & l2 & Heq & Hv & Hl2). destruct l2 as [|x l2 _] using rev_ind.
        -- apply app_inj_tail in Heq. destruct Heq as [_ ->]. contradiction.
        -- rewrite app_comm_cons, app_assoc in Heq.
           apply app_inj_tail in Heq. destruct Heq as [-> ->].
           apply Forall_app in Hl2. destruct Hl2 as [Hl2 _].
           exists l1, l2. repeat split; assumption.
Qed.

Lemma state_map_lookup_None (h : heap) (l : list obj) (k : pyid) :
  state_map h l !! k = None <-> Forall (fun s => state_id h s <> k) l.
Proof.
  induction l as [|s l IH] using rev_ind.
  - split; [constructor|intros _; apply lookup_empty].
  - rewrite state_map_snoc, Forall_app, Forall_singleton, <- IH.
    destruct (decide (state_id h s = k)) as [Hk|Hk].
    + rewrite Hk, lookup_insert_eq. split; [discriminate|intros [_ H]; contradiction].
    + rewrite lookup_insert_ne by exact Hk. tauto.
Qed.

Lemma state_map_lookup_elem (h : heap) (l : list obj) (k : pyid) (v : obj) :
  state_map h l !! k = Some v -> v ∈ l /\ state_id h v = k.
Proof.
  intros H. apply state_map_lookup_Some in H. destruct H as (l1 & l2 & -> & Hv & _).
  split; [|exact Hv]. apply elem_of_app. right. left.
Qed.

Lemma set_of_lookups_Some {X : Type} (d : gmap pyid obj) (key : X -> pyid) (xs : list X)
    (S : gset obj) :
  set_of_lookups d key xs = Some S ->
  (forall x, x ∈ xs -> is_Some (d !! key x)) /\
  (forall v, v ∈ S <-> exists x, x ∈ xs /\ d !! key x = Some v).
Proof.
  unfold set_of_lookups. intros H. apply fmap_Some in H. destruct H as (vs & Hvs & ->).
  apply mapM_Some in Hvs. split.
  - intros x Hx. apply list_elem_of_lookup in Hx. destruct Hx as [n Hn].
    destruct (Forall2_lookup_l _ _ _ _ _ Hvs Hn) as (v & _ & Hv). rewrite Hv. eexists; reflexivity.
  - intros v. rewrite elem_of_list_to_set. split.
    + intros Hv. apply list_elem_of_lookup in Hv. destruct Hv as [n Hn].
      destruct (Forall2_lookup_r _ _ _ _ _ Hvs Hn) as (x & Hx & Hxv).
      exists x. split; [eapply list_elem_of_lookup_2; exact Hx|exact Hxv].
    + intros (x & Hx & Hxv). apply list_elem_of_lookup in Hx. destruct Hx as [n Hn].
      destruct (Forall2_lookup_l _ _ _ _ _ Hvs Hn) as (v' & Hv' & Hxv').
      assert (v' = v) by congruence. subst v'. eapply list_elem_of_lookup_2; exact Hv'.
Qed.

Lemma set_of_lookups_None {X : Type} (d : gmap pyid obj) (key : X -> pyid) (xs : list X) :
  set_of_lookups d key xs = None <-> exists x, x ∈ xs /\ d !! key x = None.
Proof.
  unfold set_of_lookups. rewrite fmap_None, mapM_None, Exists_exists. reflexivity.
Qed.

Lemma set_of_lookups_is_Some {X : Type} (d : gmap pyid obj) (key : X -> pyid) (xs : list X) :
  (forall x, x ∈ xs -> is_Some (d !! key x)) -> is_Some (set_of_lookups d key xs).
Proof.
  intros H. destruct (set_of_lookups d key xs) as [S|] eqn:E; [eexists; reflexivity|].
  apply set_of_lookups_None in E. destruct E as (x & Hx & Hn).
  destruct (H x Hx) as [v Hv]. congruence.
Qed.

(** Two sequences with the same elements give the same set, or both raise. *)
Lemma set_of_lookups_same_elements {X : Type} (d : gmap pyid obj) (key : X -> pyid)
    (xs ys : list X) :
  (forall x, x ∈ xs <-> x ∈ ys) -> set_of_lookups d key xs = set_of_lookups d key ys.
Proof.
  intros H.
  destruct (set_of_lookups d key xs) as [S|] eqn:E1;
    destruct (set_of_lookups d key ys) as [S'|] eqn:E2.
  - f_equal. apply set_of_lookups_Some in E1, E2. destruct E1 as [_ E1], E2 as [_ E2].
    apply set_eq. intros v. rewrite E1, E2. split; intros (x & Hx & Hv); exists x; split;
      try exact Hv; apply H; exact Hx.
  - apply set_of_lookups_None in E2. destruct E2 as (x & Hx & Hn).
    apply set_of_lookups_Some in E1. destruct E1 as [E1 _].
    destruct (E1 x (proj2 (H x) Hx)) as [v Hv]. congruence.
  - apply set_of_lookups_None in E1. destruct E1 as (x & Hx & Hn).
    apply set_of_lookups_Some in E2. destruct E2 as [E2 _].
    destruct (E2 x (proj1 (H x) Hx)) as [v Hv]. congruence.
  - reflexivity.
Qed.

Lemma pare_with_segments_Some (h : heap) (basis_states initial_states : list obj)
    (segments : list segment) (B I : gset obj) :
  pare_basis_initial_states h basis_states initial_states (Some segments) = Some (B, I) ->
  exists B0 U,
    set_of_lookups (state_map h basis_states) p_parent_id (filter from_basis segments) = Some B0 /\
    set_of_lookups (state_map h initial_states) p_parent_id (filter from_generated segments) = Some I /\
    set_of_lookups (state_map h basis_states) (basis_state_id h) (elements I) = Some U /\
    B = B0 ∪ U.
Proof.
  unfold pare_basis_initial_states. intros H.
  destruct (set_of_lookups _ p_parent_id (filter from_basis segments)) as [B0|]; [|discriminate].
  cbn [mbind option_bind] in H.
  destruct (set_of_lookups _ p_parent_id (filter from_generated segments)) as [I0|]; [|discriminate].
  cbn [mbind option_bind] in H.
  destruct (set_of_lookups _ (basis_state_id h) (elements I0)) as [U|] eqn:HU; [|discriminate].
  cbn [mbind option_bind] in H. injection H as <- <-.
  exists B0, U. repeat split. exact HU.
Qed.

Lemma pare_without_segments_Some (h : heap) (basis_states initial_states : list obj)
    (B I : gset obj) :
  pare_basis_initial_states h basis_states initial_states None = Some (B, I) ->
  I = list_to_set initial_states /\
  set_of_lookups (state_map h basis_states) (basis_state_id h) (elements I) = Some B.
Proof.
  unfold pare_basis_initial_states. intros H.
  destruct (set_of_lookups _ (basis_state_id h) _) as [B0|] eqn:HB; [|discriminate].
  cbn [mbind option_bind] in H. injection H as <- <-. split; [reflexivity|exact HB].
Qed.

(** X1: when [pare_basis_initial_states] returns, the basis state of every
    returned initial state is among the returned basis states, and only
    states that were passed in are returned. *)
Theorem pare_states_closed (h : heap) (basis_states initial_states : list obj)
    (segments : option (list segment)) (B I : gset obj) :
  pare_basis_initial_states h basis_states initial_states segments = Some (B, I) ->
  (forall i, i ∈ I ->
     exists b, state_map h basis_states !! basis_state_id h i = Some b /\
               state_id h b = basis_state_id h i /\ b ∈ B) /\
  (forall b, b ∈ B -> b ∈ basis_states) /\
  (forall i, i ∈ I -> i ∈ initial_states).
Proof.
  intros H. destruct segments as [segments|].
  - apply pare_with_segments_Some in H. destruct H as (B0 & U & HB0 & HI & HU & ->).
    apply set_of_lookups_Some in HB0, HI, HU.
    destruct HB0 as [_ HB0], HI as [_ HI], HU as [HUs HU].
    split; [|split].
    + intros i Hi. destruct (HUs i) as [b Hb]; [apply elem_of_elements, Hi|].
      exists b. split; [exact Hb|]. split; [apply (state_map_lookup_elem _ _ _ _ Hb)|].
      apply elem_of_union_r, HU. exists i. split; [apply elem_of_elements, Hi|exact Hb].
    + intros b Hb. apply elem_of_union in Hb. destruct Hb as [Hb|Hb].
      * apply HB0 in Hb. destruct Hb as (s & _ & Hs). apply (state_map_lookup_elem _ _ _ _ Hs).
      * apply HU in Hb. destruct Hb as (i & _ & Hi). apply (state_map_lookup_elem _ _ _ _ Hi).
    + intros i Hi. apply HI in Hi. destruct Hi as (s & _ & Hs).
      apply (state_map_lookup_elem _ _ _ _ Hs).
  - apply pare_without_segments_Some in H. destruct H as [-> HB].
    apply set_of_lookups_Some in HB. destruct HB as [HBs HB].
    split; [|split].
    + intros i Hi. destruct (HBs i) as [b Hb]; [apply elem_of_elements, Hi|].
      exists b. split; [exact Hb|]. split; [apply (state_map_lookup_elem _ _ _ _ Hb)|].
      apply HB. exists i. split; [apply elem_of_elements, Hi|exact Hb].
    + intros b Hb. apply HB in Hb. destruct Hb as (i & _ & Hi).
      apply (state_map_lookup_elem _ _ _ _ Hi).
    + intros i Hi. apply elem_of_list_to_set in Hi. exact Hi.
Qed.

(** X2: with segments given, the returned sets hold exactly the states the
    segments need: an initial state is returned when a segment started from
    it, a basis state when a segment started from it or a returned initial
    state was generated from it. *)
Theorem pare_segments_membership (h : heap) (basis_states initial_states : list obj)
    (segments : list segment) (B I : gset obj) :
  pare_basis_initial_states h basis_states initial_states (Some segments) = Some (B, I) ->
  (forall i, i ∈ I <->
     exists s, s ∈ segments /\ from_generated s /\
               state_map h initial_states !! p_parent_id s = Some i) /\
  (forall b, b ∈ B <->
     (exists s, s ∈ segments /\ from_basis s /\
                state_map h basis_states !! p_parent_id s = Some b) \/
     (exists i, i ∈ I /\ state_map h basis_states !! basis_state_id h i = Some b)).
Proof.
  intros H. apply pare_with_segments_Some in H. destruct H as (B0 & U & HB0 & HI & HU & ->).
  apply set_of_lookups_Some in HB0, HI, HU.
  destruct HB0 as [_ HB0], HI as [_ HI], HU as [_ HU]. split.
  - intros i. rewrite HI. split.
    + intros (s & Hs & Hi). apply list_elem_of_filter in Hs. destruct Hs as [Hg Hs].
      exists s. repeat split; assumption.
    + intros (s & Hs & Hg & Hi). exists s. split; [|exact Hi].
      apply list_elem_of_filter. split; assumption.
  - intros b. rewrite elem_of_union, HB0, HU. split.
    + intros [(s & Hs & Hb)|(i & Hi & Hb)].
      * apply list_elem_of_filter in Hs. destruct Hs as [Hg Hs].
        left. exists s. repeat split; assumption.
      * right. exists i. split; [apply elem_of_elements, Hi|exact Hb].
    + intros [(s & Hs & Hg & Hb)|(i & Hi & Hb)].
      * left. exists s. split; [|exact Hb]. apply list_elem_of_filter. split; assumption.
      * right. exists i. split; [apply elem_of_elements, Hi|exact Hb].
Qed.

(** X3: [pare_basis_initial_states] raises [KeyError] exactly when a state
    that is needed has no entry: without segments, when the [basis_state_id]
    of some initial state is the [state_id] of no basis state; with
    segments, when the parent of a segment is missing from its dictionary or
    the basis state of a selected initial state is.  An empty sequence of
    segments gives two empty sets. *)
Theorem pare_raises_KeyError (h : heap) (basis_states initial_states : list obj)
    (segments : list segment) :
  (pare_basis_initial_states h basis_states initial_states None = None <->
   exists i, i ∈ initial_states /\
             Forall (fun b => state_id h b <> basis_state_id h i) basis_states) /\
  (pare_basis_initial_states h basis_states initial_states (Some segments) = None <->
   (exists s, s ∈ segments /\ from_basis s /\
              Forall (fun b => state_id h b <> p_parent_id s) basis_states) \/
   (exists s, s ∈ segments /\ from_generated s /\
              Forall (fun i => state_id h i <> p_parent_id s) initial_states) \/
   (exists s i, s ∈ segments /\ from_generated s /\
                state_map h initial_states !! p_parent_id s = Some i /\
                Forall (fun b => state_id h b <> basis_state_id h i) basis_states)) /\
  pare_basis_initial_states h basis_states initial_states (Some []) = Some (∅, ∅).
Proof.
  split; [|split].
  - unfold pare_basis_initial_states.
    destruct (set_of_lookups _ (basis_state_id h) _) as [B0|] eqn:HB; cbn [mbind option_bind].
    + split; [discriminate|]. intros (i & Hi & Hn). exfalso.
      apply set_of_lookups_Some in HB. destruct HB as [HB _].
      destruct (HB i) as [b Hb]; [apply elem_of_elements, elem_of_list_to_set, Hi|].
      apply state_map_lookup_None in Hn. congruence.
    + split; [intros _|reflexivity]. apply set_of_lookups_None in HB.
      destruct HB as (i & Hi & Hn). exists i.
      split; [apply elem_of_elements, elem_of_list_to_set in Hi; exact Hi|].
      apply state_map_lookup_None, Hn.
  - unfold pare_basis_initial_states.
    destruct (set_of_lookups _ p_parent_id (filter from_basis segments)) as [B0|] eqn:HB0;
      cbn [mbind option_bind].
    2:{ split; [intros _|reflexivity]. apply set_of_lookups_None in HB0.
        destruct HB0 as (s & Hs & Hn). apply list_elem_of_filter in Hs. destruct Hs as [Hg Hs].
        left. exists s. repeat split; try assumption. apply state_map_lookup_None, Hn. }
    destruct (set_of_lookups _ p_parent_id (filter from_generated segments)) as [I0|] eqn:HI;
      cbn [mbind option_bind].
    2:{ split; [intros _|reflexivity]. apply set_of_lookups_None in HI.
        destruct HI as (s & Hs & Hn). apply list_elem_of_filter in Hs. destruct Hs as [Hg Hs].
        right. left. exists s. repeat split; try assumption. apply state_map_lookup_None, Hn. }
    apply set_of_lookups_Some in HB0, HI. destruct HB0 as [HB0 _], HI as [HIs HI].
    destruct (set_of_lookups _ (basis_state_id h) (elements I0)) as [U|] eqn:HU;
      cbn [mbind option_bind].
    + apply set_of_lookups_Some in HU. destruct HU as [HU _].
      split; [discriminate|]. intros [(s & Hs & Hg & Hn)|[(s & Hs & Hg & Hn)|(s & i & Hs & Hg & Hi & Hn)]].
      * exfalso. destruct (HB0 s) as [b Hb]; [apply list_elem_of_filter; split; assumption|].
        apply state_map_lookup_None in Hn. congruence.
      * exfalso. destruct (HIs s) as [b Hb]; [apply list_elem_of_filter; split; assumption|].
        apply state_map_lookup_None in Hn. congruence.
      * exfalso. destruct (HU i) as [b Hb].
        { apply elem_of_elements, HI. exists s. split; [|exact Hi].
          apply list_elem_of_filter. split; assumption. }
        apply state_map_lookup_None in Hn. congruence.
    + split; [intros _|reflexivity]. apply set_of_lookups_None in HU.
      destruct HU as (i & Hi & Hn). apply elem_of_elements, HI in Hi.
      destruct Hi as (s & Hs & Hi). apply list_elem_of_filter in Hs. destruct Hs as [Hg Hs].
      right. right. exists s, i. repeat split; try assumption. apply state_map_lookup_None, Hn.
  - unfold pare_basis_initial_states, set_of_lookups. cbn.
    rewrite elements_empty. cbn. rewrite union_empty_l_L. reflexivity.
Qed.

(** X4: a returned basis state is the last basis state passed in with its
    [state_id]: a state that a later one with the same id follows in the
    sequence is never returned.  With segments given the same holds of the
    returned initial states. *)
Theorem pare_returns_last_of_id (h : heap) (basis_states initial_states : list obj)
    (segments : option (list segment)) (B I : gset obj) :
  pare_basis_initial_states h basis_states initial_states segments = Some (B, I) ->
  (forall b, b ∈ B ->
     exists l1 l2, basis_states = l1 ++ b :: l2 /\
                   Forall (fun s => state_id h s <> state_id h b) l2) /\
  (is_Some segments ->
   forall i, i ∈ I ->
     exists l1 l2, initial_states = l1 ++ i :: l2 /\
                   Forall (fun s => state_id h s <> state_id h i) l2).
Proof.
  intros H.
  assert (Hlast : forall l k v, state_map h l !! k = Some v ->
            exists l1 l2, l = l1 ++ v :: l2 /\ Forall (fun s => state_id h s <> state_id h v) l2).
  { intros l k v Hv. apply state_map_lookup_Some in Hv.
    destruct Hv as (l1 & l2 & -> & <- & Hl2). exists l1, l2. split; [reflexivity|exact Hl2]. }
  destruct segments as [segments|].
  - apply pare_with_segments_Some in H. destruct H as (B0 & U & HB0 & HI & HU & ->).
    apply set_of_lookups_Some in HB0, HI, HU.
    destruct HB0 as [_ HB0], HI as [_ HI], HU as [_ HU]. split.
    + intros b Hb. apply elem_of_union in Hb. destruct Hb as [Hb|Hb].
      * apply HB0 in Hb. destruct Hb as (s & _ & Hs). eapply Hlast; eassumption.
      * apply HU in Hb. destruct Hb as (i & _ & Hi). eapply Hlast; eassumption.
    + intros _ i Hi. apply HI in Hi. destruct Hi as (s & _ & Hs). eapply Hlast; eassumption.
  - apply pare_without_segments_Some in H. destruct H as [-> HB].
    apply set_of_lookups_Some in HB. destruct HB as [_ HB]. split.
    + intros b Hb. apply HB in Hb. destruct Hb as (i & _ & Hi). eapply Hlast; eassumption.
    + intros [x Hx]. discriminate.
Qed.

(** X5: the result depends on which segments are given, not on their order
    or on repetitions. *)
Theorem pare_segment_order_irrelevant (h : heap) (basis_states initial_states : list obj)
    (segments segments' : list segment) :
  (forall s, s ∈ segments <-> s ∈ segments') ->
  pare_basis_initial_states h basis_states initial_states (Some segments) =
  pare_basis_initial_states h basis_states initial_states (Some segments').
Proof.
  intros H. unfold pare_basis_initial_states.
  rewrite (set_of_lookups_same_elements _ p_parent_id (filter from_basis segments)
             (filter from_basis segments')).
  2:{ intros s. rewrite !list_elem_of_filter, H. reflexivity. }
  rewrite (set_of_lookups_same_elements _ p_parent_id (filter from_generated segments)
             (filter from_generated segments')).
  2:{ intros s. rewrite !list_elem_of_filter, H. reflexivity. }
  reflexivity.
Qed.

(** *** Examples on the small heap *)

(** The call used by the instances below. *)
Lemma toy_pare_with_segments :
  pare_basis_initial_states toy_heap [1; 2; 3]%positive [11; 12]%positive
    (Some [toy_segment 0 1; toy_segment 1 2])
  = Some ({[1%positive; 3%positive]}, {[12%positive]}).
Proof. vm_compute. reflexivity. Qed.

(** An instance: basis states 1, 2, 3 (2 and 3 share the id 1), initial
    states 11 and 12, one segment started from the basis state with id 0 and
    one from the initial state with id 1, which was generated from the basis
    state with id 1: the basis states 1 and 3 and the initial state 12 are
    returned. *)
Lemma pare_states_closed_witness :
  pare_basis_initial_states toy_heap [1; 2; 3]%positive [11; 12]%positive
    (Some [toy_segment 0 1; toy_segment 1 2])
  = Some ({[1%positive; 3%positive]}, {[12%positive]}) /\
  exists b, state_map toy_heap [1; 2; 3]%positive !! basis_state_id toy_heap 12%positive = Some b /\
            b ∈ ({[1%positive; 3%positive]} : gset obj).
Proof.
  split; [exact toy_pare_with_segments|].
  destruct (proj1 (pare_states_closed toy_heap _ _ _ _ _ toy_pare_with_segments) 12%positive)
    as (b & Hb & _ & Hin); [set_solver|].
  exists b. split; assumption.
Defined.

(** An instance, on the same call: the basis state 2 is not returned, as no
    segment and no returned initial state leads to it. *)
Lemma pare_segments_membership_witness :
  pare_basis_initial_states toy_heap [1; 2; 3]%positive [11; 12]%positive
    (Some [toy_segment 0 1; toy_segment 1 2])
  = Some ({[1%positive; 3%positive]}, {[12%positive]}) /\
  (2%positive ∈ ({[1%positive; 3%positive]} : gset obj) <->
   (exists s, s ∈ [toy_segment 0 1; toy_segment 1 2] /\ from_basis s /\
              state_map toy_heap [1; 2; 3]%positive !! p_parent_id s = Some 2%positive) \/
   (exists i, i ∈ ({[12%positive]} : gset obj) /\
              state_map toy_heap [1; 2; 3]%positive !! basis_state_id toy_heap i
                = Some 2%positive)).
Proof.
  split; [exact toy_pare_with_segments|].
  exact (proj2 (pare_segments_membership toy_heap _ _ _ _ _ toy_pare_with_segments) 2%positive).
Defined.

(** An instance, on the same call: the returned basis state 3 is the last
    one with the id 1. *)
Lemma pare_returns_last_of_id_witness :
  pare_basis_initial_states toy_heap [1; 2; 3]%positive [11; 12]%positive
    (Some [toy_segment 0 1; toy_segment 1 2])
  = Some ({[1%positive; 3%positive]}, {[12%positive]}) /\
  exists l1 l2, [1; 2; 3]%positive = l1 ++ 3%positive :: l2 /\
                Forall (fun s => state_id toy_heap s <> state_id toy_heap 3%positive) l2.
Proof.
  split; [exact toy_pare_with_segments|].
  apply (proj1 (pare_returns_last_of_id toy_heap _ _ _ _ _ toy_pare_with_segments)).
  set_solver.
Defined.

(** An instance: the same two segments, reordered and one of them
    repeated. *)
Lemma pare_segment_order_irrelevant_witness :
  (forall s, s ∈ [toy_segment 0 1; toy_segment 1 2] <->
             s ∈ [toy_segment 1 2; toy_segment 0 1; toy_segment 1 2]) /\
  pare_basis_initial_states toy_heap [1; 2; 3]%positive [11; 12]%positive
    (Some [toy_segment 0 1; toy_segment 1 2]) =
  pare_basis_initial_states toy_heap [1; 2; 3]%positive [11; 12]%positive
    (Some [toy_segment 1 2; toy_segment 0 1; toy_segment 1 2]).
Proof.
  assert (H : forall s, s ∈ [toy_segment 0 1; toy_segment 1 2] <->
                        s ∈ [toy_segment 1 2; toy_segment 0 1; toy_segment 1 2]).
  { intros s. rewrite !elem_of_cons, !elem_of_nil. tauto. }
  split; [exact H|]. apply pare_segment_order_irrelevant. exact H.
Defined.

(** ** Basis-state files: which exception *)

Lemma lstrip_head (s : list ascii) :
  lstrip s = [] \/ exists c r, lstrip s = c :: r /\ is_space c = false.
Proof.
  induction s as [|c r IH]; [left; reflexivity|].
  cbn [lstrip]. destruct (is_space c) eqn:E; [exact IH|].
  right. exists c, r. split; [reflexivity|exact E].
Qed.

Lemma py_strip_chars_nonspace (s : list ascii) :
  py_strip_chars s <> [] -> Exists (fun c => is_space c = false) (py_strip_chars s).
Proof.
  unfold py_strip_chars. intros Hne.
  destruct (lstrip_head (rev (lstrip s))) as [Hnil|(c & r & Heq & Hc)].
  - rewrite Hnil in Hne. contradiction.
  - rewrite Heq. apply List.Exists_exists. exists c. split; [|exact Hc].
    apply in_rev. rewrite rev_involutive. left. reflexivity.
Qed.

Lemma split_ws_nonempty (s cur : list ascii) :
  cur <> [] \/ Exists (fun c => is_space c = false) s -> split_ws cur s <> [].
Proof.
  revert cur. induction s as [|c r IH]; intros cur H.
  - destruct H as [H|H]; [|inversion H]. cbn. destruct cur; [contradiction|discriminate].
  - cbn [split_ws]. destruct (is_space c) eqn:E.
    + destruct cur as [|x cur]; [|discriminate].
      apply IH. destruct H as [H|H]; [contradiction|].
      right. inversion H as [? ? Hc|? ? Hr]; subst; [congruence|exact Hr].
    + apply IH. left. discriminate.
Qed.

(** A data line has at least one field: [fields[0]] never raises. *)
Lemma data_line_has_label (line : string) :
  is_data_line line -> py_split (data_part line) <> [].
Proof.
  unfold is_data_line, data_part, py_split, py_strip. intros Hd.
  rewrite list_ascii_of_string_of_list_ascii.
  set (cs := py_strip_chars _) in *.
  assert (Hcs : cs <> []) by (intros E; apply Hd; rewrite E; reflexivity).
  intros Hnil. apply map_eq_nil in Hnil. revert Hnil.
  apply split_ws_nonempty. right. apply py_strip_chars_nonspace, Hcs.
Qed.

(** X6: the outcome of [states_from_file] on a file with a data line is
    decided by the first data line: [IndexError] when it has a label only,
    [ValueError] when [float()] rejects its second field, and the
    [TypeError] of the constructor call otherwise. *)
Theorem states_from_file_first_data_line (py_float : string -> option Q)
    (fs : gmap string (list string)) (filename : string)
    (pre : list string) (line : string) (post : list string) :
  fs !! filename = Some (pre ++ line :: post) ->
  Forall (fun l => ~ is_data_line l) pre -> is_data_line line ->
  py_split (data_part line) <> [] /\
  states_from_file py_float fs filename =
    match py_split (data_part line) !! 1%nat with
    | None => inl IndexError
    | Some f1 =>
        match py_float f1 with
        | None => inl ValueError
        | Some _ => inl TypeError
        end
    end.
Proof.
  intros Hfs Hpre Hd. pose proof (data_line_has_label line Hd) as Hne.
  split; [exact Hne|].
  unfold states_from_file. rewrite Hfs, states_from_lines_skip by exact Hpre.
  cbn [states_from_lines]. rewrite (is_empty_false _ Hd).
  destruct (py_split (data_part line)) as [|f0 fields] eqn:Hs; [contradiction|].
  rewrite (py_getitem_lookup _ 0 f0) by (reflexivity || lia). cbn [ebind].
  destruct fields as [|f1 fields]; cbn [lookup list_lookup].
  - rewrite py_getitem_out_of_range by (cbn; lia). reflexivity.
  - rewrite (py_getitem_lookup _ 1 f1) by (reflexivity || lia). cbn [ebind].
    destruct (py_float f1) as [p|]; [|reflexivity].
    cbn [ebind ret]. rewrite BasisState_new_data_ref. reflexivity.
Qed.

(** An instance: after a comment line, a line whose second field is not a
    number. *)
Lemma states_from_file_first_data_line_witness :
  let fs : gmap string (list string) :=
    {[ "bstates.txt"%string := ["# basis states"; "unbound  high  # guess"]%string ]} in
  fs !! "bstates.txt"%string = Some ["# basis states"; "unbound  high  # guess"]%string /\
  states_from_file float_of_digits fs "bstates.txt" = inl ValueError.
Proof.
  cbv zeta. split; [apply lookup_singleton_eq|].
  refine (proj2 (states_from_file_first_data_line float_of_digits _ "bstates.txt"
                   ["# basis states"%string] "unbound  high  # guess"%string []
                   (lookup_singleton_eq _ _) _ _)).
  - constructor; [|constructor]. intros H. apply H. reflexivity.
  - discriminate.
Defined.

(** ** More on the evolution windows *)

Lemma start_pts_length (start_iter stop_iter step_iter : Z) :
  0 < step_iter ->
  length (start_pts start_iter stop_iter step_iter)
    = Z.to_nat (range_len start_iter stop_iter step_iter).
Proof.
  intros Hs. unfold start_pts. rewrite py_range_spec by exact Hs.
  rewrite length_map, length_seq. reflexivity.
Qed.

(** X7: without [--step-iter] the step is [max(1, (stop - start) // 10)]; it
    is at least 1, and the range is cut into between 10 and 19 windows when
    it holds at least 10 iterations, into one window per iteration
    otherwise. *)
Theorem default_step_about_ten_blocks (get_bssize : Q -> Z) (args : cli_args) (cfg : config) :
  arg_iter_step args = None ->
  process_args get_bssize args = inr cfg ->
  let width := cfg_iter_stop cfg - cfg_iter_start cfg in
  let nwindows :=
    Z.of_nat (length (start_pts (cfg_iter_start cfg) (cfg_iter_stop cfg) (cfg_iter_step cfg))) in
  cfg_iter_start cfg = arg_iter_start args /\ cfg_iter_stop cfg = arg_iter_stop args /\
  1 <= cfg_iter_step cfg /\
  (width < 10 -> cfg_iter_step cfg = 1 /\ nwindows = Z.max 0 width) /\
  (10 <= width -> cfg_iter_step cfg = width / 10 /\ 10 <= nwindows <= 19).
Proof.
  intros Hstep Hp width nwindows. unfold process_args in Hp. rewrite Hstep in Hp.
  destruct (Qle_bool (arg_window_frac args) 0 || negb (Qle_bool (arg_window_frac args) 1));
    [discriminate|].
  unfold ret in Hp. injection Hp as <-. subst width nwindows. cbn [cfg_iter_start cfg_iter_stop cfg_iter_step].
  set (w := arg_iter_stop args - arg_iter_start args).
  split; [reflexivity|]. split; [reflexivity|]. split; [lia|].
  assert (Hlen : forall step, 0 < step ->
            Z.of_nat (length (start_pts (arg_iter_start args) (arg_iter_stop args) step))
            = Z.max 0 ((w + step - 1) / step)).
  { intros step Hs. rewrite start_pts_length by exact Hs. unfold range_len. fold w. lia. }
  pose proof (Z.div_mod w 10 ltac:(lia)) as Hdm.
  pose proof (Z.mod_pos_bound w 10 ltac:(lia)) as Hm.
  split.
  - intros Hw. assert (Hq : w / 10 <= 0) by lia.
    rewrite Z.max_l by lia. split; [reflexivity|].
    rewrite Hlen by lia. replace (w + 1 - 1) with w by lia. rewrite Z.div_1_r. reflexivity.
  - intros Hw. assert (Hq : 1 <= w / 10) by lia.
    rewrite Z.max_r by lia. split; [reflexivity|].
    rewrite Hlen by lia. set (q := w / 10) in *.
    assert (H10 : 10 <= (w + q - 1) / q) by (apply Z.div_le_lower_bound; nia).
    assert (H19 : (w + q - 1) / q < 20) by (apply Z.div_lt_upper_bound; nia).
    lia.
Qed.

(** An instance: the iterations [[1, 96)] without [--step-iter]: step 9 and
    11 windows. *)
Lemma default_step_about_ten_blocks_witness :
  let args := {| arg_alpha := 1 # 20; arg_acalpha := None; arg_nsets := None;
                 arg_type := bootstrap; arg_evolution_mode := blocked;
                 arg_window_frac := 1; arg_iter_start := 1; arg_iter_stop := 96;
                 arg_iter_step := None; arg_ss_extrapolate := true |} in
  exists cfg, process_args (fun _ => 1000) args = inr cfg /\
              cfg_iter_step cfg = 9 /\
              10 <= Z.of_nat (length (start_pts (cfg_iter_start cfg) (cfg_iter_stop cfg)
                                                (cfg_iter_step cfg))) <= 19.
Proof.
  cbv zeta.
  set (args := {| arg_alpha := 1 # 20; arg_acalpha := None; arg_nsets := None;
                  arg_type := bootstrap; arg_evolution_mode := blocked;
                  arg_window_frac := 1; arg_iter_start := 1; arg_iter_stop := 96;
                  arg_iter_step := None; arg_ss_extrapolate := true |}).
  destruct (process_args (fun _ => 1000) args) as [e|cfg] eqn:Hp; [discriminate Hp|].
  exists cfg. split; [reflexivity|].
  destruct (default_step_about_ten_blocks (fun _ => 1000) args cfg eq_refl Hp)
    as (H1 & H2 & _ & _ & H).
  assert (Hw : 10 <= cfg_iter_stop cfg - cfg_iter_start cfg) by (rewrite H1, H2; cbn; lia).
  destruct (H Hw) as [H3 H4]. split; [|exact H4].
  rewrite H3, H1, H2. reflexivity.
Defined.



(** X9: in blocked mode the windows tile the range: their iterations, window
    after window, are the iterations of [[start_iter, stop_iter)], each one
    once. *)
Theorem blocked_windows_tile_range (evol_window_frac : Q) (start_iter stop_iter step_iter : Z) :
  0 < step_iter ->
  flat_map (fun w => xrange (fst (snd w)) (snd (snd w)))
           (evolution_windows blocked evol_window_frac start_iter stop_iter step_iter)
  = xrange start_iter stop_iter.
Proof.
  intros Hs. rewrite evolution_windows_unfold by (congruence || assumption).
  rewrite flat_map_concat_map, map_map, <- flat_map_concat_map. cbn [fst snd plan_block].
  destruct (Z.le_gt_cases stop_iter start_iter) as [Hle|Hlt].
  - assert (Hn : range_len start_iter stop_iter step_iter <= 0).
    { unfold range_len.
      assert ((stop_iter - start_iter + step_iter - 1) / step_iter < 1); [|lia].
      apply Z.div_lt_upper_bound; lia. }
    replace (Z.to_nat _) with O by lia. cbn. symmetry. apply xrange_empty. exact Hle.
  - pose proof (range_len_exhausts start_iter stop_iter step_iter Hlt Hs) as Hn. cbv zeta in Hn.
    erewrite flat_map_ext; [rewrite (blocks_partition start_iter stop_iter step_iter) by lia|].
    + f_equal. lia.
    + intros k. unfold block_start, block_stop. f_equal. f_equal. lia.
Qed.

(** An instance: [start=0, stop=10, step=4]. *)
Lemma blocked_windows_tile_range_witness :
  0 < 4 /\
  evolution_windows blocked 1 0 10 4 = [(0, (0, 4)); (1, (4, 8)); (2, (8, 10))] /\
  xrange 0 4 ++ xrange 4 8 ++ xrange 8 10 ++ [] = xrange 0 10.
Proof.
  split; [lia|]. split; [reflexivity|].
  exact (blocked_windows_tile_range 1 0 10 4 ltac:(lia)).
Defined.

(** ** More on [_calc_ci_block] *)




Section CalcCIBlockMore.
Context `{K : Kinetics}.

Lemma read_window_length (iters : list Z) (avg avg' : Acc) (mf mf' : list MacroFlux) :
  read_window iters avg mf = inr (avg', mf') -> length mf' = (length mf + length iters)%nat.
Proof.
  revert avg mf. induction iters as [|n iters IH]; intros avg mf H.
  - cbn in H. unfold ret in H. injection H as _ <-. cbn. lia.
  - cbn [read_window] in H. destruct (read_iter n) as [e|o]; [discriminate|].
    cbn [ebind] in H. apply IH in H. rewrite length_app in H. cbn in *. lia.
Qed.

(** A resample that reads the iterations of the window once accumulates what
    the point estimate accumulates. *)
Lemma read_window_average_block (iters : list Z) (avg avg' : Acc) (mf mf' : list MacroFlux)
    (count : Z) :
  read_window iters avg mf = inr (avg', mf') ->
  average_block iters (avg, count) = inr (avg', count + Z.of_nat (length iters)).
Proof.
  revert avg mf count. induction iters as [|n iters IH]; intros avg mf count H.
  - cbn in H. unfold ret in H. injection H as <- _. cbn. unfold ret. do 2 f_equal. lia.
  - cbn [read_window] in H. cbn [average_block fst snd].
    destruct (read_iter n) as [e|o]; [discriminate|]. cbn [ebind] in *.
    rewrite (IH _ _ (count + 1) H). do 2 f_equal. cbn [length]. lia.
Qed.

Lemma overall_average_inv (start_iter stop_iter : Z) (extrapolate : bool)
    (ov : Rates) (mf : list MacroFlux) :
  overall_average start_iter stop_iter extrapolate = inr (ov, mf) ->
  0 <= stop_iter - start_iter /\
  exists avg,
    read_window (xrange start_iter stop_iter) acc_zero [] = inr (avg, mf) /\
    get_macrostate_rates (acc_div avg (stop_iter - start_iter)) extrapolate = inr ov /\
    Z.of_nat (length mf) = stop_iter - start_iter.
Proof.
  unfold overall_average. intros H.
  destruct (Z.ltb_spec (stop_iter - start_iter) 0); [discriminate|]. split; [assumption|].
  destruct (read_window _ acc_zero []) as [e|[avg mf0]] eqn:Hr; [discriminate|].
  cbn [ebind] in H.
  destruct (get_macrostate_rates _ extrapolate) as [e|r] eqn:Hg; [discriminate|].
  cbn [ebind ret] in H. injection H as <- <-.
  exists avg. split; [reflexivity|]. split; [exact Hg|].
  apply read_window_length in Hr. rewrite Hr, xrange_length. cbn [length]. lia.
Qed.

(** What a returned result is made of. *)
Lemma calc_ci_block_inv {L : Type} (block_label : L) (istate jstate start_iter stop_iter : Z)
    (alpha acalpha : Q) (nsets : Z) (extrapolate : bool) (g g' : RNG) (p : payload L) :
  _calc_ci_block block_label istate jstate start_iter stop_iter alpha acalpha nsets extrapolate g
    = inr (p, g') ->
  exists ov mf ctime starts stops synth e lb ub,
    overall_average start_iter stop_iter extrapolate = inr (ov, mf) /\
    0 <= nsets /\
    block_bounds start_iter stop_iter (ctime + 1) = inr (starts, stops) /\
    bootstrap_sets (Z.to_nat nsets) starts stops (Z.of_nat (length starts))
                   extrapolate istate jstate [] g = inr (synth, g') /\
    rate_at ov istate jstate = inr e /\
    py_getitem (np_sort synth) (lbi_of alpha nsets) = inr lb /\
    py_getitem (np_sort synth) (ubi_of alpha nsets) = inr ub /\
    p = (block_label, istate, jstate,
         {| iter_start := start_iter; iter_stop := stop_iter; expected := e;
            ci_lbound := lb; ci_ubound := ub; corr_len := ctime |}).
Proof.
  unfold _calc_ci_block. intros H.
  destruct (overall_average start_iter stop_iter extrapolate) as [e|[ov mf]] eqn:Hov;
    [discriminate|].
  cbn [ebind] in H.
  match type of H with
  | ebind ?m _ = _ => destruct m as [e|ctime]; [discriminate|]
  end.
  cbn [ebind] in H. destruct (Z.ltb_spec nsets 0) as [|Hn]; [discriminate|].
  destruct (block_bounds start_iter stop_iter (ctime + 1)) as [e|[starts stops]] eqn:Hbb;
    [discriminate|].
  cbn [ebind] in H.
  destruct (bootstrap_sets _ starts stops _ extrapolate istate jstate [] g) as [e|[synth g1]]
    eqn:Hbs; [discriminate|].
  cbn [ebind] in H.
  destruct (rate_at ov istate jstate) as [e|e] eqn:He; [discriminate|]. cbn [ebind] in H.
  destruct (py_getitem (np_sort synth) (lbi_of alpha nsets)) as [x|lb] eqn:Hlb; [discriminate|].
  cbn [ebind] in H.
  destruct (py_getitem (np_sort synth) (ubi_of alpha nsets)) as [x|ub] eqn:Hub; [discriminate|].
  cbn [ebind ret] in H. injection H as <- <-.
  exists ov, mf, ctime, starts, stops, synth, e, lb, ub.
  repeat split; first [assumption | reflexivity].
Qed.


(** X11: a unit whose window holds at most [istate] iterations never returns a
    result: line 483 indexes the per-iteration fluxes of the window by
    [istate], so once the point estimate is computed the unit raises
    [IndexError]. *)
Theorem calc_ci_block_short_window {L : Type} (block_label : L)
    (istate jstate start_iter stop_iter : Z) (alpha acalpha : Q) (nsets : Z)
    (extrapolate : bool) (g : RNG) :
  0 <= istate -> stop_iter - start_iter <= istate ->
  _calc_ci_block block_label istate jstate start_iter stop_iter alpha acalpha nsets extrapolate g
  = match overall_average start_iter stop_iter extrapolate with
    | inl e => inl e
    | inr _ => inl IndexError
    end.
Proof.
  intros Hi Hshort. unfold _calc_ci_block.
  destruct (overall_average start_iter stop_iter extrapolate) as [e|[ov mf]] eqn:Hov;
    [reflexivity|].
  cbn [ebind]. apply overall_average_inv in Hov. destruct Hov as (_ & _ & _ & _ & Hlen).
  rewrite py_getitem_out_of_range by lia. reflexivity.
Qed.

Lemma single_block_bounds (start_iter stop_iter stride : Z) :
  0 <= start_iter < stop_iter -> stop_iter - start_iter <= stride ->
  stop_iter + stride <= 2 ^ 32 ->
  block_bounds start_iter stop_iter stride = inr ([start_iter], [stop_iter]).
Proof.
  intros Hw Hs Hmax.
  rewrite block_bounds_spec by lia. cbv zeta.
  assert (Hn : range_len start_iter stop_iter stride = 1).
  { unfold range_len. symmetry. apply Z.div_unique with (stop_iter - start_iter - 1); lia. }
  rewrite Hn. change (Z.to_nat 1) with 1%nat. cbn [seq map]. unfold block_start, block_stop.
  change (Z.of_nat 0) with 0. do 3 f_equal; lia.
Qed.

(** With one block, every resample is the window itself. *)
Lemma bootstrap_sets_single_block (n : nat) (start_iter stop_iter : Z) (extrapolate : bool)
    (istate jstate : Z) (ov : Rates) (mf : list MacroFlux) (e : Q)
    (synth synth' : list Q) (g g' : RNG) :
  randint_in_range ->
  overall_average start_iter stop_iter extrapolate = inr (ov, mf) ->
  rate_at ov istate jstate = inr e ->
  bootstrap_sets n [start_iter] [stop_iter] 1 extrapolate istate jstate synth g
    = inr (synth', g') ->
  synth' = synth ++ replicate n e.
Proof.
  intros Hr Hov He. apply overall_average_inv in Hov.
  destruct Hov as (Hn & avg & Hrw & Hg & _).
  revert synth g. induction n as [|n IH]; intros synth g H.
  - cbn in H. unfold ret in H. injection H as <- _. cbn. rewrite app_nil_r. reflexivity.
  - cbn [bootstrap_sets] in H. change (Z.to_nat 1) with 1%nat in H.
    cbn [resample_blocks] in H.
    pose proof (Hr 0 (1 - 1) g ltac:(lia)) as Hd.
    destruct (randint 0 (1 - 1) g) as [d g1]. cbn [fst] in Hd.
    assert (d = 0) by lia. subst d.
    change (py_getitem [start_iter] 0) with (@inr exn Z start_iter) in H.
    change (py_getitem [stop_iter] 0) with (@inr exn Z stop_iter) in H.
    cbn [ebind] in H.
    rewrite (read_window_average_block _ _ _ _ _ 0 Hrw) in H. cbn [ebind ret] in H.
    rewrite xrange_length, Z.add_0_l, Z2Nat.id in H by exact Hn.
    rewrite Hg in H. cbn [ebind] in H. rewrite He in H. cbn [ebind] in H.
    apply IH in H. rewrite H, <- app_assoc. reflexivity.
Qed.

(** X12: when the correlation time reaches the length of the window
    ([stop_iter - start_iter <= ctime + 1]) there is one block, every
    resample is the window itself, and the interval collapses to the point
    estimate: [ci_lbound = ci_ubound = expected]. *)
Theorem calc_ci_block_single_block {L : Type} (block_label : L)
    (istate jstate start_iter stop_iter : Z) (alpha acalpha : Q) (nsets : Z)
    (extrapolate : bool) (g g' : RNG) (p : payload L) :
  randint_in_range -> 0 <= start_iter < stop_iter ->
  _calc_ci_block block_label istate jstate start_iter stop_iter alpha acalpha nsets extrapolate g
    = inr (p, g') ->
  stop_iter - start_iter <= corr_len (result_value p) + 1 ->
  stop_iter + (corr_len (result_value p) + 1) <= 2 ^ 32 ->
  ci_lbound (result_value p) = expected (result_value p) /\
  ci_ubound (result_value p) = expected (result_value p).
Proof.
  intros Hr Hw H. apply calc_ci_block_inv in H.
  destruct H as (ov & mf & ctime & starts & stops & synth & e & lb & ub &
                 Hov & Hn & Hbb & Hbs & He & Hlb & Hub & ->).
  cbn [result_value ci_lbound ci_ubound expected corr_len]. intros Hc Hmax.
  rewrite single_block_bounds in Hbb by assumption. injection Hbb as <- <-.
  cbn [length] in Hbs. change (Z.of_nat 1) with 1 in Hbs.
  apply (bootstrap_sets_single_block _ _ _ _ _ _ _ _ _ _ _ _ _ Hr Hov He) in Hbs.
  cbn [app] in Hbs. subst synth.
  assert (Hsort : np_sort (replicate (Z.to_nat nsets) e) = replicate (Z.to_nat nsets) e).
  { symmetry. apply replicate_Permutation. symmetry. apply merge_sort_Permutation. }
  rewrite Hsort in Hlb, Hub.
  assert (Hget : forall i x, py_getitem (replicate (Z.to_nat nsets) e) i = inr x -> x = e).
  { intros i x Hx. unfold py_getitem in Hx.
    destruct (_ && _); [|discriminate].
    destruct (replicate _ e !! _) as [y|] eqn:Hy; [|discriminate].
    apply lookup_replicate in Hy. unfold ret in Hx. destruct Hy as [-> _]. congruence. }
  split; [exact (Hget _ _ Hlb)|exact (Hget _ _ Hub)].
Qed.

End CalcCIBlockMore.


(** An instance: the unit of the pair (1, 0) on the one-iteration window
    [[1, 2)]. *)
Lemma calc_ci_block_short_window_witness :
  0 <= 1 /\ 2 - 1 <= 1 /\
  @_calc_ci_block (toy_kinetics 0) _ (Some 1) 1 0 1 2 (1 # 2) (1 # 2) 4 true [] = inl IndexError.
Proof.
  split; [lia|]. split; [lia|].
  exact (@calc_ci_block_short_window (toy_kinetics 0) (option Z) (Some 1) 1 0 1 2
           (1 # 2) (1 # 2) 4 true [] ltac:(lia) ltac:(lia)).
Defined.

(** An instance: the window [[0, 3)] with correlation time 2, whatever the
    generator returns. *)
Lemma calc_ci_block_single_block_witness :
  @randint_in_range (toy_kinetics 2) /\ 0 <= 0 < 3 /\
  @_calc_ci_block (toy_kinetics 2) _ (Some 0) 0 1 0 3 (1 # 2) (1 # 2) 4 true [5; 7]
    = inr ((Some 0, 0, 1, {| iter_start := 0; iter_stop := 3; expected := 1;
                             ci_lbound := 1; ci_ubound := 1; corr_len := 2 |}), []) /\
  3 - 0 <= 2 + 1 /\ 3 + (2 + 1) <= 2 ^ 32 /\
  (1 = 1 /\ 1 = 1)%Q.
Proof.
  assert (H232 : 3 + (2 + 1) <= 2 ^ 32) by (vm_compute; discriminate).
  split; [apply script_randint_in_range|]. split; [lia|]. split; [reflexivity|].
  split; [lia|]. split; [exact H232|].
  exact (@calc_ci_block_single_block (toy_kinetics 2) (option Z) (Some 0) 0 1 0 3
           (1 # 2) (1 # 2) 4 true [5; 7] []
           (Some 0, 0, 1, {| iter_start := 0; iter_stop := 3; expected := 1;
                             ci_lbound := 1; ci_ubound := 1; corr_len := 2 |})
           (script_randint_in_range 2) ltac:(lia) eq_refl ltac:(cbn; lia) H232).
Defined.

(** ** The generator and the number of units *)

Section Draws.
Context `{K : Kinetics}.

Lemma draws_add (n m : nat) (a b : Z) (g : RNG) :
  snd (draws (n + m) a b g) = snd (draws m a b (snd (draws n a b g))).
Proof.
  revert g. induction n as [|n IH]; intros g; [reflexivity|].
  cbn [Nat.add draws]. destruct (randint a b g) as [d g1]. specialize (IH g1).
  destruct (draws (n + m) a b g1) as [ds g2]. destruct (draws n a b g1) as [ds' g3].
  cbn [snd] in *. exact IH.
Qed.

Lemma resample_blocks_rng (n : nat) (starts stops : list Z) (nblocks : Z)
    (st st' : Acc * Z) (g g' : RNG) :
  resample_blocks n starts stops nblocks st g = inr (st', g') ->
  g' = snd (draws n 0 (nblocks - 1) g).
Proof.
  revert st g. induction n as [|n IH]; intros st g H.
  - cbn in H. unfold ret in H. injection H as _ <-. reflexivity.
  - cbn [resample_blocks draws] in *. destruct (randint 0 (nblocks - 1) g) as [d g1].
    destruct (py_getitem starts d) as [e|lo]; [discriminate|]. cbn [ebind] in H.
    destruct (py_getitem stops d) as [e|hi]; [discriminate|]. cbn [ebind] in H.
    destruct (average_block (xrange lo hi) st) as [e|st1]; [discriminate|]. cbn [ebind] in H.
    apply IH in H. destruct (draws n 0 (nblocks - 1) g1) as [ds g2]. exact H.
Qed.

Lemma bootstrap_sets_rng (n : nat) (starts stops : list Z) (nblocks : Z)
    (extrapolate : bool) (istate jstate : Z) (synth synth' : list Q) (g g' : RNG) :
  bootstrap_sets n starts stops nblocks extrapolate istate jstate synth g = inr (synth', g') ->
  g' = snd (draws (n * Z.to_nat nblocks) 0 (nblocks - 1) g).
Proof.
  revert synth g. induction n as [|n IH]; intros synth g H.
  - cbn in H. unfold ret in H. injection H as _ <-. reflexivity.
  - cbn [bootstrap_sets] in H.
    destruct (resample_blocks _ starts stops nblocks (acc_zero, 0) g) as [e|[[avg c] g1]] eqn:Hr;
      [discriminate|].
    cbn [ebind] in H.
    destruct (get_macrostate_rates (acc_div avg c) extrapolate) as [e|mr]; [discriminate|].
    cbn [ebind] in H.
    destruct (rate_at mr istate jstate) as [e|r]; [discriminate|].
    cbn [ebind] in H. apply IH in H. apply resample_blocks_rng in Hr.
    cbn [Nat.mul]. rewrite draws_add, <- Hr. exact H.
Qed.

(** X13: a call of [_calc_ci_block] that returns has called [random.randint(0,
    nblocks - 1)] exactly [mcbs_nsets * nblocks] times, [nblocks] being the
    number of blocks of the window: the state in which it leaves the
    generator depends on the data through the correlation time only. *)
Theorem calc_ci_block_draws {L : Type} (block_label : L)
    (istate jstate start_iter stop_iter : Z) (alpha acalpha : Q) (nsets : Z)
    (extrapolate : bool) (g g' : RNG) (p : payload L) :
  _calc_ci_block block_label istate jstate start_iter stop_iter alpha acalpha nsets extrapolate g
    = inr (p, g') ->
  exists starts stops,
    block_bounds start_iter stop_iter (corr_len (result_value p) + 1) = inr (starts, stops) /\
    g' = snd (draws (Z.to_nat nsets * length starts) 0 (Z.of_nat (length starts) - 1) g).
Proof.
  intros H. apply calc_ci_block_inv in H.
  destruct H as (ov & mf & ctime & starts & stops & synth & e & lb & ub &
                 _ & _ & Hbb & Hbs & _ & _ & _ & ->).
  cbn [result_value corr_len]. exists starts, stops. split; [exact Hbb|].
  apply bootstrap_sets_rng in Hbs. rewrite Nat2Z.id in Hbs. exact Hbs.
Qed.

End Draws.

(** An instance: the window [[0, 5)] with correlation time 1 (3 blocks) and
    4 resamples uses up a script of 12 values. *)
Lemma calc_ci_block_draws_witness :
  @_calc_ci_block (toy_kinetics 1) _ (Some 0) 0 1 0 5 (1 # 2) (1 # 2) 4 true
      [0; 1; 2; 2; 2; 2; 0; 0; 1; 1; 1; 1; 9; 9] =
    inr ((Some 0, 0, 1,
          {| iter_start := 0; iter_stop := 5; expected := 2;
             ci_lbound := 2; ci_ubound := 4; corr_len := 1 |}), [9; 9]) /\
  [9; 9] = snd (@draws (toy_kinetics 1) (4 * 3) 0 2 [0; 1; 2; 2; 2; 2; 0; 0; 1; 1; 1; 1; 9; 9]).
Proof.
  split; [reflexivity|].
  destruct (@calc_ci_block_draws (toy_kinetics 1) (option Z) (Some 0) 0 1 0 5 (1 # 2) (1 # 2) 4
              true [0; 1; 2; 2; 2; 2; 0; 0; 1; 1; 1; 1; 9; 9] [9; 9]
              (Some 0, 0, 1, {| iter_start := 0; iter_stop := 5; expected := 2;
                                ci_lbound := 2; ci_ubound := 4; corr_len := 1 |}) eq_refl)
    as (starts & stops & Hbb & Hg).
  assert (Hc : block_bounds 0 5 (1 + 1) = inr ([0; 2; 4], [2; 4; 5])) by reflexivity.
  cbn [result_value corr_len] in Hbb. rewrite Hc in Hbb. injection Hbb as <- <-. exact Hg.
Defined.

Lemma length_flat_map_const {A B : Type} (f : A -> list B) (l : list A) (n : nat) :
  (forall x, In x l -> length (f x) = n) -> length (flat_map f l) = (length l * n)%nat.
Proof.
  induction l as [|x l IH]; intros H; [reflexivity|].
  cbn [flat_map length]. rewrite length_app, (H x (or_introl eq_refl)), IH; [lia|].
  intros y Hy. apply H. right. exact Hy.
Qed.

Lemma state_pairs_row_length (nstates istate : Z) :
  0 <= istate < nstates ->
  length (flat_map (fun jstate => if istate =? jstate then [] else [(istate, jstate)])
                   (xrange 0 nstates)) = Z.to_nat (nstates - 1).
Proof.
  intros Hi. rewrite <- (xrange_app 0 istate nstates) by lia.
  rewrite (xrange_cons istate nstates) by lia.
  rewrite flat_map_app. cbn [flat_map]. rewrite Z.eqb_refl. cbn [app].
  rewrite length_app.
  rewrite (length_flat_map_const _ (xrange 0 istate) 1), (length_flat_map_const _ (xrange (istate + 1) nstates) 1).
  - rewrite !xrange_length. lia.
  - intros j Hj. apply xrange_In in Hj. destruct (Z.eqb_spec istate j); [lia|reflexivity].
  - intros j Hj. apply xrange_In in Hj. destruct (Z.eqb_spec istate j); [lia|reflexivity].
Qed.

(** X14: the double loop over the states skips the diagonal and visits
    [nstates * (nstates - 1)] pairs; the matrix subcommand submits one unit
    per pair for the overall averages and one unit per pair and window for
    the evolution. *)
Theorem matrix_units_count `{K : Kinetics} (worker_rng : option Z -> Z -> Z -> RNG)
    (cfg : config) (nstates : Z) :
  0 <= nstates ->
  Z.of_nat (length (state_pairs nstates)) = nstates * (nstates - 1) /\
  Z.of_nat (length (matrix_overall_futures worker_rng cfg nstates)) = nstates * (nstates - 1) /\
  Z.of_nat (length (matrix_evolution_futures worker_rng cfg nstates)) =
    nstates * (nstates - 1) *
    Z.of_nat (length (evolution_windows (evolution_mode_of cfg) (evol_window_frac cfg)
                        (cfg_iter_start cfg) (cfg_iter_stop cfg) (cfg_iter_step cfg))).
Proof.
  intros Hn.
  assert (Hpairs : Z.of_nat (length (state_pairs nstates)) = nstates * (nstates - 1)).
  { unfold state_pairs.
    rewrite (length_flat_map_const _ (xrange 0 nstates) (Z.to_nat (nstates - 1))).
    - rewrite xrange_length. nia.
    - intros i Hi. apply xrange_In in Hi. apply state_pairs_row_length. exact Hi. }
  split; [exact Hpairs|]. split.
  - unfold matrix_overall_futures. rewrite length_map. exact Hpairs.
  - unfold matrix_evolution_futures, matrix_evolution_units. rewrite length_map.
    rewrite (length_flat_map_const _ (state_pairs nstates)
               (length (evolution_windows (evolution_mode_of cfg) (evol_window_frac cfg)
                          (cfg_iter_start cfg) (cfg_iter_stop cfg) (cfg_iter_step cfg)))).
    + rewrite Nat2Z.inj_mul, Hpairs. reflexivity.
    + intros [i j] _. apply length_map.
Qed.

(** An instance: three states and the four windows of [start=0, stop=100,
    step=25]: 6 units, then 24. *)
Lemma matrix_units_count_witness :
  0 <= 3 /\
  Z.of_nat (length (state_pairs 3)) = 6 /\
  Z.of_nat (length (@matrix_evolution_futures (toy_kinetics 0) toy_worker_rng
                      (toy_config blocked 1 0 100 25) 3)) = 24.
Proof.
  split; [lia|].
  destruct (@matrix_units_count (toy_kinetics 0) toy_worker_rng (toy_config blocked 1 0 100 25) 3
              ltac:(lia)) as (H1 & _ & H3).
  split; [exact H1|]. rewrite H3. reflexivity.
Defined.

(** ** More on [AvgMatrixSubcommand.go] *)


Section MatrixGoMore.
Context `{K : Kinetics}.
Variable as_completed : forall A : Type, list A -> list A.
Variable worker_rng : option Z -> Z -> Z -> RNG.
Hypothesis as_completed_yields_all : yields_all as_completed.

(** A unit on a window of at most [istate] iterations holds an exception. *)
Lemma submit_short_window_fails {L : Type} (label : L) (seed : option Z) (cfg : config)
    (istate jstate start_iter stop_iter : Z) :
  0 <= istate -> stop_iter - start_iter <= istate ->
  exists e, submit_calc_ci_block worker_rng label seed cfg istate jstate start_iter stop_iter
            = inl e.
Proof.
  intros Hi Hshort. unfold submit_calc_ci_block, _calc_ci_block.
  destruct (overall_average start_iter stop_iter (extrapolate_of cfg)) as [e|[ov mf]] eqn:Hov;
    [exists e; reflexivity|].
  cbn [ebind]. apply overall_average_inv in Hov. destruct Hov as (_ & _ & _ & _ & Hlen).
  rewrite py_getitem_out_of_range by lia. exists IndexError. reflexivity.
Qed.

(** X15: with at least two states and fewer iterations in the range than
    states, the matrix subcommand never gets past the overall averages: the
    unit of the pair [(nstates - 1, 0)] fails, the run ends with an
    exception and the output file stays empty. *)
Theorem matrix_go_short_range (cfg : config) (nstates : Z) (state_labels : list string) :
  2 <= nstates -> cfg_iter_stop cfg - cfg_iter_start cfg < nstates ->
  exists e,
    AvgMatrixSubcommand_go as_completed worker_rng cfg nstates state_labels = Aborted e ∅.
Proof.
  intros Hn Hshort. unfold AvgMatrixSubcommand_go.
  destruct (negb (nstates =? Z.of_nat (length state_labels))); [exists AssertionError; reflexivity|].
  destruct (scatter_units_failed (submit_overall worker_rng cfg) (fun '(i, j) => [i; j])
              avg_key result_value (state_pairs nstates) (np_zeros [nstates; nstates])
              (as_completed _ (matrix_overall_futures worker_rng cfg nstates)))
    as (e & _ & Hsc).
  - intros [i j] p Hp. apply submit_calc_ci_block_identity in Hp. destruct Hp as [ci ->].
    reflexivity.
  - intros [i j] Hin. apply list_elem_of_In, elem_of_state_pairs in Hin.
    apply nd_index_in_range. repeat constructor; lia.
  - apply as_completed_yields_all.
  - destruct (submit_short_window_fails tt None cfg (nstates - 1) 0
                (cfg_iter_start cfg) (cfg_iter_stop cfg) ltac:(lia) ltac:(lia)) as [e He].
    exists e. apply in_map_iff. exists (nstates - 1, 0). split; [exact He|].
    apply list_elem_of_In, elem_of_state_pairs. lia.
  - exists e. unfold collect_avg_rates. rewrite Hsc. reflexivity.
Qed.






End MatrixGoMore.

(** An instance: two states on the one-iteration range [[0, 1)]. *)
Lemma matrix_go_short_range_witness :
  yields_all reverse_completion /\ 2 <= 2 /\ 1 - 0 < 2 /\
  @AvgMatrixSubcommand_go (toy_kinetics 0) reverse_completion toy_worker_rng
     (toy_config none 1 0 1 1) 2 ["a"; "b"]%string = Aborted IndexError ∅.
Proof.
  split; [apply reverse_completion_yields_all|]. split; [lia|]. split; [lia|].
  destruct (@matrix_go_short_range (toy_kinetics 0) reverse_completion toy_worker_rng
              reverse_completion_yields_all (toy_config none 1 0 1 1) 2 ["a"; "b"]%string
              ltac:(lia) ltac:(cbn; lia)) as [e He].
  rewrite He. vm_compute in He. injection He as <-. reflexivity.
Defined.



(** ** More on the trace subcommand *)

Lemma create_dataset_fresh (name : string) (v : ds_value) (file : gmap string dataset) :
  file !! name = None -> create_dataset name v file = inr (<[name := new_dataset v]> file).
Proof. intros H. unfold create_dataset. rewrite H. reflexivity. Qed.

Lemma state_pairs_first (nstates : Z) :
  2 <= nstates -> exists rest, state_pairs nstates = (0, 1) :: rest.
Proof.
  intros Hn. unfold state_pairs.
  rewrite (xrange_cons 0 nstates), (xrange_cons (0 + 1) nstates) by lia.
  cbn [flat_map]. change (0 =? 0) with true. change (0 =? 0 + 1) with false.
  cbn [app]. eexists. reflexivity.
Qed.

(** X18: [_eval_block] returns a result only when there is no state: with at
    least one state its second call of [mcbs_ci_correl] evaluates
    [scipy.stats.sem], and [scipy] is not a name of the module, so the unit
    raises [NameError] as soon as the first call has returned. *)
Theorem eval_block_never_returns `{T : TraceData} (iblock start stop nstates : Z)
    (total_fluxes : list (list Q)) (cond_fluxes rates : list (list (list Q)))
    (alpha : Q) (nsets : Z) (acalpha : Q) :
  (nstates <= 0 ->
   _eval_block iblock start stop nstates total_fluxes cond_fluxes rates alpha nsets acalpha
     = inr ([], [], [])) /\
  (0 < nstates ->
   exists e,
     _eval_block iblock start stop nstates total_fluxes cond_fluxes rates alpha nsets acalpha
       = inl e /\
     forall s ci, column2 total_fluxes 0 = inr s ->
                  mcbs_ci_correl s numpy_mean alpha nsets acalpha = inr ci -> e = NameError).
Proof.
  split.
  - intros Hn. unfold _eval_block. rewrite xrange_empty by lia. reflexivity.
  - intros Hn. unfold _eval_block. rewrite (xrange_cons 0 nstates Hn). cbn [efold].
    unfold eval_series at 1. unfold call_mcbs_ci_correl.
    destruct (column2 total_fluxes 0) as [e|s] eqn:Hcol; cbn [ebind].
    + exists e. split; [reflexivity|]. intros s ci Hs. discriminate.
    + cbn. destruct (mcbs_ci_correl s numpy_mean alpha nsets acalpha) as [e|ci] eqn:Hci; cbn.
      * exists e. split; [reflexivity|]. intros s' ci' Hs Hci'. congruence.
      * exists NameError. split; [reflexivity|]. reflexivity.
Qed.

Section TraceGoMore.
Context `{T : TraceData}.
Variable as_completed : forall A : Type, list A -> list A.
Hypothesis as_completed_yields_all : yields_all as_completed.

(** The three calls made for a state pair by lines 275-285: the third one
    needs [scipy.stats.sem]. *)
Lemma average_series_raises (cfg : config) (series : exn + list Q) :
  exists e, average_series cfg series = inl e.
Proof.
  unfold average_series, call_mcbs_ci_correl. destruct series as [e|s]; [exists e; reflexivity|].
  cbn.
  destruct (mcbs_ci_correl s numpy_mean _ _ _) as [e|ci]; [exists e; reflexivity|]. cbn.
  destruct (mcbs_ci_correl s numpy_var _ _ _) as [e|v]; [exists e; reflexivity|].
  exists NameError. reflexivity.
Qed.

Lemma average_pairs_raises (cfg : config) (nstates : Z) :
  2 <= nstates -> exists e, average_pairs cfg nstates = inl e.
Proof.
  intros Hn. unfold average_pairs. destruct (state_pairs_first nstates Hn) as [rest ->].
  cbn [efold].
  destruct (average_series_raises cfg
              (column3 (cond_fluxes_slice (cfg_iter_start cfg) (cfg_iter_stop cfg)) 0 1))
    as [e He].
  rewrite He. exists e. reflexivity.
Qed.

(** The collecting loop of lines 382-395 on a list of futures that all hold
    an exception. *)
Lemma collect_trace_evol_all_failed (completed : list (future block_results))
    (arrays : evol_arrays) :
  completed <> [] -> Forall (fun f => exists e, f = inl e) completed ->
  exists e, collect_trace_evol completed arrays = inl e.
Proof.
  intros Hne Hall. destruct completed as [|f rest]; [contradiction|].
  apply Forall_cons in Hall. destruct Hall as [[e ->] _]. exists e. reflexivity.
Qed.

(** X19: a run of the trace subcommand completes only when there is exactly
    one state (with two or more, the averages over state pairs evaluate
    [scipy.stats.sem]; with none, [max()] is applied to an empty sequence),
    and then only without bootstrap evolution over at least one window. *)
Theorem trace_go_completes_only_single_state (cfg : config) (nstates : Z)
    (state_labels : list string) (file : gmap string dataset) :
  AvgTraceSubcommand_go as_completed cfg nstates state_labels = Completed file ->
  nstates = 1 /\
  (evolution_mode_of cfg = none \/ cfg_iter_step cfg = 0 \/ est_type cfg = block \/
   evolution_windows (evolution_mode_of cfg) (evol_window_frac cfg)
     (cfg_iter_start cfg) (cfg_iter_stop cfg) (cfg_iter_step cfg) = []).
Proof.
  unfold AvgTraceSubcommand_go. intros H.
  destruct (Z.eqb_spec nstates (Z.of_nat (length state_labels))) as [Hlen|]; [|discriminate].
  cbn [negb] in H.
  assert (Hn : nstates < 2).
  { destruct (Z.lt_ge_cases nstates 2) as [|Hge]; [assumption|exfalso].
    destruct (average_pairs_raises cfg nstates Hge) as [e He].
    rewrite He in H. destruct (average_total_fluxes cfg nstates); discriminate. }
  destruct (let* t := average_total_fluxes cfg nstates in _) as [e|[[t c] r]]; [discriminate|].
  destruct (save_averages cfg state_labels t c r ∅) as [e|file0]; [discriminate|].
  destruct state_labels as [|l0 ls]; [discriminate|].
  split; [cbn [length] in Hlen; lia|].
  destruct (evolution_mode_of cfg) eqn:Hm; [| |left; reflexivity].
  all: destruct (Z.eqb_spec (cfg_iter_step cfg) 0) as [Hz|Hnz]; [right; left; exact Hz|].
  all: destruct (est_type cfg); [|right; right; left; reflexivity].
  all: right; right; right.
  all: match type of H with
       | context [map ?f ?ws] =>
           destruct ws as [|w ws'] eqn:Hws; [reflexivity|exfalso];
           destruct (collect_trace_evol_all_failed (as_completed _ (map f (w :: ws')))
                       (np_zeros [Z.of_nat (length (w :: ws')); nstates],
                        np_zeros [Z.of_nat (length (w :: ws')); nstates; nstates],
                        np_zeros [Z.of_nat (length (w :: ws')); nstates; nstates]))
             as [e He]
       end.
  1,4: intros Hnil; pose proof (as_completed_yields_all _ (map (submit_eval_block cfg nstates) (w :: ws'))) as Hp;
    rewrite Hnil in Hp; apply Permutation_nil_l in Hp; discriminate.
  1,3: rewrite (as_completed_yields_all _ _); apply List.Forall_forall;
    intros f Hf; apply in_map_iff in Hf; destruct Hf as ([b [s e]] & <- & _);
    apply eval_block_raises; cbn [length] in Hlen; lia.
  all: rewrite He in H; discriminate.
Qed.

End TraceGoMore.

Section NoStates.
Context `{K : Kinetics} `{T : TraceData}.
Variable as_completed : forall A : Type, list A -> list A.
Variable worker_rng : option Z -> Z -> Z -> RNG.
Hypothesis as_completed_yields_all : yields_all as_completed.

Lemma dom_stamp_in_file (cfg : config) (name : string) (file : gmap string dataset) :
  dom (stamp_in_file cfg name file) = dom file.
Proof.
  unfold stamp_in_file. destruct (file !! name) as [ds|] eqn:Hn; [|reflexivity].
  rewrite dom_insert_L. apply subseteq_union_1_L, singleton_subseteq_l.
  apply elem_of_dom_2 in Hn. exact Hn.
Qed.

Lemma as_completed_nil (A : Type) : as_completed A [] = [].
Proof. apply Permutation_nil_r. apply as_completed_yields_all. Qed.

(** X20: with no state at all, both subcommands write their (empty) averages
    and then raise [ValueError]: [max(map(len, state_labels))] is applied to
    an empty sequence. *)
Theorem no_states_ValueError (cfg : config) :
  (exists file,
     AvgMatrixSubcommand_go as_completed worker_rng cfg 0 [] = Aborted ValueError file /\
     dom file = {[ "avg_rates"%string ]}) /\
  (exists file,
     AvgTraceSubcommand_go as_completed cfg 0 [] = Aborted ValueError file /\
     dom file = {[ "avg_rates"%string; "avg_conditional_fluxes"%string;
                   "avg_total_fluxes"%string; "state_labels"%string ]}).
Proof.
  split.
  - unfold AvgMatrixSubcommand_go, matrix_overall_futures. cbn [length Z.of_nat Z.eqb negb].
    change (state_pairs 0) with (@nil (Z * Z)). cbn [map]. rewrite as_completed_nil.
    cbn [collect_avg_rates scatter ret]. eexists. split; [reflexivity|].
    unfold stamp_in_file. rewrite lookup_insert_eq, insert_insert_eq.
    rewrite dom_insert_L, dom_empty_L. set_solver.
  - unfold AvgTraceSubcommand_go. cbn [length Z.of_nat Z.eqb negb].
    unfold average_total_fluxes, average_pairs. change (state_pairs 0) with (@nil (Z * Z)).
    change (xrange 0 0) with (@nil Z). cbn [efold ebind ret].
    unfold save_averages.
    do 3 (rewrite create_dataset_fresh
            by (rewrite ?lookup_insert_ne by discriminate; apply lookup_empty);
          cbn [ebind]).
    rewrite create_dataset_fresh.
    2:{ rewrite !lookup_stamp_in_file. repeat (destruct (decide _) as [E|_]; [discriminate E|]).
        rewrite !lookup_insert_ne by discriminate. apply lookup_empty. }
    eexists. split; [reflexivity|].
    rewrite dom_insert_L, !dom_stamp_in_file, !dom_insert_L, dom_empty_L. set_solver.
Qed.

End NoStates.

(** An instance: one state, bootstrap, no evolution. *)
Lemma trace_go_completes_only_single_state_witness :
  yields_all submission_order /\
  exists file,
    @AvgTraceSubcommand_go toy_trace submission_order (toy_config none 1 0 8 8) 1 ["a"]%string
      = Completed file /\
    (1 = 1 /\ (none = none \/ 8 = 0 \/ bootstrap = block \/
               evolution_windows none 1 0 8 8 = [])).
Proof.
  split; [apply submission_order_yields_all|].
  eexists. split; [vm_compute; reflexivity|].
  refine (@trace_go_completes_only_single_state toy_trace submission_order
            submission_order_yields_all (toy_config none 1 0 8 8) 1 ["a"]%string _ _).
  vm_compute; reflexivity.
Defined.

(** An instance: the matrix subcommand on an assignments file without
    states. *)
Lemma no_states_ValueError_witness :
  yields_all reverse_completion /\
  exists file,
    @AvgMatrixSubcommand_go (toy_kinetics 0) reverse_completion toy_worker_rng
       (toy_config blocked 1 0 4 2) 0 [] = Aborted ValueError file /\
    dom file = {[ "avg_rates"%string ]}.
Proof.
  split; [apply reverse_completion_yields_all|].
  exact (proj1 (@no_states_ValueError (toy_kinetics 0) toy_trace reverse_completion
                  toy_worker_rng reverse_completion_yields_all
                  (toy_config blocked 1 0 4 2))).
Defined.

(** ** More on block averaging *)

Lemma efold_unchanged {A S : Type} (body : S -> A -> exn + S) (l : list A) (s : S) :
  (forall s x, In x l -> body s x = inr s) -> efold body l s = inr s.
Proof.
  induction l as [|x l IH]; intros H; [reflexivity|].
  cbn [efold]. rewrite (H s x (or_introl eq_refl)). cbn [ebind].
  apply IH. intros s' y Hy. apply H. right. exact Hy.
Qed.

Lemma emap_take {A B : Type} (f : A -> exn + B) (l : list A) (ys : list B) (n : nat) :
  emap f l = inr ys -> emap f (take n l) = inr (take n ys).
Proof.
  revert ys n. induction l as [|x l IH]; intros ys n H.
  - cbn in H. unfold ret in H. injection H as <-. destruct n; reflexivity.
  - cbn [emap] in H. destruct (f x) as [e|y] eqn:Hx; [discriminate|]. cbn [ebind] in H.
    destruct (emap f l) as [e|ys'] eqn:Hl; [discriminate|]. cbn [ebind ret] in H.
    injection H as <-. destruct n as [|n]; [reflexivity|].
    cbn [take emap]. rewrite Hx. cbn [ebind]. rewrite (IH ys' n eq_refl). reflexivity.
Qed.

Lemma emap_drop {A B : Type} (f : A -> exn + B) (l : list A) (ys : list B) (n : nat) :
  emap f l = inr ys -> emap f (drop n l) = inr (drop n ys).
Proof.
  revert ys n. induction l as [|x l IH]; intros ys n H.
  - cbn in H. unfold ret in H. injection H as <-. destruct n; reflexivity.
  - destruct n as [|n]; [exact H|].
    cbn [emap] in H. destruct (f x) as [e|y]; [discriminate|]. cbn [ebind] in H.
    destruct (emap f l) as [e|ys'] eqn:Hl; [discriminate|]. cbn [ebind ret] in H.
    injection H as <-. cbn [drop]. apply IH. reflexivity.
Qed.

Lemma emap_py_slice {A B : Type} (f : A -> exn + B) (l : list A) (ys : list B) (a b : Z) :
  emap f l = inr ys -> emap f (py_slice l a b) = inr (py_slice ys a b).
Proof. intros H. unfold py_slice. apply emap_take, emap_drop, H. Qed.

Lemma emap_length {A B : Type} (f : A -> exn + B) (l : list A) (ys : list B) :
  emap f l = inr ys -> length ys = length l.
Proof.
  revert ys. induction l as [|x l IH]; intros ys H.
  - cbn in H. unfold ret in H. injection H as <-. reflexivity.
  - cbn [emap] in H. destruct (f x) as [e|y]; [discriminate|]. cbn [ebind] in H.
    destruct (emap f l) as [e|ys'] eqn:Hl; [discriminate|]. cbn [ebind ret] in H.
    injection H as <-. cbn [length]. rewrite (IH ys' eq_refl). reflexivity.
Qed.

Lemma emap_total {A B : Type} (f : A -> exn + B) (g : A -> B) (l : list A) :
  (forall x, f x = inr (g x)) -> emap f l = inr (map g l).
Proof.
  intros H. induction l as [|x l IH]; [reflexivity|].
  cbn [emap map]. rewrite H, IH. reflexivity.
Qed.

Lemma py_slice_all {A : Type} (l : list A) : py_slice l 0 (Z.of_nat (length l)) = l.
Proof.
  unfold py_slice. change (Z.to_nat 0) with O. rewrite drop_0. apply take_ge. lia.
Qed.

(** The slices of a column are the column of the slices. *)
Lemma dataset_block_slice (d : block_dataset) (istate jstate : Z) (col : list Q) (a b : Z) :
  dataset_block d 0 (dataset_len d) istate jstate = inr col ->
  dataset_block d a b istate jstate = inr (py_slice col a b) /\
  Z.of_nat (length col) = dataset_len d.
Proof.
  destruct d as [rows|rows]; cbn [dataset_block dataset_len]; rewrite py_slice_all;
    unfold column2, column3; intros H.
  all: split; [apply emap_py_slice, H|apply emap_length in H; lia].
Qed.

(** Consecutive chunks of length [b] are the beginning of the list. *)
Lemma chunks_take {A : Type} (l : list A) (b : Z) (q : nat) :
  0 <= b ->
  flat_map (fun k => py_slice l (b * Z.of_nat k) (b * (Z.of_nat k + 1))) (seq 0 q)
  = take (Z.to_nat (b * Z.of_nat q)) l.
Proof.
  intros Hb. induction q as [|q IH].
  - cbn. rewrite Z.mul_0_r. reflexivity.
  - rewrite seq_S, flat_map_app, IH. cbn [flat_map Nat.add]. rewrite app_nil_r.
    unfold py_slice.
    replace (Z.to_nat (b * (Z.of_nat q + 1) - b * Z.of_nat q)) with (Z.to_nat b) by nia.
    rewrite take_take_drop. f_equal. nia.
Qed.

Section BlockAverageMore.
Context `{T : TraceData}.

Lemma block_avg_dataset_short (d : block_dataset) (start stop nstates : Z)
    (result : ndarray ci_record) :
  dataset_len d <= 5 -> block_avg_dataset d start stop nstates result = inr result.
Proof.
  intros Hlen. unfold block_avg_dataset.
  assert (Hq : dataset_len d / 2 - 1 <= 1).
  { assert (dataset_len d / 2 < 3); [|lia]. apply Z.div_lt_upper_bound; lia. }
  rewrite (xrange_empty 1) by exact Hq.
  apply efold_unchanged. intros s i _. apply efold_unchanged. intros s' j _. reflexivity.
Qed.

(** X21: on a window of fewer than 6 iterations the loop over block sizes
    [xrange(1, int(len/2) - 1)] is empty: [_eval_block_avg] returns three
    arrays of zeros, whatever the data. *)
Theorem eval_block_avg_short_window (iblock start stop nstates : Z)
    (total_fluxes : list (list Q)) (cond_fluxes rates : list (list (list Q)))
    (mcbs_alpha : Q) (mcbs_nsets : Z) (mcbs_acalpha : Q) :
  (length total_fluxes <= 5)%nat -> (length cond_fluxes <= 5)%nat -> (length rates <= 5)%nat ->
  let shape := [Z.of_nat (length rates) / 2; nstates; nstates] in
  _eval_block_avg iblock start stop nstates total_fluxes cond_fluxes rates
                  mcbs_alpha mcbs_nsets mcbs_acalpha
  = inr (np_zeros shape, np_zeros shape, np_zeros shape, stop).
Proof.
  intros H0 H1 H2 shape. unfold _eval_block_avg. fold shape.
  rewrite !block_avg_dataset_short by (cbn [dataset_len]; lia). reflexivity.
Qed.

(** X22: the values averaged for a block size are the means of the
    consecutive blocks of that size of the column of the window; the blocks
    cover its first [blocksize * (len / blocksize)] entries, and the
    remaining [len mod blocksize] entries at the end are left out. *)
Theorem block_means_are_chunk_means (d : block_dataset) (blocksize istate jstate : Z)
    (col : list Q) :
  dataset_block d 0 (dataset_len d) istate jstate = inr col -> 1 <= blocksize ->
  let nblocks := dataset_len d / blocksize in
  Z.of_nat (length col) = dataset_len d /\
  block_means d blocksize istate jstate =
    inr (map (fun k => np_mean (py_slice col (blocksize * k) (blocksize * (k + 1))))
             (xrange 0 nblocks)) /\
  flat_map (fun k => py_slice col (blocksize * k) (blocksize * (k + 1))) (xrange 0 nblocks)
    = take (Z.to_nat (blocksize * nblocks)) col.
Proof.
  intros Hcol Hb nblocks.
  split; [apply (dataset_block_slice d istate jstate col 0 0 Hcol)|]. split.
  - unfold block_means. fold nblocks. apply emap_total. intros k.
    rewrite (proj1 (dataset_block_slice d istate jstate col _ _ Hcol)). reflexivity.
  - assert (Hn : 0 <= nblocks).
    { subst nblocks. apply Z.div_pos; [destruct d; cbn; lia|lia]. }
    rewrite xrange_spec, flat_map_concat_map, map_map, <- flat_map_concat_map.
    rewrite Z.sub_0_r.
    erewrite flat_map_ext; [rewrite (chunks_take col blocksize) by lia|].
    + f_equal. lia.
    + intros k. cbv beta. f_equal; lia.
Qed.


End BlockAverageMore.

(** An instance: the window [[0, 5)] of the example data. *)
Lemma eval_block_avg_short_window_witness :
  (length (@total_fluxes_slice toy_trace 0 5) <= 5)%nat /\
  (length (@rates_slice toy_trace 0 5) <= 5)%nat /\
  @_eval_block_avg toy_trace 0 0 5 1 (@total_fluxes_slice toy_trace 0 5)
     (@cond_fluxes_slice toy_trace 0 5) (@rates_slice toy_trace 0 5) (1 # 2) 4 (1 # 2)
  = inr (np_zeros [2; 1; 1], np_zeros [2; 1; 1], np_zeros [2; 1; 1], 5).
Proof.
  assert (H0 : (length (@total_fluxes_slice toy_trace 0 5) <= 5)%nat) by (vm_compute; lia).
  assert (H1 : (length (@cond_fluxes_slice toy_trace 0 5) <= 5)%nat) by (vm_compute; lia).
  assert (H2 : (length (@rates_slice toy_trace 0 5) <= 5)%nat) by (vm_compute; lia).
  split; [exact H0|]. split; [exact H2|].
  exact (@eval_block_avg_short_window toy_trace 0 0 5 1 _ _ _ (1 # 2) 4 (1 # 2) H0 H1 H2).
Defined.

(** An instance: blocks of size 3 of the window [[0, 8)]: two blocks, with
    means 1 and 4; the iterations 6 and 7 are left out. *)
Lemma block_means_are_chunk_means_witness :
  dataset_block (PerPair (@rates_slice toy_trace 0 8)) 0 8 0 0
    = inr (map inject_Z (xrange 0 8)) /\
  1 <= 3 /\
  exists m0 m1,
    @block_means (PerPair (@rates_slice toy_trace 0 8)) 3 0 0 = inr [m0; m1] /\
    (m0 == 1)%Q /\ (m1 == 4)%Q.
Proof.
  assert (Hcol : dataset_block (PerPair (@rates_slice toy_trace 0 8)) 0
                   (dataset_len (PerPair (@rates_slice toy_trace 0 8))) 0 0
                 = inr (map inject_Z (xrange 0 8))) by reflexivity.
  split; [exact Hcol|]. split; [lia|].
  destruct (block_means_are_chunk_means (PerPair (@rates_slice toy_trace 0 8)) 3 0 0
              (map inject_Z (xrange 0 8)) Hcol ltac:(lia)) as (_ & Hm & _).
  eexists _, _. split; [exact Hm|]. split; reflexivity.
Defined.


(** ** The datasets of [--type block] *)

Lemma write_all_perm (l l' : list (string * dataset)) :
  NoDup (map fst l) -> l ≡ₚ l' -> forall file, write_all l file = write_all l' file.
Proof.
  intros Hnd Hp. induction Hp as [|x l l' Hp IH|x y l|l l' l'' Hp1 IH1 Hp2 IH2]; intros file.
  - reflexivity.
  - cbn. apply IH. cbn in Hnd. apply NoDup_cons in Hnd. apply Hnd.
  - cbn. f_equal. cbn in Hnd. apply NoDup_cons in Hnd. destruct Hnd as [Hy _].
    apply insert_insert_ne. intros Heq. apply Hy. rewrite Heq. left.
  - rewrite IH1 by exact Hnd. apply IH2.
    rewrite <- (Permutation_map fst Hp1). exact Hnd.
Qed.

Lemma write_all_other (l : list (string * dataset)) (k : string) :
  k ∉ map fst l -> forall file, write_all l file !! k = file !! k.
Proof.
  induction l as [|y l IH]; intros Hk file; [reflexivity|].
  cbn [write_all foldl]. fold (write_all l (<[fst y := snd y]> file)).
  rewrite IH.
  - apply lookup_insert_ne. intros Heq. apply Hk. rewrite <- Heq. left.
  - intros Hin. apply Hk. right. exact Hin.
Qed.

Lemma write_all_lookup (l : list (string * dataset)) (k : string) (v : dataset) :
  NoDup (map fst l) -> In (k, v) l -> forall file, write_all l file !! k = Some v.
Proof.
  induction l as [|x l IH]; intros Hnd Hin file; [destruct Hin|].
  cbn [map] in Hnd. apply NoDup_cons in Hnd. destruct Hnd as [Hx Hnd].
  cbn [write_all foldl]. fold (write_all l (<[fst x := snd x]> file)).
  destruct Hin as [->|Hin].
  - cbn [fst snd] in *. rewrite write_all_other by exact Hx. apply lookup_insert_eq.
  - apply IH; assumption.
Qed.

Lemma write_all_app (l1 l2 : list (string * dataset)) (file : gmap string dataset) :
  write_all (l1 ++ l2) file = write_all l2 (write_all l1 file).
Proof. unfold write_all. apply foldl_app. Qed.

Lemma block_avg_writes_names (istate : Z)
    (x : ndarray ci_record * ndarray ci_record * ndarray ci_record * Z) :
  map fst (block_avg_writes istate x) = block_avg_names istate (result_stop x).
Proof. destruct x as [[[t c] r] stop]. reflexivity. Qed.

Ltac name_clash H :=
  unfold block_avg_names in H;
  repeat (apply elem_of_cons in H; destruct H as [H|H]);
  try (apply elem_of_nil in H; destruct H).

(** The names of two windows that end at different iterations differ, and
    so do the three names of one window. *)
Lemma block_avg_names_inj (istate s1 s2 : Z) (name : string) :
  name ∈ block_avg_names istate s1 -> name ∈ block_avg_names istate s2 -> s1 = s2.
Proof.
  intros H1 H2. name_clash H1; name_clash H2; subst name.
  all: try (cbn [String.append] in H2; discriminate H2).
  all: repeat (apply (inj (String.append _)) in H2).
  all: apply (inj pretty) in H2; congruence.
Qed.

Lemma NoDup_block_avg_names (istate stop : Z) : NoDup (block_avg_names istate stop).
Proof.
  unfold block_avg_names. repeat (apply NoDup_cons; split); [| | |apply NoDup_nil_2].
  all: intros H; repeat (apply elem_of_cons in H; destruct H as [H|H]);
    try (apply elem_of_nil in H; destruct H).
  all: cbn [String.append] in H; discriminate H.
Qed.

Lemma NoDup_block_avg_writes (istate : Z)
    (rs : list (ndarray ci_record * ndarray ci_record * ndarray ci_record * Z)) :
  NoDup (map result_stop rs) ->
  NoDup (map fst (flat_map (block_avg_writes istate) rs)).
Proof.
  intros Hnd.
  assert (Heq : map fst (flat_map (block_avg_writes istate) rs)
                = map result_stop rs ≫= block_avg_names istate).
  { clear Hnd. induction rs as [|x rs IH]; [reflexivity|].
    cbn [flat_map map]. rewrite map_app, IH, block_avg_writes_names. reflexivity. }
  rewrite Heq. apply NoDup_bind; [| |exact Hnd].
  - intros s1 s2 name _ _. apply block_avg_names_inj.
  - intros s _. apply NoDup_block_avg_names.
Qed.

(** The loop of lines 407-424 over results whose windows end at different
    iterations, on a file that has none of their names: every
    [create_dataset] succeeds. *)
Lemma collect_block_avg_writes (istate : Z)
    (rs : list (ndarray ci_record * ndarray ci_record * ndarray ci_record * Z))
    (file : gmap string dataset) :
  NoDup (map result_stop rs) ->
  (forall k, k ∈ map fst (flat_map (block_avg_writes istate) rs) -> file !! k = None) ->
  collect_block_avg (map inr rs) istate file
  = Completed (write_all (flat_map (block_avg_writes istate) rs) file).
Proof.
  intros Hnd. apply NoDup_block_avg_writes with (istate := istate) in Hnd.
  revert file Hnd. induction rs as [|x rs IH]; intros file Hnd Hfresh; [reflexivity|].
  destruct x as [[[t c] r] stop].
  cbn [flat_map] in Hnd, Hfresh. rewrite map_app in Hnd, Hfresh.
  apply NoDup_app in Hnd. destruct Hnd as (Hx & Hdisj & Hrs).
  cbn [block_avg_writes map fst] in Hx, Hdisj, Hfresh.
  apply NoDup_cons in Hx. destruct Hx as [H12 Hx].
  apply NoDup_cons in Hx. destruct Hx as [H23 _].
  cbn [map collect_block_avg get_result flat_map]. rewrite write_all_app.
  cbn [block_avg_writes write_all foldl fst snd].
  set (n1 := ("block_avg_conditional_flux " +:+ _)%string) in *.
  set (n2 := ("block_avg_target_flux " +:+ _)%string) in *.
  set (n3 := ("block_avg rate final " +:+ _)%string) in *.
  assert (Hne12 : n1 <> n2) by (intros E; apply H12; rewrite E; left).
  assert (Hne13 : n1 <> n3) by (intros E; apply H12; rewrite E; right; left).
  assert (Hne23 : n2 <> n3) by (intros E; apply H23; rewrite E; left).
  assert (Hhere : forall k, k ∈ [n1; n2; n3] -> file !! k = None).
  { intros k Hk. apply Hfresh, elem_of_app. left. exact Hk. }
  rewrite create_dataset_fresh by (apply Hhere; left).
  rewrite create_dataset_fresh.
  2:{ rewrite lookup_insert_ne by exact Hne12. apply Hhere. right. left. }
  rewrite create_dataset_fresh.
  2:{ rewrite !lookup_insert_ne by (exact Hne13 || exact Hne23). apply Hhere. right. right. left. }
  apply IH; [exact Hrs|].
  intros k Hk. rewrite !lookup_insert_ne.
  - apply Hfresh, elem_of_app. right. exact Hk.
  - intros Heq. apply (Hdisj k); [rewrite <- Heq; left|exact Hk].
  - intros Heq. apply (Hdisj k); [rewrite <- Heq; right; left|exact Hk].
  - intros Heq. apply (Hdisj k); [rewrite <- Heq; right; right; left|exact Hk].
Qed.

(** In the order of completion the loop writes what it writes in the order
    of submission. *)
Lemma collect_block_avg_perm (istate : Z)
    (rs : list (ndarray ci_record * ndarray ci_record * ndarray ci_record * Z))
    (completed : list (future (ndarray ci_record * ndarray ci_record * ndarray ci_record * Z)))
    (file : gmap string dataset) :
  NoDup (map result_stop rs) ->
  (forall k, k ∈ map fst (flat_map (block_avg_writes istate) rs) -> file !! k = None) ->
  completed ≡ₚ map inr rs ->
  collect_block_avg completed istate file
  = Completed (write_all (flat_map (block_avg_writes istate) rs) file).
Proof.
  intros Hnd Hfresh Hp. apply Permutation_map_inv in Hp. destruct Hp as (rs' & -> & Hp).
  rewrite collect_block_avg_writes.
  - f_equal. symmetry. apply write_all_perm.
    + apply NoDup_block_avg_writes, Hnd.
    + apply Permutation_flat_map, Hp.
  - rewrite <- Hp. exact Hnd.
  - intros k Hk. apply Hfresh. rewrite Hp. exact Hk.
Qed.

(** The windows end at increasing iterations. *)
Lemma NoDup_window_stops (mode : evolution_mode) (frac : Q) (start_iter stop_iter step_iter : Z) :
  0 < step_iter ->
  NoDup (map (fun w => snd (snd w))
             (evolution_windows mode frac start_iter stop_iter step_iter)).
Proof.
  intros Hs.
  assert (Hmode : mode = none \/ mode <> none)
    by (destruct mode; [right; discriminate|right; discriminate|left; reflexivity]).
  destruct Hmode as [->|Hm]; [constructor|].
  rewrite evolution_windows_unfold by assumption. rewrite map_map.
  assert (Heq : map (fun k => snd (snd (Z.of_nat k, plan_block mode frac start_iter stop_iter
                                          step_iter (start_iter + Z.of_nat k * step_iter))))
                    (seq 0 (Z.to_nat (range_len start_iter stop_iter step_iter)))
                = map (fun k => Z.min (start_iter + Z.of_nat k * step_iter + step_iter) stop_iter)
                      (seq 0 (Z.to_nat (range_len start_iter stop_iter step_iter)))).
  { apply map_ext. intros k. destruct mode; reflexivity. }
  rewrite Heq.
  destruct (Z.le_gt_cases stop_iter start_iter) as [Hle|Hlt].
  { assert (Hn : range_len start_iter stop_iter step_iter <= 0).
    { unfold range_len.
      assert ((stop_iter - start_iter + step_iter - 1) / step_iter < 1); [|lia].
      apply Z.div_lt_upper_bound; lia. }
    replace (Z.to_nat _) with O by lia. constructor. }
  pose proof (range_len_exhausts start_iter stop_iter step_iter Hlt Hs) as Hn. cbv zeta in Hn.
  apply NoDup_fmap_2_strong; [|apply NoDup_seq].
  intros k1 k2 Hk1 Hk2 Heq'. apply elem_of_seq in Hk1, Hk2. nia.
Qed.

Section BlockModeGo.
Context `{T : TraceData}.
Variable as_completed : forall A : Type, list A -> list A.
Hypothesis as_completed_yields_all : yields_all as_completed.

Lemma submit_eval_block_avg_stop (cfg : config) (nstates : Z) (w : Z * (Z * Z))
    (x : ndarray ci_record * ndarray ci_record * ndarray ci_record * Z) :
  submit_eval_block_avg cfg nstates w = inr x -> result_stop x = snd (snd w).
Proof.
  destruct w as [b [s e]]. unfold submit_eval_block_avg, _eval_block_avg. intros H.
  repeat match type of H with
         | ebind ?m _ = _ => destruct m as [?|?]; cbn [ebind] in H; [discriminate|]
         end.
  unfold ret in H. injection H as <-. reflexivity.
Qed.

Lemma save_averages_names (cfg : config) (state_labels : list string)
    (t c r : ndarray trace_cell) (file : gmap string dataset) (k : string) :
  save_averages cfg state_labels t c r ∅ = inr file ->
  k ∉ ["avg_rates"; "avg_conditional_fluxes"; "avg_total_fluxes"; "state_labels"]%string ->
  file !! k = None.
Proof.
  intros H Hk. unfold save_averages in H.
  destruct (create_dataset "avg_rates" (DTrace r) ∅) as [e|f1] eqn:H1; [discriminate|].
  cbn [ebind] in H.
  destruct (create_dataset "avg_conditional_fluxes" (DTrace c) f1) as [e|f2] eqn:H2;
    [discriminate|].
  cbn [ebind] in H.
  destruct (create_dataset "avg_total_fluxes" (DTrace t) f2) as [e|f3] eqn:H3; [discriminate|].
  cbn [ebind] in H.
  apply create_dataset_inr in H1, H2, H3, H. subst.
  assert (Hne : forall n, n ∈ ["avg_rates"; "avg_conditional_fluxes"; "avg_total_fluxes";
                               "state_labels"]%string -> n <> k).
  { intros n Hn ->. exact (Hk Hn). }
  rewrite lookup_insert_ne by (apply Hne; do 3 right; left).
  rewrite !lookup_stamp_in_file.
  repeat (destruct (decide _) as [E|_];
          [exfalso; revert E; apply Hne; repeat (first [left; fail|right]); try left|]).
  rewrite !lookup_insert_ne; [apply lookup_empty|..]; apply Hne.
  all: repeat constructor.
Qed.

(** X24: with [--type block] and a positive step, when every unit holds its
    result the run does not depend on the order in which the futures
    complete; and in the file of a run that completed each window has its
    three datasets, named after the iteration at which it ends, holding the
    arrays of its unit. *)
Theorem block_mode_order_irrelevant (cfg : config) (nstates : Z) (state_labels : list string) :
  est_type cfg = block -> 0 < cfg_iter_step cfg ->
  let windows :=
    evolution_windows (evolution_mode_of cfg) (evol_window_frac cfg)
      (cfg_iter_start cfg) (cfg_iter_stop cfg) (cfg_iter_step cfg) in
  all_done (map (submit_eval_block_avg cfg nstates) windows) ->
  AvgTraceSubcommand_go as_completed cfg nstates state_labels =
    AvgTraceSubcommand_go (fun _ l => l) cfg nstates state_labels /\
  forall file w target_results condflux_results rate_results stop,
    AvgTraceSubcommand_go as_completed cfg nstates state_labels = Completed file ->
    In w windows ->
    submit_eval_block_avg cfg nstates w
      = inr (target_results, condflux_results, rate_results, stop) ->
    stop = snd (snd w) /\
    file !! ("block_avg_conditional_flux " +:+ py_str (nstates - 1) +:+ " final " +:+ py_str stop)
      = Some (new_dataset (DBlock condflux_results)) /\
    file !! ("block_avg_target_flux " +:+ py_str (nstates - 1) +:+ " final " +:+ py_str stop)
      = Some (new_dataset (DBlock target_results)) /\
    file !! ("block_avg rate final " +:+ py_str stop) = Some (new_dataset (DBlock rate_results)).
Proof.
  intros Hblock Hstep windows Hdone.
  destruct (all_done_values _ Hdone) as [rs Hrs].
  pose proof (results_of_units _ _ _ Hrs) as Hur.
  assert (Hstops : map result_stop rs = map (fun w => snd (snd w)) windows).
  { clear -Hur. induction Hur as [|w x ws xs Hw _ IH]; [reflexivity|].
    cbn [map]. rewrite IH, (submit_eval_block_avg_stop _ _ _ _ Hw). reflexivity. }
  assert (Hnd : NoDup (map result_stop rs)).
  { rewrite Hstops. apply NoDup_window_stops, Hstep. }
  assert (Hcollect : forall file0 t c r,
            save_averages cfg state_labels t c r ∅ = inr file0 ->
            forall completed, completed ≡ₚ map inr rs ->
            collect_block_avg completed (nstates - 1) file0
            = Completed (write_all (flat_map (block_avg_writes (nstates - 1)) rs) file0)).
  { intros file0 t c r Hsave completed Hp.
    apply collect_block_avg_perm; [exact Hnd| |exact Hp].
    intros k Hk. apply (save_averages_names _ _ _ _ _ _ _ Hsave).
    apply list_elem_of_In, in_map_iff in Hk. destruct Hk as ([k' v] & <- & Hin).
    apply in_flat_map in Hin. destruct Hin as ([[[t' c'] r'] s'] & _ & Hin).
    cbn [block_avg_writes fst] in *.
    intros Hbad. repeat (destruct Hin as [Hin|Hin]; [injection Hin as <- _|]);
      [| | |destruct Hin].
    all: repeat (apply elem_of_cons in Hbad; destruct Hbad as [Hbad|Hbad]);
      try (apply elem_of_nil in Hbad; destruct Hbad).
    all: cbn [String.append] in Hbad; discriminate Hbad. }
  unfold AvgTraceSubcommand_go. fold windows.
  destruct (negb (nstates =? Z.of_nat (length state_labels)));
    [split; [reflexivity|discriminate]|].
  destruct (let* t := average_total_fluxes cfg nstates in _) as [e|[[t c] r]];
    [split; [reflexivity|discriminate]|].
  destruct (save_averages cfg state_labels t c r ∅) as [e|file0] eqn:Hsave;
    [split; [reflexivity|discriminate]|].
  destruct state_labels as [|l0 ls]; [split; [reflexivity|discriminate]|].
  assert (Hwin : evolution_mode_of cfg = none -> windows = []).
  { intros Hm. subst windows. rewrite Hm. reflexivity. }
  rewrite Hblock.
  assert (Hgoal :
    collect_block_avg (as_completed _ (map (submit_eval_block_avg cfg nstates) windows))
                      (nstates - 1) file0 =
    collect_block_avg (map (submit_eval_block_avg cfg nstates) windows) (nstates - 1) file0 /\
    forall file w target_results condflux_results rate_results stop,
      collect_block_avg (as_completed _ (map (submit_eval_block_avg cfg nstates) windows))
                        (nstates - 1) file0 = Completed file ->
      In w windows ->
      submit_eval_block_avg cfg nstates w
        = inr (target_results, condflux_results, rate_results, stop) ->
      stop = snd (snd w) /\
      file !! ("block_avg_conditional_flux " +:+ py_str (nstates - 1) +:+ " final " +:+ py_str stop)
        = Some (new_dataset (DBlock condflux_results)) /\
      file !! ("block_avg_target_flux " +:+ py_str (nstates - 1) +:+ " final " +:+ py_str stop)
        = Some (new_dataset (DBlock target_results)) /\
      file !! ("block_avg rate final " +:+ py_str stop)
        = Some (new_dataset (DBlock rate_results))).
  { rewrite (Hcollect file0 t c r Hsave (as_completed _ _)).
    2:{ rewrite <- Hrs. apply as_completed_yields_all. }
    rewrite (Hcollect file0 t c r Hsave (map (submit_eval_block_avg cfg nstates) windows)).
    2:{ rewrite Hrs. reflexivity. }
    split; [reflexivity|].
    intros file w tr cr rr stop Hfile Hw Hsub. injection Hfile as <-.
    split; [exact (submit_eval_block_avg_stop _ _ _ _ Hsub)|].
    assert (Hin : In (tr, cr, rr, stop) rs).
    { clear -Hur Hw Hsub. induction Hur as [|w' x ws xs Hw' _ IH]; [destruct Hw|].
      destruct Hw as [->|Hw]; [left; congruence|right; apply IH, Hw]. }
    pose proof (NoDup_block_avg_writes (nstates - 1) rs Hnd) as Hndw.
    repeat split; apply write_all_lookup; try exact Hndw.
    all: apply in_flat_map; exists (tr, cr, rr, stop); split; [exact Hin|].
    all: cbn [block_avg_writes]; auto using in_eq, in_cons. }
  destruct (evolution_mode_of cfg) eqn:Hm.
  3:{ split; [reflexivity|]. intros file w tr cr rr stop _ Hw. rewrite Hwin in Hw by reflexivity.
      destruct Hw. }
  all: destruct (Z.eqb_spec (cfg_iter_step cfg) 0) as [Hz|_]; [lia|].
  all: exact Hgoal.
Qed.

End BlockModeGo.

(** An instance: one state, the windows [[0, 8)] and [[8, 16)], and the
    futures completing in the reverse of the order of submission. *)
Lemma block_mode_order_irrelevant_witness :
  yields_all reverse_completion /\ 0 < 8 /\
  all_done (map (@submit_eval_block_avg toy_trace (toy_block_config blocked 1 0 16 8) 1)
                (evolution_windows blocked 1 0 16 8)) /\
  @AvgTraceSubcommand_go toy_trace reverse_completion (toy_block_config blocked 1 0 16 8) 1
     ["a"]%string =
  @AvgTraceSubcommand_go toy_trace submission_order (toy_block_config blocked 1 0 16 8) 1
     ["a"]%string.
Proof.
  assert (Hdone : all_done (map (@submit_eval_block_avg toy_trace
                                   (toy_block_config blocked 1 0 16 8) 1)
                                (evolution_windows blocked 1 0 16 8))).
  { vm_compute. repeat constructor; eexists; reflexivity. }
  split; [apply reverse_completion_yields_all|]. split; [lia|]. split; [exact Hdone|].
  exact (proj1 (@block_mode_order_irrelevant toy_trace reverse_completion
                  reverse_completion_yields_all (toy_block_config blocked 1 0 16 8) 1
                  ["a"]%string eq_refl ltac:(cbn; lia) Hdone)).
Defined.
